(** * subiz/agi: the AGI protocol engine of [agi.go]

    A shallow embedding of the session handshake ([NewWithEAGI]), the
    command executor ([Command]), the FastAGI listener ([Listen]) and
    the commands built on [Command], together with the parts of the Go
    standard library they call ([strings], [unicode/utf8], [strconv],
    [regexp], [bufio]).

    Go strings are byte sequences: they are modelled as [string], whose
    characters ([ascii]) are exactly the 256 byte values.  Go's [int] is
    taken to be 64 bits wide. *)

From Stdlib Require Import ZArith NArith Ascii Lia.
From Stdlib Require String DecimalString.
From stdpp Require Import base option list gmap strings.

Local Open Scope Z_scope.

(** ** Bytes *)

(** The numeric value of a byte, [0 <= byte c < 256]. *)
Definition byte (c : ascii) : Z := Z.of_N (N_of_ascii c).

Definition byte_in (lo hi : Z) (c : ascii) : bool :=
  (lo <=? byte c) && (byte c <=? hi).

Definition byte_is (c d : ascii) : bool := Ascii.eqb c d.

(** [len(s)] as a Go [int]. *)
Definition len (s : string) : Z := Z.of_nat (String.length s).

(** [s[i:]] for [0 <= i <= len(s)]. *)
Fixpoint string_drop (n : nat) (s : string) : string :=
  match n, s with
  | O, _ => s
  | S n', String _ s' => string_drop n' s'
  | S _, EmptyString => EmptyString
  end.

(** [s[:i]] for [0 <= i <= len(s)]. *)
Fixpoint string_take (n : nat) (s : string) : string :=
  match n, s with
  | O, _ => EmptyString
  | S n', String a s' => String a (string_take n' s')
  | S _, EmptyString => EmptyString
  end.

(** ** Package [strings] *)

(** [strings.HasPrefix(s, prefix)] *)
Fixpoint strings_HasPrefix (s prefix : string) : bool :=
  match prefix, s with
  | EmptyString, _ => true
  | String p prefix', String a s' => byte_is a p && strings_HasPrefix s' prefix'
  | String _ _, EmptyString => false
  end.

(** [strings.HasSuffix(s, suffix)] *)
Definition strings_HasSuffix (s suffix : string) : bool :=
  (String.length suffix <=? String.length s)%nat &&
  String.eqb (string_drop (String.length s - String.length suffix) s) suffix.

(** [strings.TrimPrefix(s, prefix)]: [s] without the leading [prefix],
    unchanged when [s] does not start with it. *)
Definition strings_TrimPrefix (s prefix : string) : string :=
  if strings_HasPrefix s prefix then string_drop (String.length prefix) s else s.

(** [strings.TrimSuffix(s, suffix)] *)
Definition strings_TrimSuffix (s suffix : string) : string :=
  if strings_HasSuffix s suffix
  then string_take (String.length s - String.length suffix) s
  else s.

(** [strings.Join(elems, sep)] *)
Fixpoint strings_Join (elems : list string) (sep : string) : string :=
  match elems with
  | [] => ""
  | [e] => e
  | e :: rest => e +:+ sep +:+ strings_Join rest sep
  end.

(** [strings.Index(s, substr)]: the offset of the first occurrence, if any. *)
Fixpoint strings_Index (s substr : string) : option nat :=
  if strings_HasPrefix s substr then Some O
  else match s with
       | EmptyString => None
       | String _ s' => S <$> strings_Index s' substr
       end.

(** [strings.SplitN(s, sep, n)] for a non-empty separator and [n >= 0]:
    at most [n] pieces, the last one being the unsplit remainder. *)
Fixpoint strings_SplitN (s sep : string) (n : nat) : list string :=
  match n with
  | O => []
  | S O => [s]
  | S n' =>
      match strings_Index s sep with
      | None => [s]
      | Some m =>
          string_take m s
            :: strings_SplitN (string_drop (m + String.length sep) s) sep n'
      end
  end.

(** ** Package [unicode/utf8] *)

Definition RuneError : Z := 65533.
Definition RuneSelf : Z := 128.
Definition UTFMax : nat := 4.

(** Continuation bytes are [10xxxxxx]. *)
Definition locb : Z := 128.
Definition hicb : Z := 191.

(** [utf8.RuneStart(b)]: [b] is not a continuation byte. *)
Definition utf8_RuneStart (b : ascii) : bool :=
  negb (Z.land (byte b) 192 =? 128).

(** The table [first] with [acceptRanges]: for a leading byte, the length
    of the sequence it starts and the range allowed for the second byte;
    [None] for the bytes that start no multi-byte sequence. *)
Definition utf8_first (b0 : Z) : option (nat * Z * Z) :=
  if (194 <=? b0) && (b0 <=? 223) then Some (2%nat, locb, hicb)
  else if b0 =? 224 then Some (3%nat, 160, hicb)
  else if (225 <=? b0) && (b0 <=? 236) then Some (3%nat, locb, hicb)
  else if b0 =? 237 then Some (3%nat, locb, 159)
  else if (238 <=? b0) && (b0 <=? 239) then Some (3%nat, locb, hicb)
  else if b0 =? 240 then Some (4%nat, 144, hicb)
  else if (241 <=? b0) && (b0 <=? 243) then Some (4%nat, locb, hicb)
  else if b0 =? 244 then Some (4%nat, locb, 143)
  else None.

(** [utf8.DecodeRuneInString(s)]: the first rune of [s] and its width in
    bytes; [(RuneError, 0)] on the empty string and [(RuneError, 1)] on an
    invalid encoding. *)
Definition utf8_DecodeRuneInString (s : string) : Z * nat :=
  match s with
  | EmptyString => (RuneError, 0%nat)
  | String c0 t0 =>
      let s0 := byte c0 in
      if s0 <? RuneSelf then (s0, 1%nat)
      else
        match utf8_first s0 with
        | None => (RuneError, 1%nat)
        | Some (sz, lo, hi) =>
            match t0 with
            | EmptyString => (RuneError, 1%nat)
            | String c1 t1 =>
                let s1 := byte c1 in
                if (String.length s <? sz)%nat then (RuneError, 1%nat)
                else if (s1 <? lo) || (hi <? s1) then (RuneError, 1%nat)
                else if (sz <=? 2)%nat then
                  (Z.lor (Z.shiftl (Z.land s0 31) 6) (Z.land s1 63), 2%nat)
                else
                  match t1 with
                  | EmptyString => (RuneError, 1%nat)
                  | String c2 t2 =>
                      let s2 := byte c2 in
                      if (s2 <? locb) || (hicb <? s2) then (RuneError, 1%nat)
                      else if (sz <=? 3)%nat then
                        (Z.lor (Z.lor (Z.shiftl (Z.land s0 15) 12)
                                      (Z.shiftl (Z.land s1 63) 6))
                               (Z.land s2 63), 3%nat)
                      else
                        match t2 with
                        | EmptyString => (RuneError, 1%nat)
                        | String c3 _ =>
                            let s3 := byte c3 in
                            if (s3 <? locb) || (hicb <? s3)
                            then (RuneError, 1%nat)
                            else
                              (Z.lor (Z.lor (Z.lor
                                 (Z.shiftl (Z.land s0 7) 18)
                                 (Z.shiftl (Z.land s1 63) 12))
                                 (Z.shiftl (Z.land s2 63) 6))
                                 (Z.land s3 63), 4%nat)
                        end
                  end
            end
        end
  end.

(** The last byte of a non-empty string. *)
Fixpoint string_last (s : string) : option ascii :=
  match s with
  | EmptyString => None
  | String a EmptyString => Some a
  | String _ s' => string_last s'
  end.

(** The backward search of [DecodeLastRuneInString] for the start of the
    last rune: from offset [start], step back while the byte there is a
    continuation byte, at most down to [lim]. *)
Fixpoint utf8_back (s : string) (start lim : nat) (fuel : nat) : nat :=
  match fuel with
  | O => start
  | S fuel' =>
      if (start <? lim)%nat then start
      else
        match String.get start s with
        | Some b =>
            if utf8_RuneStart b then start
            else match start with
                 | O => O
                 | S start' =>
                     if (start' <? lim)%nat then start'
                     else utf8_back s start' lim fuel'
                 end
        | None => start
        end
  end.

(** [utf8.DecodeLastRuneInString(s)]: the last rune of [s] and its width. *)
Definition utf8_DecodeLastRuneInString (s : string) : Z * nat :=
  match string_last s with
  | None => (RuneError, 0%nat)
  | Some b =>
      if byte b <? RuneSelf then (byte b, 1%nat)
      else
        let e := String.length s in
        let lim := (e - UTFMax)%nat in
        let start :=
          match (e - 1)%nat with
          | O => O
          | S p => if (p <? lim)%nat then p else utf8_back s p lim UTFMax
          end in
        let '(r, size) := utf8_DecodeRuneInString (string_drop start s) in
        if (start + size =? e)%nat then (r, size) else (RuneError, 1%nat)
  end.

(** ** Package [unicode] *)

(** [unicode.IsSpace(r)]: the Latin-1 spaces and the [White_Space] table. *)
Definition unicode_IsSpace (r : Z) : bool :=
  if r <=? 255 then
    (r =? 9) || (r =? 10) || (r =? 11) || (r =? 12) || (r =? 13)
    || (r =? 32) || (r =? 133) || (r =? 160)
  else
    (r =? 5760) || ((8192 <=? r) && (r <=? 8202))
    || (r =? 8232) || (r =? 8233) || (r =? 8239) || (r =? 8287)
    || (r =? 12288).

(** [strings.TrimLeftFunc(s, unicode.IsSpace)] *)
Fixpoint strings_TrimLeftSpace (s : string) : string :=
  match s with
  | EmptyString => EmptyString
  | String _ s1 =>
      let '(r, size) := utf8_DecodeRuneInString s in
      if unicode_IsSpace r then
        match size, s1 with
        | 1%nat, _ => strings_TrimLeftSpace s1
        | 2%nat, String _ s2 => strings_TrimLeftSpace s2
        | 3%nat, String _ (String _ s3) => strings_TrimLeftSpace s3
        | 4%nat, String _ (String _ (String _ s4)) => strings_TrimLeftSpace s4
        | _, _ => s
        end
      else s
  end.

(** [strings.TrimRightFunc(s, unicode.IsSpace)]; [fuel] bounds the number
    of runes removed. *)
Fixpoint strings_TrimRightSpace_go (fuel : nat) (s : string) : string :=
  match fuel with
  | O => s
  | S fuel' =>
      let '(r, size) := utf8_DecodeLastRuneInString s in
      match size with
      | O => s
      | _ =>
          if unicode_IsSpace r
          then strings_TrimRightSpace_go fuel'
                 (string_take (String.length s - size) s)
          else s
      end
  end.

Definition strings_TrimRightSpace (s : string) : string :=
  strings_TrimRightSpace_go (String.length s) s.

(** [strings.TrimSpace(s)]: [s] without leading and trailing Unicode white
    space.  Go's ASCII fast path computes the same slice as
    [TrimFunc(s, unicode.IsSpace)]. *)
Definition strings_TrimSpace (s : string) : string :=
  strings_TrimRightSpace (strings_TrimLeftSpace s).

(** ** Package [strconv] *)

Inductive strconv_Err := ErrSyntax | ErrRange.

(** [*strconv.NumError]: the failing function, the input and the reason. *)
Record NumError := mkNumError {
  Func : string;
  Num : string;
  Err : strconv_Err
}.

Definition intSize : Z := 64.
Definition maxUint64 : Z := 2 ^ 64 - 1.

(** [ch -= '0'] on a [byte]: subtraction wraps around at 256. *)
Definition digit_of (ch : ascii) : Z := (byte ch - 48) mod 256.

(** The digit loop of the fast path of [Atoi]: [None] on a non-digit. *)
Fixpoint Atoi_digits (s : string) (n : Z) : option Z :=
  match s with
  | EmptyString => Some n
  | String ch s' =>
      let d := digit_of ch in
      if 9 <? d then None else Atoi_digits s' (n * 10 + d)
  end.

(** [lower(c)] of [strconv]: [c | ('x' - 'X')]. *)
Definition strconv_lower (c : ascii) : Z := Z.lor (byte c) 32.

(** The digit loop of [strconv.ParseUint(s, 10, 0)] for a non-empty [s]:
    the value, with the error met first. *)
Fixpoint ParseUint_loop (s : string) (n : Z) : Z * option strconv_Err :=
  match s with
  | EmptyString => (n, None)
  | String c s' =>
      let d :=
        if byte_in 48 57 c then Some (byte c - 48)
        else if (97 <=? strconv_lower c) && (strconv_lower c <=? 122)
             then Some (strconv_lower c - 97 + 10)
             else None in
      match d with
      | None => (0, Some ErrSyntax)
      | Some d =>
          if 10 <=? d then (0, Some ErrSyntax)
          else if maxUint64 / 10 + 1 <=? n then (maxUint64, Some ErrRange)
          else
            let n1 := n * 10 + d in
            if maxUint64 <? n1 then (maxUint64, Some ErrRange)
            else ParseUint_loop s' n1
      end
  end.

Definition strconv_ParseUint (s : string) : Z * option strconv_Err :=
  match s with
  | EmptyString => (0, Some ErrSyntax)
  | _ => ParseUint_loop s 0
  end.

(** [strconv.ParseInt(s, 10, 0)] *)
Definition strconv_ParseInt (s : string) : Z * option strconv_Err :=
  match s with
  | EmptyString => (0, Some ErrSyntax)
  | String c0 s1 =>
      let neg := byte_is c0 "-" in
      let digits := if byte_is c0 "+" || neg then s1 else s in
      match strconv_ParseUint digits with
      | (_, Some ErrSyntax) => (0, Some ErrSyntax)
      | (un, _) =>
          let cutoff := 2 ^ (intSize - 1) in
          if negb neg && (cutoff <=? un) then (cutoff - 1, Some ErrRange)
          else if neg && (cutoff <? un) then (- cutoff, Some ErrRange)
          else (if neg then - un else un, None)
      end
  end.

(** [strconv.Atoi(s)]: the value returned together with the error.  On a
    syntax error the value is 0; on a range error it is the nearest bound
    of [int]. *)
Definition strconv_Atoi (s : string) : Z * option NumError :=
  let sLen := len s in
  if (0 <? sLen) && (sLen <? 19) then
    match s with
    | EmptyString => (0, Some (mkNumError "Atoi" s ErrSyntax))
    | String c0 s1 =>
        let signed := byte_is c0 "-" || byte_is c0 "+" in
        let digits := if signed then s1 else s in
        if signed && (len digits <? 1)
        then (0, Some (mkNumError "Atoi" s ErrSyntax))
        else
          match Atoi_digits digits 0 with
          | None => (0, Some (mkNumError "Atoi" s ErrSyntax))
          | Some n => (if byte_is c0 "-" then - n else n, None)
          end
    end
  else
    match strconv_ParseInt s with
    | (i64, Some e) => (i64, Some (mkNumError "Atoi" s e))
    | (i64, None) => (i64, None)
    end.

(** ** Package [regexp] *)

(** The syntax tree of a regular expression, after [regexp/syntax]. *)
Inductive Regexp :=
| OpEmptyMatch                              (* the empty string *)
| OpCharClass (class : ascii -> bool)       (* one byte of a class *)
| OpBeginText                               (* [^], without flag [m] *)
| OpEndText                                 (* [$], without flag [m] *)
| OpCapture (index : nat) (sub : Regexp)    (* [( )] *)
| OpStar (sub : Regexp)                     (* greedy [*] *)
| OpQuest (sub : Regexp)                    (* greedy [?] *)
| OpRepeat (count : nat) (sub : Regexp)     (* [{n}] *)
| OpConcat (sub1 sub2 : Regexp)
| OpAlternate (sub1 sub2 : Regexp).

(** [\d] and [[:alnum:]] are ASCII-only; [\s] is [[\t\n\f\r ]]; [.] is any
    character but the newline (an invalid UTF-8 byte is matched as one
    character, so on a line without newline [.*] runs to its end). *)
Definition class_digit (c : ascii) : bool := byte_in 48 57 c.
Definition class_alnum (c : ascii) : bool :=
  byte_in 48 57 c || byte_in 65 90 c || byte_in 97 122 c.
Definition class_space (c : ascii) : bool :=
  (byte c =? 9) || (byte c =? 10) || (byte c =? 12) || (byte c =? 13)
  || (byte c =? 32).
Definition class_any_not_nl (c : ascii) : bool := negb (byte c =? 10).

Definition OpLiteral (c : ascii) : Regexp := OpCharClass (fun a => byte_is a c).

Fixpoint OpLiteralString (s : string) : Regexp :=
  match s with
  | EmptyString => OpEmptyMatch
  | String c EmptyString => OpLiteral c
  | String c s' => OpConcat (OpLiteral c) (OpLiteralString s')
  end.

(** The text captured by each group, [None] for a group that took no part
    in the match. *)
Definition Captures := list (option string).

Definition set_capture (i : nat) (text : string) (caps : Captures) : Captures :=
  <[i := Some text]> caps.

(** A matcher takes the offset, the text from there on, the captures so
    far and the continuation that matches the rest of the expression. *)
Definition Cont := nat -> string -> Captures -> option Captures.
Definition Matcher := nat -> string -> Captures -> Cont -> option Captures.

(** One byte of a class. *)
Definition class_matcher (class : ascii -> bool) : Matcher :=
  fun pos s caps k =>
    match s with
    | String a s' => if class a then k (S pos) s' caps else None
    | EmptyString => None
    end.

(** Greedy iteration of [sub]: first one more round of [sub], which has to
    consume input, then the continuation.  [fuel] bounds the number of
    rounds; the length of the text is enough. *)
Fixpoint star_loop (sub : Matcher) (k : Cont) (fuel pos : nat) (s : string)
    (caps : Captures) : option Captures :=
  match fuel with
  | O => k pos s caps
  | S fuel' =>
      match sub pos s caps
              (fun pos' s' caps' =>
                 if (pos <? pos')%nat then star_loop sub k fuel' pos' s' caps'
                 else None) with
      | Some m => Some m
      | None => k pos s caps
      end
  end.

(** [count] rounds of [sub], then the continuation. *)
Fixpoint repeat_loop (sub : Matcher) (k : Cont) (count pos : nat) (s : string)
    (caps : Captures) : option Captures :=
  match count with
  | O => k pos s caps
  | S count' => sub pos s caps (repeat_loop sub k count')
  end.

(** The backtracking matcher: [backtrack re pos s caps k] matches [re] at
    offset [pos], where [s] is the text from [pos] on, and continues with
    [k] on what is left.  Alternatives are tried in the order of
    preference of the leftmost-first semantics: a greedy operator first
    tries to match its operand. *)
Fixpoint backtrack (re : Regexp) : Matcher :=
  fun pos s caps k =>
  match re with
  | OpEmptyMatch => k pos s caps
  | OpCharClass class => class_matcher class pos s caps k
  | OpBeginText => if (pos =? 0)%nat then k pos s caps else None
  | OpEndText =>
      match s with
      | EmptyString => k pos s caps
      | String _ _ => None
      end
  | OpCapture i sub =>
      backtrack sub pos s caps
        (fun pos' s' caps' =>
           k pos' s' (set_capture i (string_take (pos' - pos) s) caps'))
  | OpStar sub => star_loop (backtrack sub) k (String.length s) pos s caps
  | OpQuest sub =>
      match backtrack sub pos s caps k with
      | Some m => Some m
      | None => k pos s caps
      end
  | OpRepeat count sub => repeat_loop (backtrack sub) k count pos s caps
  | OpConcat sub1 sub2 =>
      backtrack sub1 pos s caps
        (fun pos' s' caps' => backtrack sub2 pos' s' caps' k)
  | OpAlternate sub1 sub2 =>
      match backtrack sub1 pos s caps k with
      | Some m => Some m
      | None => backtrack sub2 pos s caps k
      end
  end.

(** The leftmost match: the start offsets are tried from left to right. *)
Fixpoint find_from (re : Regexp) (ngroups : nat) (pos : nat) (s : string)
    : option Captures :=
  let m :=
    backtrack re pos s (replicate (S ngroups) None)
      (fun pos' _ caps => Some (set_capture 0 (string_take (pos' - pos) s) caps)) in
  match m with
  | Some caps => Some caps
  | None =>
      match s with
      | EmptyString => None
      | String _ s' => find_from re ngroups (S pos) s'
      end
  end.

(** [re.FindStringSubmatch(s)]: [None] for Go's [nil]; otherwise the text
    of the leftmost match followed by the text of each group, the empty
    string standing for a group that did not take part. *)
Definition FindStringSubmatch (re : Regexp) (ngroups : nat) (s : string)
    : option (list string) :=
  (fun caps : Captures => default "" <$> caps) <$> find_from re ngroups 0 s.

(** [OpConcat] of a sequence of sub-expressions. *)
Fixpoint OpConcats (subs : list Regexp) : Regexp :=
  match subs with
  | [] => OpEmptyMatch
  | [sub] => sub
  | sub :: rest => OpConcat sub (OpConcats rest)
  end.

(** ** Package [io] *)

(** What an [io.Reader] delivers to the scanner that reads it: the bytes
    it hands over and then either the end of the stream ([io.EOF] or a
    read error, which the scanner treats alike) or nothing more, the
    reader blocking for good (or beyond the deadline of the command).
    This is the text one scanner sees; it has no position, and says
    nothing of what is left for the next scanner: [Source], further down,
    is a reader with a position. *)
Record io_Reader := mkReader {
  delivered : string;
  closes : bool
}.

(** An [io.Writer]: [Write(p)] succeeds or fails with an error whose
    [Error()] text is given.  A [Write] that does not return is not
    modelled. *)
Record io_Writer := mkWriter {
  Write : string -> option string
}.

(** ** Package [bufio] *)

Definition MaxScanTokenSize : Z := 64 * 1024.

(** [dropCR]: a line without its trailing carriage return. *)
Definition dropCR (data : string) : string :=
  match string_last data with
  | Some c => if byte_is c "013" then string_take (String.length data - 1) data
              else data
  | None => data
  end.

(** The text cut at every newline: the newline-terminated segments
    followed by the (possibly empty) unterminated rest. *)
Fixpoint segments (data : string) : list string :=
  match data with
  | EmptyString => [EmptyString]
  | String a data' =>
      if byte_is a "010" then EmptyString :: segments data'
      else match segments data' with
           | seg :: segs => String a seg :: segs
           | [] => [String a EmptyString]
           end
  end.

(** How a loop [for s.Scan() { ... }] that is not left early comes to its
    end: [Scan] returns false, or never returns. *)
Inductive ScanEnd := ScanStops | ScanBlocks.

(** The tokens of a [bufio.Scanner] with the default split function
    [ScanLines] and the default buffer: one token per newline-terminated
    segment and one for a non-empty unterminated rest at the end of the
    stream.  A segment that does not fit the buffer of [MaxScanTokenSize]
    bytes with its terminator ends the scan ([ErrTooLong]). *)
Fixpoint Scanner_tokens (closes : bool) (segs : list string)
    : list string * ScanEnd :=
  match segs with
  | [] => ([], ScanStops)
  | [rest] =>
      if MaxScanTokenSize <=? len rest then ([], ScanStops)
      else if closes then
        match rest with
        | EmptyString => ([], ScanStops)
        | _ => ([dropCR rest], ScanStops)
        end
      else ([], ScanBlocks)
  | seg :: segs' =>
      if MaxScanTokenSize <=? len seg then ([], ScanStops)
      else let '(tokens, e) := Scanner_tokens closes segs' in
           (dropCR seg :: tokens, e)
  end.

(** [bufio.NewScanner(r)] followed by calls of [Scan] and [Text]: the
    lines [Text] returns, in order, and how the scan ends.  [NewWithEAGI]
    and every call of [Command] create a scanner of their own; the model
    follows one scanner on what its reader delivers, and what a scanner
    has buffered beyond the lines it returned is not part of it: [Scan],
    further down, follows the buffer. *)
Definition bufio_NewScanner (r : io_Reader) : list string * ScanEnd :=
  Scanner_tokens (closes r) (segments (delivered r)).

(** ** Package [agi] *)

(** The [error] values the package creates, one constructor per place of
    creation in [agi.go]. *)
Inductive error :=
| ErrSendCommand (cause : string)
    (* errors.New("failed to send command: " + err.Error()) *)
| ErrParseResult (raw : string)
    (* fmt.Errorf("failed to parse result: %s", raw) *)
| ErrStatusCode (cause : NumError) (raw : string)
    (* errors.New("failed to get status code: " + err.Error() + ", raw: " + raw) *)
| ErrResultCode (cause : NumError) (raw : string)
    (* errors.New("failed to parse result-code as an integer: " + err.Error() + ", raw: " + raw) *)
| ErrTimeout
    (* fmt.Errorf("timeout") *)
| ErrNon200 (raw : string)
    (* fmt.Errorf("Non-200 status code. " + raw) *)
| ErrBind (cause : string)
    (* errors.New("failed to bind server: " + err.Error()) *)
| ErrAccept (cause : string).
    (* errors.New("failed to accept TCP connection: " + err.Error()) *)

(** [Response] represents a response to an AGI request; [Error] is [None]
    for Go's [nil]. *)
Record Response := mkResponse {
  Error : option error;
  Status : Z;
  Result : Z;
  ResultString : string;
  Value : string
}.

(** [&Response{}] *)
Definition Response_zero : Response := mkResponse None 0 0 "" "".

Definition set_Error (e : error) (resp : Response) : Response :=
  mkResponse (Some e) (Status resp) (Result resp) (ResultString resp) (Value resp).
Definition set_Status (n : Z) (resp : Response) : Response :=
  mkResponse (Error resp) n (Result resp) (ResultString resp) (Value resp).
Definition set_Result (n : Z) (resp : Response) : Response :=
  mkResponse (Error resp) (Status resp) n (ResultString resp) (Value resp).
Definition set_ResultString (s : string) (resp : Response) : Response :=
  mkResponse (Error resp) (Status resp) (Result resp) s (Value resp).
Definition set_Value (s : string) (resp : Response) : Response :=
  mkResponse (Error resp) (Status resp) (Result resp) (ResultString resp) s.

(** [func (r *Response) Res() (string, error)] *)
Definition Res (resp : Response) : string * option error :=
  (ResultString resp, Error resp).
(** [func (r *Response) Err() error] *)
Definition Err_ (resp : Response) : option error := Error resp.
(** [func (r *Response) Val() (string, error)] *)
Definition Val (resp : Response) : string * option error :=
  (Value resp, Error resp).

(** [responseRegex].  The pattern of the source, with blanks added
    between its parts:
    [^ ( [\d]{3} ) \s result= ( \-? [[:alnum:]]* ) ( \s .* )? $] *)
Definition responseRegex : Regexp :=
  OpConcats
    [ OpBeginText;
      OpCapture 1 (OpRepeat 3 (OpCharClass class_digit));
      OpCharClass class_space;
      OpLiteralString "result=";
      OpCapture 2 (OpConcat (OpQuest (OpLiteral "-"))
                            (OpStar (OpCharClass class_alnum)));
      OpQuest (OpCapture 3 (OpConcat (OpCharClass class_space)
                                     (OpStar (OpCharClass class_any_not_nl))));
      OpEndText ].

(** [responseRegex.NumSubexp()] *)
Definition responseRegex_groups : nat := 3.

(** [responseRegex.FindStringSubmatch(raw)] *)
Definition responseRegex_FindStringSubmatch (raw : string) : option (list string) :=
  FindStringSubmatch responseRegex responseRegex_groups raw.

Definition StatusOK : Z := 200.
Definition StatusInvalid : Z := 510.
Definition StatusDeadChannel : Z := 511.
Definition StatusEndUsage : Z := 520.

(** A [net.Conn], as far as the package uses it: a reader and a writer. *)
Record net_Conn := mkConn {
  conn_r : io_Reader;
  conn_w : io_Writer
}.

(** [AGI] represents an AGI session.  The mutex [mu] has no part in the
    sequential model. *)
Record AGI := mkAGI {
  Variables : gmap string string;
  r : io_Reader;
  eagi : option io_Reader;
  w : io_Writer;
  conn : option net_Conn
}.

(** What a call does to the streams of the session, in order. *)
Inductive Event :=
| EvWrite (p : string)            (* [a.w.Write(p)] *)
| EvScan (text : option string)   (* [s.Scan()]: the line read, or false *)
| EvScanBlocks.                   (* [s.Scan()] that does not return *)

(** A call that returns [result], or never returns ([None]), after the
    events of [trace]. *)
Record Run (A : Type) := mkRun {
  result : option A;
  trace : list Event
}.
Arguments mkRun {A} _ _.
Arguments result {A} _.
Arguments trace {A} _.

(** The events of a loop over the scanner that is not left early. *)
Definition scan_end (e : ScanEnd) : list Event :=
  match e with
  | ScanStops => [EvScan None]
  | ScanBlocks => [EvScanBlocks]
  end.

(** The body of the loop of [NewWithEAGI] for one line that is not
    empty. *)
Definition handshake_line (text : string) (vars : gmap string string)
    : gmap string string :=
  let terms := strings_SplitN text ":" 2 in
  if (length terms =? 2)%nat
  then <[strings_TrimSpace (nth 0 terms "") := strings_TrimSpace (nth 1 terms "")]> vars
  else vars.

(** The loop of [NewWithEAGI] over the lines of the scanner: the
    variables, the events, and whether the loop comes to an end. *)
Fixpoint handshake (tokens : list string) (e : ScanEnd)
    (vars : gmap string string) : gmap string string * list Event * bool :=
  match tokens with
  | [] => (vars, scan_end e, match e with ScanStops => true | ScanBlocks => false end)
  | text :: rest =>
      if String.eqb text "" then (vars, [EvScan (Some text)], true)
      else
        let '(vars', events, exits) := handshake rest e (handshake_line text vars) in
        (vars', EvScan (Some text) :: events, exits)
  end.

(** [NewWithEAGI(r, w, eagi)] *)
Definition NewWithEAGI (r : io_Reader) (w : io_Writer) (eagi : option io_Reader)
    : Run AGI :=
  let '(tokens, e) := bufio_NewScanner r in
  let '(vars, events, exits) := handshake tokens e ∅ in
  mkRun (if exits then Some (mkAGI vars r eagi w None) else None) events.

(** [New(r, w)] *)
Definition New (r : io_Reader) (w : io_Writer) : Run AGI :=
  NewWithEAGI r w None.

(** [NewConn(conn)] *)
Definition NewConn (c : net_Conn) : Run AGI :=
  let run := New (conn_r c) (conn_w c) in
  mkRun ((fun a => mkAGI (Variables a) (r a) (eagi a) (w a) (Some c)) <$> result run)
        (trace run).

(** The state of the goroutine of [Command] that reads the reply: the
    response it fills in and the variable [raw] it shares with the
    caller. *)
Record Reading := mkReading {
  reading_resp : Response;
  reading_raw : string;
  reading_events : list Event;
  reading_done : bool     (* the goroutine has sent on [waitC] *)
}.

(** The body of the loop of the goroutine from [FindStringSubmatch] on,
    for a line [raw] that is neither empty nor a hangup notice. *)
Definition parse_reply (raw : string) (resp : Response) : Response :=
  match responseRegex_FindStringSubmatch raw with
  | None => set_Error (ErrParseResult raw) resp
  | Some pieces =>
      (* Status code is the first substring *)
      let '(status, err) := strconv_Atoi (nth 1 pieces "") in
      let resp := set_Status status resp in
      match err with
      | Some e => set_Error (ErrStatusCode e raw) resp
      | None =>
          (* Result code is the second substring *)
          let resp := set_ResultString (nth 2 pieces "") resp in
          let '(result, err) := strconv_Atoi (nth 2 pieces "") in
          let resp := set_Result result resp in
          let resp :=
            match err with
            | Some e => set_Error (ErrResultCode e raw) resp
            | None => resp
            end in
          (* Value is the third (and optional) substring *)
          let wrappedVal := strings_TrimSpace (nth 3 pieces "") in
          set_Value (strings_TrimSuffix (strings_TrimPrefix wrappedVal "(") ")") resp
      end
  end.

(** The loop [for s.Scan() { ... }] of the goroutine. *)
Fixpoint read_reply (tokens : list string) (e : ScanEnd) (resp : Response)
    (raw : string) : Reading :=
  match tokens with
  | [] =>
      mkReading resp raw (scan_end e)
        (match e with ScanStops => true | ScanBlocks => false end)
  | text :: rest =>
      let raw := text in
      if String.eqb raw "" then mkReading resp raw [EvScan (Some text)] true
      else if strings_HasPrefix raw "HANGUP" then
        (* ignore hangup signal *)
        let rd := read_reply rest e resp raw in
        mkReading (reading_resp rd) (reading_raw rd)
          (EvScan (Some text) :: reading_events rd) (reading_done rd)
      else mkReading (parse_reply raw resp) raw [EvScan (Some text)] true
  end.

(** The end of [Command]: if the Status code is not 200 and no error is
    set, return an error that carries [raw]. *)
Definition check_status (resp : Response) (raw : string) : Response :=
  if negb (Status resp =? StatusOK) && bool_decide (Error resp = None)
  then set_Error (ErrNon200 raw) resp
  else resp.

(** The bytes [Command] writes for [cmd]: the tokens joined by blanks,
    and a newline. *)
Definition command_line (cmd : list string) : string :=
  strings_Join cmd " " +:+ String "010" "".

(** [func (a *AGI) Command(timeout time.Duration, cmd ...string) *Response].
    What reaches the reader within the timeout is what [r a] delivers:
    when the goroutine comes to its end on it, [waitC] is served; when it
    is left waiting for more, a positive timeout fires, and without
    timeout the call does not return.  The runs in which the timer fires
    although the goroutine could have finished are not followed, and the
    response is the one at the return of the call: what the goroutine
    writes into it after a timeout is not followed either.  Nor is the
    wait for the mutex [a.mu]. *)
Definition Command (a : AGI) (timeout : Z) (cmd : list string) : Run Response :=
  let resp := Response_zero in
  let p := command_line cmd in
  match Write (w a) p with
  | Some err => mkRun (Some (set_Error (ErrSendCommand err) resp)) [EvWrite p]
  | None =>
      let '(tokens, e) := bufio_NewScanner (r a) in
      let rd := read_reply tokens e resp "" in
      let events := EvWrite p :: reading_events rd in
      if reading_done rd then
        mkRun (Some (check_status (reading_resp rd) (reading_raw rd))) events
      else if 0 <? timeout then
        mkRun (Some (set_Error ErrTimeout (reading_resp rd))) events
      else mkRun None events
  end.

(** ** The FastAGI listener *)

Section Listener.

(** [HandlerFunc] is a function which accepts an AGI instance; the
    model only records which handler is started on which session. *)
Variable HandlerFunc : Type.

(** A [net.Listener]: the connections its successive [Accept] calls
    return, and then the error of the call that fails; [None] when that
    call blocks for good. *)
Record net_Listener := mkListener {
  incoming : list net_Conn;
  accept_err : option string
}.

(** [net.Listen(network, address)]: a listener, or the text of the
    error. *)
Variable net_Listen : string -> string -> net_Listener + string.

Inductive NetEvent :=
| NetListen (network address : string)      (* [net.Listen] *)
| NetAccept (c : option net_Conn)           (* [l.Accept()] *)
| NetGo (handler : HandlerFunc) (a : AGI)   (* [go handler(a)] *)
| NetClose.                                 (* the deferred [l.Close()] *)

(** The accept loop.  [NewConn(conn)] is evaluated by the loop itself,
    before the goroutine of the handler starts. *)
Fixpoint accept_loop (handler : HandlerFunc) (conns : list net_Conn)
    (err : option string) : option error * list NetEvent :=
  match conns with
  | [] =>
      match err with
      | Some e => (Some (ErrAccept e), [NetAccept None; NetClose])
      | None => (None, [])
      end
  | c :: conns' =>
      match result (NewConn c) with
      | None => (None, [NetAccept (Some c)])
      | Some a =>
          let '(res, events) := accept_loop handler conns' err in
          (res, NetAccept (Some c) :: NetGo handler a :: events)
      end
  end.

(** [func Listen(addr string, handler HandlerFunc) error]: the error
    returned ([None] when the call does not return) and the events. *)
Definition Listen (addr : string) (handler : HandlerFunc)
    : option error * list NetEvent :=
  let addr := if String.eqb addr "" then "localhost:4573" else addr in
  match net_Listen "tcp" addr with
  | inr err => (Some (ErrBind err), [NetListen "tcp" addr])
  | inl l =>
      let '(res, events) := accept_loop handler (incoming l) (accept_err l) in
      (res, NetListen "tcp" addr :: events)
  end.

End Listener.

Arguments NetListen {HandlerFunc} _ _.
Arguments NetAccept {HandlerFunc} _.
Arguments NetGo {HandlerFunc} _ _.
Arguments NetClose {HandlerFunc}.

(** ** The reply grammar, in the words of the specification

    [<status:3 digits> SP "result=" <result-token> [SP <rest>]], where the
    token is a possibly empty run of alphanumeric characters with an
    optional leading [-]. *)

Fixpoint string_forallb (f : ascii -> bool) (s : string) : bool :=
  match s with
  | EmptyString => true
  | String a s' => f a && string_forallb f s'
  end.

Definition is_status (st : string) : bool :=
  (String.length st =? 3)%nat && string_forallb class_digit st.

Definition is_token (tok : string) : bool :=
  match tok with
  | String a tok' =>
      if byte_is a "-" then string_forallb class_alnum tok'
      else string_forallb class_alnum tok
  | EmptyString => true
  end.

Definition is_tail (tail : string) : bool :=
  match tail with
  | EmptyString => true
  | String a tail' => class_space a && string_forallb class_any_not_nl tail'
  end.

Definition reply_line (st : string) (sp : ascii) (tok tail : string) : string :=
  st +:+ String sp ("result=" +:+ tok +:+ tail).

(** The number a string of decimal digits denotes. *)
Fixpoint decimal_from (s : string) (n : Z) : Z :=
  match s with
  | EmptyString => n
  | String c s' => decimal_from s' (n * 10 + (byte c - 48))
  end.

Definition decimal (s : string) : Z := decimal_from s 0.

(** A line without newline. *)
Definition no_newline (s : string) : Prop :=
  string_forallb class_any_not_nl s = true.

(** A hangup notice: a line that begins with [HANGUP]. *)
Definition is_hangup (line : string) : Prop :=
  strings_HasPrefix line "HANGUP" = true.

(** The event of reading the line [text]. *)
Definition scan_line (text : string) : Event := EvScan (Some text).

(** ** The handshake, in the words of the specification *)

Definition no_colon (s : string) : bool :=
  string_forallb (fun c => negb (byte_is c ":")) s.

(** [line], split on its first colon, gives [key] and [value]. *)
Definition colon_line (line key value : string) : Prop :=
  line = key +:+ ":" +:+ value /\ no_colon key = true.

(** [line] sets the variable [k]: its part before the first colon is [k]
    up to surrounding white space. *)
Definition sets_key (k : string) (line : string) : Prop :=
  exists key value, colon_line line key value /\ strings_TrimSpace key = k.

(** [v] is the value of the last line of [block] that sets [k]. *)
Definition last_binding (block : list string) (k v : string) : Prop :=
  exists before line after key value,
    block = before ++ line :: after /\
    colon_line line key value /\
    strings_TrimSpace key = k /\ strings_TrimSpace value = v /\
    Forall (fun l => ~ sets_key k l) after.

(** ** Sessions used as concrete inputs *)

Definition nl : string := String "010" "".

Definition writer_ok : io_Writer := mkWriter (fun _ => None).
Definition writer_broken : io_Writer := mkWriter (fun _ => Some "broken pipe").

(** A session on a working writer whose reader delivers [input]. *)
Definition session (input : string) (closes : bool) : AGI :=
  mkAGI ∅ (mkReader input closes) None writer_ok None.

Definition session_broken : AGI :=
  mkAGI ∅ (mkReader ("200 result=0" +:+ nl) false) None writer_broken None.

Definition session_avail : AGI := session ("200 result=1 (avail)" +:+ nl) false.

Definition session_on : AGI := session ("200 result=on" +:+ nl) false.

Definition session_banana : AGI :=
  session ("banana" +:+ nl +:+ "200 result=1" +:+ nl) false.

Definition session_banana_eof : AGI := session ("banana" +:+ nl) true.

Definition session_hangup : AGI :=
  session ("HANGUP" +:+ nl +:+ "200 result=1 (avail)" +:+ nl) false.

Definition session_hangup_eof : AGI := session ("HANGUP" +:+ nl) true.

Definition handshake_input : string :=
  "agi_channel: SIP/1234" +:+ nl +:+ "nocolon" +:+ nl +:+ " a : b:c " +:+ nl
  +:+ "a:z" +:+ nl +:+ nl +:+ "200 result=1".


(** ** The rest of [agi.go]: channel states, session life cycle and the
    commands built on [Command] *)

(** [type State int], with the constants of the source. *)
Definition State := Z.
Definition StateDown : State := 0.
Definition StateReserved : State := 1.
Definition StateOffhook : State := 2.
Definition StateDialing : State := 3.
Definition StateRing : State := 4.
Definition StateRinging : State := 5.
Definition StateUp : State := 6.
Definition StateBusy : State := 7.
Definition StateDialingOffHook : State := 8.
Definition StatePreRing : State := 9.

(** [time.Second], a [time.Duration] in nanoseconds. *)
Definition Second : Z := 1000000000.

(** [strconv.Itoa(i)]: the decimal numeral of [i], with [-] for a
    negative number. *)
Definition strconv_Itoa (i : Z) : string :=
  DecimalString.NilZero.string_of_int (Z.to_int i).

(** The result of a call passed through [f]. *)
Definition run_map {A B : Type} (f : A -> B) (run : Run A) : Run B :=
  mkRun (f <$> result run) (trace run).

(** [func (a *AGI) IsClosed() bool]; [None] is the nil pointer. *)
Definition IsClosed (a : option AGI) : bool :=
  match a with
  | None => true
  | Some a => match conn a with None => true | Some _ => false end
  end.

Section Close.

(** [conn.Close()] of a [net.Conn]: the text of its error, if any. *)
Variable conn_Close : net_Conn -> option string.

(** [func (a *AGI) Close() (err error)]: the error, the session after the
    call and the connections [Close] was called on. *)
Definition Close (a : AGI) : option string * AGI * list net_Conn :=
  match conn a with
  | Some c =>
      (conn_Close c, mkAGI (Variables a) (r a) (eagi a) (w a) None, [c])
  | None => (None, a, [])
  end.

End Close.

(** [func (a *AGI) Answer() error] *)
Definition Answer (a : AGI) : Run (option error) :=
  run_map Err_ (Command a (30 * Second) ["ANSWER"]).

(** [func (a *AGI) Hangup() error] *)
Definition Hangup (a : AGI) : Run (option error) :=
  run_map Err_ (Command a (1 * Second) ["HANGUP"]).

(** [func (a *AGI) Set(key, val string) error] *)
Definition Set_ (a : AGI) (key val : string) : Run (option error) :=
  run_map Err_ (Command a (5 * Second) ["SET VARIABLE"; key; val]).

(** [func (a *AGI) Get(key string) (string, error)] *)
Definition Get (a : AGI) (key : string) : Run (string * option error) :=
  run_map Val (Command a (5 * Second) ["GET VARIABLE"; key]).

(** The errors [Status] returns: the error of the command, or
    [fmt.Errorf("failed to parse state %s", r)]. *)
Inductive StatusError :=
| StatusCommandError (err : error)
| ErrParseState (r : string).

(** The part of [Status] after the command. *)
Definition state_of_response (resp : Response) : State * option StatusError :=
  let '(r, err) := Val resp in
  match err with
  | Some e => (StateDown, Some (StatusCommandError e))
  | None =>
      match strconv_Atoi r with
      | (_, Some _) => (StateDown, Some (ErrParseState r))
      | (state, None) => (state, None)
      end
  end.

(** [func (a *AGI) Status() (State, error)] *)
Definition AGI_Status (a : AGI) : Run (State * option StatusError) :=
  run_map state_of_response (Command a (5 * Second) ["CHANNEL STATUS"]).

(** [time.Minute] *)
Definition Minute : Z := 60 * Second.

(** [type RecordOptions struct] *)
Record RecordOptions := mkRecordOptions {
  Format : string;
  EscapeDigits : string;
  Timeout : Z;
  Silence : Z;
  Beep : bool;
  Offset : Z
}.

(** [&RecordOptions{}] *)
Definition RecordOptions_zero : RecordOptions := mkRecordOptions "" "" 0 0 false 0.

(** [rune(i)] for an [int]: the low 32 bits, as a signed number. *)
Definition rune (i : Z) : Z := (i + 2 ^ 31) mod 2 ^ 32 - 2 ^ 31.

(** The byte [b] as a character. *)
Definition byte_chr (b : Z) : ascii := ascii_of_N (Z.to_N b).

Definition utf8_encode3 (r : Z) : string :=
  String (byte_chr (Z.lor 224 (Z.shiftr r 12)))
    (String (byte_chr (Z.lor 128 (Z.land (Z.shiftr r 6) 63)))
       (String (byte_chr (Z.lor 128 (Z.land r 63))) "")).

(** [string(i)] for an [int]: the UTF-8 encoding of the code point [i],
    of U+FFFD when [i] is not a valid code point. *)
Definition string_of_int (i : Z) : string :=
  if (0 <=? i) && (i <=? 127) then String (byte_chr i) ""
  else if (0 <=? i) && (i <=? 2047) then
    String (byte_chr (Z.lor 192 (Z.shiftr i 6)))
      (String (byte_chr (Z.lor 128 (Z.land i 63))) "")
  else if (i <? 0) || (1114111 <? i) || ((55296 <=? i) && (i <=? 57343)) then
    utf8_encode3 RuneError
  else if i <=? 65535 then utf8_encode3 i
  else
    String (byte_chr (Z.lor 240 (Z.shiftr i 18)))
      (String (byte_chr (Z.lor 128 (Z.land (Z.shiftr i 12) 63)))
         (String (byte_chr (Z.lor 128 (Z.land (Z.shiftr i 6) 63)))
            (String (byte_chr (Z.lor 128 (Z.land i 63))) ""))).

Section Durations.

(** [toMSec] and [toSec] are defined outside [agi.go]: the texts they
    give for a duration are parameters. *)
Variable toMSec : Z -> string.
Variable toSec : Z -> string.

(** [strconv.IsPrint] decides the runes up to U+00FF by comparisons and
    the others by tables, which are a parameter here. *)
Variable isPrint_tables : Z -> bool.

(** [strconv.IsPrint(r)] *)
Definition strconv_IsPrint (r : Z) : bool :=
  if r <=? 255 then
    if (32 <=? r) && (r <=? 126) then true
    else if (161 <=? r) && (r <=? 255) then negb (r =? 173)
    else false
  else isPrint_tables r.

(** The command [GetData] sends. *)
Definition GetData_args (sound : string) (timeout : Z) (maxdigits : Z) : list string :=
  let sound := if String.eqb sound "" then "silence/1" else sound in
  ["GET DATA"; sound; toMSec timeout; strconv_Itoa maxdigits].

(** [func (a *AGI) GetData(sound string, timeout time.Duration, maxdigits int) (digits string, err error)] *)
Definition GetData (a : AGI) (sound : string) (timeout : Z) (maxdigits : Z)
    : Run (string * option error) :=
  run_map Res (Command a 0 (GetData_args sound timeout maxdigits)).

(** [func (a *AGI) WaitForDigit(timeout time.Duration) (digit string, err error)] *)
Definition WaitForDigit (a : AGI) (timeout : Z) : Run (string * option error) :=
  run_map
    (fun resp =>
       let resp := set_ResultString "" resp in
       let resp :=
         if bool_decide (Error resp = None) && strconv_IsPrint (rune (Result resp))
         then set_ResultString (string_of_int (Result resp)) resp
         else resp in
       Res resp)
    (Command a 0 ["WAIT FOR DIGIT"; toMSec timeout]).

(** The first part of [Record]: the defaults are stored in the options
    themselves. *)
Definition Record_defaults (opts : RecordOptions) : RecordOptions :=
  let opts :=
    if String.eqb (Format opts) "" then
      mkRecordOptions "wav" (EscapeDigits opts) (Timeout opts) (Silence opts)
        (Beep opts) (Offset opts)
    else opts in
  let opts :=
    if String.eqb (EscapeDigits opts) "" then
      mkRecordOptions (Format opts) "#" (Timeout opts) (Silence opts)
        (Beep opts) (Offset opts)
    else opts in
  if Timeout opts =? 0 then
    mkRecordOptions (Format opts) (EscapeDigits opts) (5 * Minute) (Silence opts)
      (Beep opts) (Offset opts)
  else opts.

(** The command [Record] builds from the options. *)
Definition Record_cmd (name : string) (opts : RecordOptions) : string :=
  let cmd :=
    strings_Join
      ["RECORD FILE "; name; Format opts; EscapeDigits opts; toMSec (Timeout opts)]
      " " in
  let cmd := if 0 <? Offset opts then cmd +:+ " " +:+ strconv_Itoa (Offset opts) else cmd in
  let cmd := if Beep opts then cmd +:+ " BEEP" else cmd in
  if 0 <? Silence opts then cmd +:+ " s=" +:+ toSec (Silence opts) else cmd.

(** [func (a *AGI) Record(name string, opts *RecordOptions) error]:
    [opts] is [None] for the nil pointer; the second component is the
    struct [opts] points to, after the call. *)
Definition AGI_Record (a : AGI) (name : string) (opts : option RecordOptions)
    : Run (option error) * option RecordOptions :=
  let filled := Record_defaults (default RecordOptions_zero opts) in
  (run_map Err_ (Command a 0 [Record_cmd name filled]),
   match opts with Some _ => Some filled | None => None end).

End Durations.

(** The address [Listen] binds for [addr]. *)
Definition listen_addr (addr : string) : string :=
  if String.eqb addr "" then "localhost:4573" else addr.

(** The events of the accept loop for connections whose handshakes give
    [sessions]: each is accepted and handed to a goroutine of the
    handler. *)
Definition served {HandlerFunc : Type} (handler : HandlerFunc)
    (conns : list net_Conn) (sessions : list AGI) : list (NetEvent HandlerFunc) :=
  concat (zip_with (fun c a => [NetAccept (Some c); NetGo handler a]) conns sessions).

(** ** More concrete inputs *)

(** A connection whose peer sends a complete handshake. *)
Definition conn_ready : net_Conn :=
  mkConn (mkReader ("agi_request: x" +:+ nl +:+ nl) false) writer_ok.

(** A connection whose peer never ends its handshake. *)
Definition conn_stalled : net_Conn :=
  mkConn (mkReader ("agi_request: x" +:+ nl) false) writer_ok.

Definition session_ready : AGI :=
  mkAGI {["agi_request" := "x"]} (conn_r conn_ready) None writer_ok (Some conn_ready).

Definition session_510 : AGI := session ("510 result=0" +:+ nl) false.
Definition session_unset : AGI := session ("200 result=0" +:+ nl) false.
Definition session_value : AGI := session ("200 result=1 (6)" +:+ nl) false.
Definition session_state : AGI := session ("200 result=6" +:+ nl) false.
Definition session_digits : AGI := session ("200 result=12345 (timeout)" +:+ nl) false.
Definition session_no_digits : AGI := session ("200 result= (timeout)" +:+ nl) false.
Definition session_star : AGI := session ("200 result=12*3 (timeout)" +:+ nl) false.
Definition session_hangup_more : AGI :=
  session ("HANGUP" +:+ nl +:+ "200 result=1 (avail)" +:+ nl +:+ "200 result=2" +:+ nl) true.

(** A reader that ends in the middle of a handshake. *)
Definition reader_cut : io_Reader := mkReader ("agi_request: x" +:+ nl) true.

Definition listener_one : net_Listener :=
  mkListener [conn_ready] (Some "use of closed network connection").
Definition listener_stalled : net_Listener :=
  mkListener [conn_ready; conn_stalled; conn_ready] None.
Definition session_key : AGI := session ("200 result=49" +:+ nl) false.

(** What every response of [Command] satisfies, the timeout error
    apart. *)
Definition response_ok (resp : Response) : Prop :=
  0 <= Status resp <= 999 /\
  is_token (ResultString resp) = true /\
  - 2 ^ 63 <= Result resp <= 2 ^ 63 - 1 /\
  Error resp <> Some ErrTimeout.

(** ** Readers with a position

    [io_Reader] gives what a reader delivers as one text.  To follow what
    a scanner takes from a reader, and what it leaves, a reader is here
    the sequence of byte strings its [Read] calls have yet to return. *)

(** An [io.Reader] at some position: [pending] are the chunks still to
    come, each returned by one [Read] whose buffer has room for it; after
    them [Read] returns [io.EOF] ([src_closes]) or blocks for good. *)
Record Source := mkSource {
  pending : list string;
  src_closes : bool
}.

(** The outcome of [Read(p)]: bytes and the reader after the call, the
    end of the stream, or a call that does not return. *)
Inductive ReadResult :=
| ReadBytes (p : string) (src : Source)
| ReadEOF
| ReadWaits.

(** [Read(p)] with [len(p) = n]: at most [n] bytes of the next chunk; the
    rest of the chunk stays at the front. *)
Definition Source_Read (src : Source) (n : Z) : ReadResult :=
  match pending src with
  | [] => if src_closes src then ReadEOF else ReadWaits
  | chunk :: chunks =>
      if len chunk <=? n then ReadBytes chunk (mkSource chunks (src_closes src))
      else ReadBytes (string_take (Z.to_nat n) chunk)
             (mkSource (string_drop (Z.to_nat n) chunk :: chunks) (src_closes src))
  end.

(** ** [bufio.Scanner], with its buffer *)

(** The values of [s.err]. *)
Inductive Scanner_err := Err_EOF | ErrTooLong | ErrNoProgress.

(** [bufio.Scanner], as far as [Scan] with [ScanLines] uses it: [sc_buf]
    is [len(s.buf)], [sc_held] the bytes [s.buf[s.start:s.end]]. *)
Record Scanner := mkScanner {
  sc_buf : Z;
  sc_start : Z;
  sc_held : string;
  sc_err : option Scanner_err
}.

Definition sc_end (s : Scanner) : Z := sc_start s + len (sc_held s).

Definition startBufSize : Z := 4096.
Definition maxConsecutiveEmptyReads : nat := 100.

(** [bufio.NewScanner(r)]: no buffer yet. *)
Definition NewScanner : Scanner := mkScanner 0 0 "" None.

(** [bytes.IndexByte(data, '\n')] *)
Fixpoint IndexByte_nl (data : string) : option nat :=
  match data with
  | EmptyString => None
  | String c data' => if byte_is c "010" then Some O else S <$> IndexByte_nl data'
  end.

(** [bufio.ScanLines(data, atEOF)]: the bytes to advance by and the
    token, [None] for a request for more data. *)
Definition ScanLines (data : string) (atEOF : bool) : nat * option string :=
  if atEOF && (len data =? 0) then (O, None)
  else
    match IndexByte_nl data with
    | Some i => (S i, Some (dropCR (string_take i data)))
    | None =>
        if atEOF then (String.length data, Some (dropCR data)) else (O, None)
    end.

(** [s.setErr(err)] *)
Definition setErr (e : Scanner_err) (s : Scanner) : Scanner :=
  match sc_err s with
  | None | Some Err_EOF => mkScanner (sc_buf s) (sc_start s) (sc_held s) (Some e)
  | Some _ => s
  end.

(** What the loop of reads at the end of [Scan] comes to. *)
Inductive Filled :=
| FillDone (s : Scanner) (src : Source)
| FillWaits (src : Source).

(** The loop [for loop := 0; ; { n, err := s.r.Read(s.buf[s.end:len(s.buf)]) ... }];
    [left] is [maxConsecutiveEmptyReads - loop].  A [Source] never
    returns more bytes than asked for, so [ErrBadReadCount] does not
    arise. *)
Fixpoint Scan_read (left : nat) (s : Scanner) (src : Source) : Filled :=
  match Source_Read src (sc_buf s - sc_end s) with
  | ReadWaits => FillWaits src
  | ReadEOF => FillDone (setErr Err_EOF s) src
  | ReadBytes p src' =>
      let s' := mkScanner (sc_buf s) (sc_start s) (sc_held s +:+ p) (sc_err s) in
      if 0 <? len p then FillDone s' src'
      else
        match left with
        | O => FillDone (setErr ErrNoProgress s') src'
        | S left' => Scan_read left' s' src'
        end
  end.

(** The outcome of [s.Scan()]: true with the token of [s.Text()], false,
    or a call that does not return; [ScanFuel] stands for a bound on the
    number of turns of the loop that is too small, which the bound of
    [Scan] never is. *)
Inductive Scanned :=
| ScanTrue (text : string) (s : Scanner) (src : Source)
| ScanFalse (s : Scanner) (src : Source)
| ScanWaits (src : Source)
| ScanFuel.

(** The call of the split function at the head of the loop of [Scan]:
    made when the scanner holds bytes or has an error. *)
Definition Scan_split (s : Scanner) : nat * option string :=
  if (sc_start s <? sc_end s) || bool_decide (sc_err s <> None)
  then ScanLines (sc_held s) (bool_decide (sc_err s <> None))
  else (O, None).

(** [s.advance(n)], for [0 <= n <= s.end - s.start] as [ScanLines]
    gives it. *)
Definition Scan_advance (n : nat) (s : Scanner) : Scanner :=
  mkScanner (sc_buf s) (sc_start s + Z.of_nat n) (string_drop n (sc_held s)) (sc_err s).

(** First, shift data to beginning of buffer if there's lots of empty
    space or space is needed. *)
Definition Scan_shift (s : Scanner) : Scanner :=
  if (0 <? sc_start s) && ((sc_end s =? sc_buf s) || (sc_buf s / 2 <? sc_start s))
  then mkScanner (sc_buf s) 0 (sc_held s) (sc_err s)
  else s.

(** Is the buffer full?  If so, resize. *)
Definition Scan_grow (s : Scanner) : Scanner :=
  if sc_end s =? sc_buf s then
    let newSize := sc_buf s * 2 in
    let newSize := if newSize =? 0 then startBufSize else newSize in
    let newSize := Z.min newSize MaxScanTokenSize in
    mkScanner newSize 0 (sc_held s) (sc_err s)
  else s.

(** The loop of [Scan]. *)
Fixpoint Scan_loop (fuel : nat) (s : Scanner) (src : Source) : Scanned :=
  match fuel with
  | O => ScanFuel
  | S fuel' =>
      (* See if we can get a token with what we already have. *)
      let '(advance, token) := Scan_split s in
      let s := Scan_advance advance s in
      match token with
      | Some text => ScanTrue text s src
      | None =>
          if bool_decide (sc_err s <> None) then
            (* Shut it down. *)
            ScanFalse (mkScanner (sc_buf s) 0 "" (sc_err s)) src
          else
            (* Must read more data. *)
            let s := Scan_shift s in
            if (sc_end s =? sc_buf s) && (MaxScanTokenSize <=? sc_buf s)
            then ScanFalse (setErr ErrTooLong s) src
            else
              (* Finally we can read some input. *)
              match Scan_read maxConsecutiveEmptyReads (Scan_grow s) src with
              | FillDone s' src' => Scan_loop fuel' s' src'
              | FillWaits src' => ScanWaits src'
              end
      end
  end.

(** The bytes a source has yet to deliver. *)
Definition Source_size (src : Source) : nat :=
  foldr (fun chunk n => (String.length chunk + n)%nat) O (pending src).

(** [s.Scan()]: every turn of the loop but the last two takes a byte
    from the source. *)
Definition Scan (s : Scanner) (src : Source) : Scanned :=
  Scan_loop (Source_size src + 2) s src.

(** ** [Command] on a reader with a position *)

(** The loop of the goroutine of [Command] over a scanner with its
    buffer: the reading and the source as the loop leaves it. *)
Fixpoint read_reply_from (fuel : nat) (s : Scanner) (src : Source) (resp : Response)
    (raw : string) : option (Reading * Source) :=
  match fuel with
  | O => None
  | S fuel' =>
      match Scan s src with
      | ScanTrue text s' src' =>
          let raw := text in
          if String.eqb raw "" then Some (mkReading resp raw [EvScan (Some text)] true, src')
          else if strings_HasPrefix raw "HANGUP" then
            (* ignore hangup signal *)
            '(rd, src'') ← read_reply_from fuel' s' src' resp raw;
            Some (mkReading (reading_resp rd) (reading_raw rd)
                    (EvScan (Some text) :: reading_events rd) (reading_done rd), src'')
          else Some (mkReading (parse_reply raw resp) raw [EvScan (Some text)] true, src')
      | ScanFalse _ src' => Some (mkReading resp raw [EvScan None] true, src')
      | ScanWaits src' => Some (mkReading resp raw [EvScanBlocks] false, src')
      | ScanFuel => None
      end
  end.

(** [Command] on a session whose writer is [wr] and whose reader stands
    at [src]: the run, and the reader as the call leaves it.  The scanner
    of the call is dropped with what it holds.  [None] stands for a bound
    on the number of lines that is too small; the bounds used here never
    are. *)
Definition Command_from (wr : io_Writer) (src : Source) (timeout : Z)
    (cmd : list string) : option (Run Response * Source) :=
  let resp := Response_zero in
  let p := command_line cmd in
  match Write wr p with
  | Some err => Some (mkRun (Some (set_Error (ErrSendCommand err) resp)) [EvWrite p], src)
  | None =>
      '(rd, src') ← read_reply_from (Source_size src + 1) NewScanner src resp "";
      let events := EvWrite p :: reading_events rd in
      Some
        (if reading_done rd then
           mkRun (Some (check_status (reading_resp rd) (reading_raw rd))) events
         else if 0 <? timeout then
           mkRun (Some (set_Error ErrTimeout (reading_resp rd))) events
         else mkRun None events,
         src')
  end.

(** The error of the response for a line of the grammar with status [st]
    and result token [tok]: the error of the conversion of the token, and
    otherwise the error of a status that is not 200. *)
Definition reply_error (st tok line : string) : option error :=
  match (strconv_Atoi tok).2 with
  | Some err => Some (ErrResultCode err line)
  | None => if decimal st =? StatusOK then None else Some (ErrNon200 line)
  end.

(** A reader whose first [Read] returns a malformed line together with the
    reply that follows it. *)
Definition source_two_lines : Source :=
  mkSource ["banana" +:+ nl +:+ "200 result=1" +:+ nl] false.

(** A reader that has nothing to deliver and stays open. *)
Definition source_silent : Source := mkSource [] false.

(** A session whose peer sends hangup notices and stays silent. *)
Definition session_silent : AGI :=
  session ("HANGUP" +:+ nl +:+ "HANGUP 2" +:+ nl) false.

(** ** Trimming, in the words of the specification *)

(** White space among the ASCII characters: tab, newline, vertical tab,
    form feed, carriage return and blank. *)
Definition is_blank (c : ascii) : bool :=
  ((9 <=? byte c) && (byte c <=? 13)) || (byte c =? 32).


(** [s] without the white space at its beginning. *)
Fixpoint drop_blanks (s : string) : string :=
  match s with
  | EmptyString => EmptyString
  | String c s' => if is_blank c then drop_blanks s' else s
  end.

(** [s] without the white space at its end. *)
Fixpoint drop_blanks_end (s : string) : string :=
  match s with
  | EmptyString => EmptyString
  | String c s' =>
      match drop_blanks_end s' with
      | EmptyString => if is_blank c then EmptyString else String c EmptyString
      | t => String c t
      end
  end.

(** [s] without the white space around it. *)
Definition trim (s : string) : string := drop_blanks_end (drop_blanks s).



(** * Properties *)

(** ** The library models on concrete inputs *)

Example TrimSpace_ascii :
  strings_TrimSpace "  agi_channel	 " = "agi_channel".
Proof. reflexivity. Qed.

Example TrimSpace_nbsp :
  strings_TrimSpace (String "194" (String "160" ("x y" +:+ String "226" (String "128" (String "131" " ")))))
  = "x y".
Proof. vm_compute. reflexivity. Qed.

Example TrimSpace_lone_continuation :
  strings_TrimSpace (String "160" "x") = String "160" "x".
Proof. vm_compute. reflexivity. Qed.

Example Atoi_200 : strconv_Atoi "200" = (200, None).
Proof. reflexivity. Qed.

Example Atoi_minus_1 : strconv_Atoi "-1" = (-1, None).
Proof. reflexivity. Qed.

Example Atoi_on : strconv_Atoi "on" = (0, Some (mkNumError "Atoi" "on" ErrSyntax)).
Proof. reflexivity. Qed.

Example Atoi_empty : strconv_Atoi "" = (0, Some (mkNumError "Atoi" "" ErrSyntax)).
Proof. reflexivity. Qed.

Example Atoi_max : strconv_Atoi "9223372036854775807" = (9223372036854775807, None).
Proof. vm_compute. reflexivity. Qed.

Example Atoi_range :
  strconv_Atoi "9223372036854775808"
  = (9223372036854775807, Some (mkNumError "Atoi" "9223372036854775808" ErrRange)).
Proof. vm_compute. reflexivity. Qed.

Example Atoi_range_before_syntax :
  strconv_Atoi "99999999999999999999x"
  = (9223372036854775807, Some (mkNumError "Atoi" "99999999999999999999x" ErrRange)).
Proof. vm_compute. reflexivity. Qed.

Example Atoi_min : strconv_Atoi "-9223372036854775808" = (-9223372036854775808, None).
Proof. vm_compute. reflexivity. Qed.

Example Scanner_crlf :
  bufio_NewScanner (mkReader ("a: 1" +:+ String "013" (String "010" (String "010" "tail"))) true)
  = (["a: 1"; ""; "tail"], ScanStops).
Proof. reflexivity. Qed.

Example Scanner_waits_for_newline :
  bufio_NewScanner (mkReader ("HANGUP" +:+ String "010" "200 res") false)
  = (["HANGUP"], ScanBlocks).
Proof. reflexivity. Qed.

(** ** Strings *)

Lemma string_app_nil_l (s : string) : "" +:+ s = s.
Proof. reflexivity. Qed.

Lemma string_app_cons (a : ascii) (s t : string) : String a s +:+ t = String a (s +:+ t).
Proof. reflexivity. Qed.

Lemma string_app_nil_r (s : string) : s +:+ "" = s.
Proof. induction s as [|a s IH]; [reflexivity|]. rewrite string_app_cons. by rewrite IH. Qed.

Lemma string_app_assoc (s t u : string) : (s +:+ t) +:+ u = s +:+ (t +:+ u).
Proof. induction s as [|a s IH]; [reflexivity|]. rewrite !string_app_cons. by rewrite IH. Qed.

Lemma string_length_app (s t : string) :
  String.length (s +:+ t) = (String.length s + String.length t)%nat.
Proof. induction s as [|a s IH]; [reflexivity|]. rewrite string_app_cons. simpl. by rewrite IH. Qed.

Lemma string_take_app (s t : string) : string_take (String.length s) (s +:+ t) = s.
Proof. induction s as [|a s IH]; [reflexivity|]. rewrite string_app_cons. simpl. by rewrite IH. Qed.

Lemma string_take_all (s : string) : string_take (String.length s) s = s.
Proof. rewrite <- (string_app_nil_r s) at 2. apply string_take_app. Qed.

Lemma string_drop_app (s t : string) : string_drop (String.length s) (s +:+ t) = t.
Proof. induction s as [|a s IH]; [reflexivity|]. rewrite string_app_cons. simpl. by rewrite IH. Qed.

Lemma byte_range (c : ascii) : 0 <= byte c < 256.
Proof.
  unfold byte. pose proof (N_ascii_bounded c). lia.
Qed.

Lemma byte_inj (c d : ascii) : byte c = byte d -> c = d.
Proof.
  unfold byte. intros H. apply N2Z.inj in H.
  rewrite <- (ascii_N_embedding c), <- (ascii_N_embedding d). by rewrite H.
Qed.

Lemma byte_is_true (c d : ascii) : byte_is c d = true <-> c = d.
Proof. unfold byte_is. apply Ascii.eqb_eq. Qed.

Lemma byte_is_false (c d : ascii) : byte c <> byte d -> byte_is c d = false.
Proof. intros H. unfold byte_is. apply Ascii.eqb_neq. congruence. Qed.

(** ** The matcher on the reply grammar *)

Lemma backtrack_class (class : ascii -> bool) :
  backtrack (OpCharClass class) = class_matcher class.
Proof. reflexivity. Qed.

Lemma class_matcher_cons class pos a s caps k :
  class_matcher class pos (String a s) caps k
  = if class a then k (S pos) s caps else None.
Proof. reflexivity. Qed.

Lemma star_loop_S sub k fuel pos s caps :
  star_loop sub k (S fuel) pos s caps
  = match sub pos s caps
            (fun pos' s' caps' =>
               if (pos <? pos')%nat then star_loop sub k fuel pos' s' caps'
               else None) with
    | Some m => Some m
    | None => k pos s caps
    end.
Proof. reflexivity. Qed.

Lemma star_class_greedy (class : ascii -> bool) (k : Cont) (run tail : string) :
  forall fuel pos caps m,
    string_forallb class run = true ->
    match tail with String c _ => class c = false | EmptyString => True end ->
    (String.length (run +:+ tail) <= fuel)%nat ->
    k (pos + String.length run)%nat tail caps = Some m ->
    star_loop (class_matcher class) k fuel pos (run +:+ tail) caps = Some m.
Proof.
  induction run as [|a run IH]; intros fuel pos caps m Hrun Htail Hfuel Hk.
  - rewrite string_app_nil_l. simpl in Hk. rewrite Nat.add_0_r in Hk.
    destruct fuel as [|fuel]; [done|]. rewrite star_loop_S.
    destruct tail as [|c tail]; [done|]. by rewrite class_matcher_cons, Htail.
  - rewrite string_app_cons in *. simpl in Hrun, Hfuel, Hk.
    apply andb_true_iff in Hrun as [Ha Hrun].
    destruct fuel as [|fuel]; [lia|]. rewrite star_loop_S, class_matcher_cons, Ha.
    replace (pos <? S pos)%nat with true by (symmetry; apply Nat.ltb_lt; lia).
    rewrite (IH fuel (S pos) caps m); try done; [lia|].
    by replace (S pos + String.length run)%nat with (pos + S (String.length run))%nat by lia.
Qed.

Lemma class_space_not_alnum (c : ascii) : class_space c = true -> class_alnum c = false.
Proof.
  unfold class_space, class_alnum, byte_in. intros H.
  repeat (apply orb_true_iff in H as [H|H]); apply Z.eqb_eq in H; rewrite H; reflexivity.
Qed.

Lemma class_alnum_not_dash (c : ascii) : class_alnum c = true -> byte_is c "-" = false.
Proof.
  intros H. apply byte_is_false. intros Hc.
  unfold class_alnum, byte_in in H. rewrite Hc in H. discriminate.
Qed.

Lemma class_space_not_dash (c : ascii) : class_space c = true -> byte_is c "-" = false.
Proof.
  intros H. apply byte_is_false. intros Hc.
  unfold class_space in H. rewrite Hc in H. discriminate.
Qed.

Lemma backtrack_concat r1 r2 pos s caps k :
  backtrack (OpConcat r1 r2) pos s caps k
  = backtrack r1 pos s caps (fun pos' s' caps' => backtrack r2 pos' s' caps' k).
Proof. reflexivity. Qed.

Lemma backtrack_capture i sub pos s caps k :
  backtrack (OpCapture i sub) pos s caps k
  = backtrack sub pos s caps
      (fun pos' s' caps' => k pos' s' (set_capture i (string_take (pos' - pos) s) caps')).
Proof. reflexivity. Qed.

Lemma backtrack_quest sub pos s caps k :
  backtrack (OpQuest sub) pos s caps k
  = match backtrack sub pos s caps k with
    | Some m => Some m
    | None => k pos s caps
    end.
Proof. reflexivity. Qed.

Lemma backtrack_star_class class pos s caps k :
  backtrack (OpStar (OpCharClass class)) pos s caps k
  = star_loop (class_matcher class) k (String.length s) pos s caps.
Proof. reflexivity. Qed.

Lemma backtrack_end pos s caps k :
  backtrack OpEndText pos s caps k
  = match s with EmptyString => k pos s caps | String _ _ => None end.
Proof. reflexivity. Qed.

(** The optional third group and the end of the text, on a tail of the
    grammar. *)
Lemma backtrack_tail (tail : string) (pos : nat) (caps m : Captures) (k : Cont) :
  is_tail tail = true ->
  k (pos + String.length tail)%nat ""
    (match tail with
     | EmptyString => caps
     | String _ _ => set_capture 3 tail caps
     end) = Some m ->
  backtrack
    (OpConcat
       (OpQuest (OpCapture 3 (OpConcat (OpCharClass class_space)
                                       (OpStar (OpCharClass class_any_not_nl)))))
       OpEndText) pos tail caps k = Some m.
Proof.
  intros Htail Hk.
  rewrite backtrack_concat, backtrack_quest, backtrack_capture, backtrack_concat,
    backtrack_class.
  destruct tail as [|c tail]; simpl in Htail, Hk.
  - rewrite Nat.add_0_r in Hk. by rewrite backtrack_end.
  - apply andb_true_iff in Htail as [Hc Htail].
    rewrite class_matcher_cons, Hc, backtrack_star_class.
    rewrite <- (string_app_nil_r tail) at 1 2.
    erewrite star_class_greedy; [done|done|done|by rewrite string_app_nil_r|].
    rewrite backtrack_end.
    assert (E : (S pos + String.length tail - pos)%nat = S (String.length tail)) by lia.
    rewrite E. cbn [string_take]. rewrite string_take_all.
    by replace (S pos + String.length tail)%nat with (pos + S (String.length tail))%nat by lia.
Qed.

(** The second group on a token of the grammar, followed by a tail. *)
Lemma backtrack_token (tok tail : string) (pos : nat) (caps m : Captures) (k : Cont) :
  is_token tok = true -> is_tail tail = true ->
  k (pos + String.length tok)%nat tail (set_capture 2 tok caps) = Some m ->
  backtrack
    (OpCapture 2 (OpConcat (OpQuest (OpLiteral "-"))
                           (OpStar (OpCharClass class_alnum))))
    pos (tok +:+ tail) caps k = Some m.
Proof.
  intros Htok Htail Hk.
  assert (Hstop : match tail with
                  | String c _ => class_alnum c = false
                  | EmptyString => True
                  end).
  { destruct tail as [|c tail]; [done|]. simpl in Htail.
    apply andb_true_iff in Htail as [Hc _]. by apply class_space_not_alnum. }
  rewrite backtrack_capture, backtrack_concat, backtrack_quest.
  unfold OpLiteral. rewrite backtrack_class.
  destruct tok as [|a tok]; [|unfold is_token in Htok; destruct (byte_is a "-") eqn:Ha].
  - (* the empty token *)
    rewrite string_app_nil_l in *. simpl in Hk. rewrite Nat.add_0_r in Hk.
    assert (Hno : class_matcher (fun a => byte_is a "-") pos tail caps
                    (fun pos' s' caps' =>
                       backtrack (OpStar (OpCharClass class_alnum)) pos' s' caps'
                         (fun pos'0 s'0 caps'0 =>
                            k pos'0 s'0
                              (set_capture 2 (string_take (pos'0 - pos) tail) caps'0)))
                  = None).
    { destruct tail as [|c tail]; [done|]. simpl in Htail.
      apply andb_true_iff in Htail as [Hc _].
      by rewrite class_matcher_cons, class_space_not_dash. }
    rewrite Hno, backtrack_star_class.
    rewrite <- (string_app_nil_l tail) at 1 2.
    erewrite star_class_greedy; [done|done|done|by rewrite string_app_nil_l|].
    simpl. rewrite Nat.add_0_r, Nat.sub_diag. done.
  - (* a leading dash *)
    apply byte_is_true in Ha as ->. rewrite string_app_cons, class_matcher_cons.
    change (byte_is "-" "-") with true. cbv iota.
    rewrite backtrack_star_class.
    erewrite star_class_greedy; [done|done|done|done|].
    replace (S pos + String.length tok - pos)%nat with (S (String.length tok)) by lia.
    cbn [string_take]. rewrite string_take_app.
    simpl in Hk.
    by replace (S pos + String.length tok)%nat with (pos + S (String.length tok))%nat by lia.
  - (* an alphanumeric character first *)
    rewrite string_app_cons, class_matcher_cons, Ha, backtrack_star_class.
    rewrite <- string_app_cons.
    erewrite star_class_greedy; [done|done|done|done|].
    replace (pos + String.length (String a tok) - pos)%nat
      with (String.length (String a tok)) by lia.
    by rewrite string_take_app.
Qed.

Lemma backtrack_begin s caps k :
  backtrack OpBeginText 0%nat s caps k = k 0%nat s caps.
Proof. reflexivity. Qed.

Lemma backtrack_repeat3_class class a b c pos s caps k :
  class a = true -> class b = true -> class c = true ->
  backtrack (OpRepeat 3 (OpCharClass class)) pos
    (String a (String b (String c s))) caps k
  = k (S (S (S pos))) s caps.
Proof. intros Ha Hb Hc. cbn. by rewrite Ha, Hb, Hc. Qed.

Lemma backtrack_literal_string (lit : string) :
  forall pos s caps k,
    backtrack (OpLiteralString lit) pos (lit +:+ s) caps k
    = k (pos + String.length lit)%nat s caps.
Proof.
  induction lit as [|c lit IH]; intros pos s caps k.
  - cbn. by rewrite Nat.add_0_r.
  - destruct lit as [|c' lit].
    + change (OpLiteralString (String c "")) with (OpLiteral c).
      unfold OpLiteral. rewrite backtrack_class, string_app_cons, string_app_nil_l, class_matcher_cons.
      unfold byte_is. rewrite Ascii.eqb_refl. simpl. by rewrite Nat.add_1_r.
    + change (OpLiteralString (String c (String c' lit)))
        with (OpConcat (OpLiteral c) (OpLiteralString (String c' lit))).
      rewrite backtrack_concat. unfold OpLiteral. rewrite backtrack_class.
      rewrite string_app_cons, class_matcher_cons. unfold byte_is at 1.
      rewrite Ascii.eqb_refl, IH. f_equal. simpl. lia.
Qed.

Lemma responseRegex_complete (st : string) (sp : ascii) (tok tail : string) :
  is_status st = true -> class_space sp = true ->
  is_token tok = true -> is_tail tail = true ->
  responseRegex_FindStringSubmatch (reply_line st sp tok tail)
  = Some [reply_line st sp tok tail; st; tok; tail].
Proof.
  intros Hst Hsp Htok Htail.
  destruct st as [|d1 [|d2 [|d3 [|? ?]]]]; try discriminate Hst.
  unfold is_status in Hst. simpl in Hst.
  apply andb_true_iff in Hst as [Hd1 Hst].
  apply andb_true_iff in Hst as [Hd2 Hst].
  apply andb_true_iff in Hst as [Hd3 _].
  change (reply_line (String d1 (String d2 (String d3 ""))) sp tok tail)
    with (String d1 (String d2 (String d3 (String sp ("result=" +:+ tok +:+ tail))))).
  set (whole := String d1 _).
  set (groups := [Some whole; Some (String d1 (String d2 (String d3 "")));
                  Some tok;
                  match tail with EmptyString => None | String _ _ => Some tail end]).
  assert (Hm : backtrack responseRegex 0%nat whole
                 (replicate (S responseRegex_groups) None)
                 (fun pos' _ caps =>
                    Some (set_capture 0 (string_take (pos' - 0) whole) caps))
               = Some groups).
  { unfold responseRegex, OpConcats, whole.
    rewrite backtrack_concat, backtrack_begin.
    rewrite backtrack_concat, backtrack_capture, backtrack_repeat3_class by done.
    rewrite backtrack_concat, backtrack_class, class_matcher_cons, Hsp.
    rewrite backtrack_concat, backtrack_literal_string.
    rewrite backtrack_concat.
    apply backtrack_token; [done|done|].
    apply backtrack_tail; [done|].
    rewrite Nat.sub_0_r.
    replace (4 + String.length "result=" + String.length tok + String.length tail)%nat
      with (String.length whole).
    2: { unfold whole. simpl. rewrite string_length_app. simpl. rewrite string_length_app. lia. }
    rewrite string_take_all. unfold groups. cbn.
    by destruct tail. }
  unfold responseRegex_FindStringSubmatch, FindStringSubmatch.
  assert (Hfind : find_from responseRegex responseRegex_groups 0 whole = Some groups).
  { unfold whole in *. unfold find_from. by rewrite Hm. }
  rewrite Hfind. unfold groups. simpl. by destruct tail.
Qed.

Lemma star_class_inv (class : ascii -> bool) (k : Cont) :
  forall fuel pos s caps m,
    star_loop (class_matcher class) k fuel pos s caps = Some m ->
    exists run rest,
      s = run +:+ rest /\ string_forallb class run = true /\
      k (pos + String.length run)%nat rest caps = Some m.
Proof.
  induction fuel as [|fuel IH]; intros pos s caps m H.
  - exists "", s. simpl in *. by rewrite Nat.add_0_r.
  - rewrite star_loop_S in H.
    assert (Hk : k pos s caps = Some m ->
                 exists run rest,
                   s = run +:+ rest /\ string_forallb class run = true /\
                   k (pos + String.length run)%nat rest caps = Some m).
    { intros Hk. exists "", s. simpl. by rewrite Nat.add_0_r. }
    destruct s as [|a s]; [by apply Hk|].
    rewrite class_matcher_cons in H.
    destruct (class a) eqn:Ha; [|by apply Hk].
    replace (pos <? S pos)%nat with true in H by (symmetry; apply Nat.ltb_lt; lia).
    destruct (star_loop _ k fuel (S pos) s caps) as [m'|] eqn:Hstar; [|by apply Hk].
    injection H as ->.
    apply IH in Hstar as (run & rest & -> & Hrun & Hrest).
    exists (String a run), rest. rewrite string_app_cons. simpl. rewrite Ha, Hrun.
    repeat split; try done.
    by replace (pos + S (String.length run))%nat with (S pos + String.length run)%nat by lia.
Qed.

Lemma backtrack_literal_string_inv (lit : string) :
  forall pos s caps k m,
    backtrack (OpLiteralString lit) pos s caps k = Some m ->
    exists s', s = lit +:+ s' /\ k (pos + String.length lit)%nat s' caps = Some m.
Proof.
  induction lit as [|c lit IH]; intros pos s caps k m H.
  - exists s. simpl in *. by rewrite Nat.add_0_r.
  - assert (Hc : forall k', class_matcher (fun a => byte_is a c) pos s caps k' = Some m ->
                   exists s', s = String c s' /\ k' (S pos) s' caps = Some m).
    { intros k' Hk'. destruct s as [|a s]; [done|].
      rewrite class_matcher_cons in Hk'. destruct (byte_is a c) eqn:Ha; [|done].
      apply byte_is_true in Ha as ->. by exists s. }
    destruct lit as [|c' lit].
    + change (OpLiteralString (String c "")) with (OpLiteral c) in H.
      unfold OpLiteral in H. rewrite backtrack_class in H.
      apply Hc in H as (s' & -> & H). exists s'. simpl. by rewrite Nat.add_1_r.
    + change (OpLiteralString (String c (String c' lit)))
        with (OpConcat (OpLiteral c) (OpLiteralString (String c' lit))) in H.
      rewrite backtrack_concat in H. unfold OpLiteral in H. rewrite backtrack_class in H.
      apply Hc in H as (s' & -> & H).
      apply IH in H as (s'' & -> & H). exists s''. rewrite string_app_cons. split; [done|].
      by replace (pos + String.length (String c (String c' lit)))%nat
        with (S pos + String.length (String c' lit))%nat by (simpl; lia).
Qed.

Lemma backtrack_tail_inv (tail : string) (pos : nat) (caps m : Captures) (k : Cont) :
  backtrack
    (OpConcat
       (OpQuest (OpCapture 3 (OpConcat (OpCharClass class_space)
                                       (OpStar (OpCharClass class_any_not_nl)))))
       OpEndText) pos tail caps k = Some m ->
  is_tail tail = true.
Proof.
  rewrite backtrack_concat, backtrack_quest, backtrack_capture, backtrack_concat,
    backtrack_class.
  destruct tail as [|c tail]; [done|].
  rewrite class_matcher_cons, backtrack_end.
  destruct (class_space c) eqn:Hc; [|done].
  rewrite backtrack_star_class.
  destruct (star_loop _ _ _ _ _ _) as [m'|] eqn:Hstar; [|done].
  intros _. apply star_class_inv in Hstar as (run & rest & -> & Hrun & Hrest).
  rewrite backtrack_end in Hrest. destruct rest; [|done].
  simpl. by rewrite Hc, string_app_nil_r.
Qed.

Lemma backtrack_token_inv (s : string) (pos : nat) (caps m : Captures) (k : Cont) :
  backtrack
    (OpCapture 2 (OpConcat (OpQuest (OpLiteral "-"))
                           (OpStar (OpCharClass class_alnum))))
    pos s caps k = Some m ->
  exists tok rest caps',
    s = tok +:+ rest /\ is_token tok = true /\
    k (pos + String.length tok)%nat rest caps' = Some m.
Proof.
  rewrite backtrack_capture, backtrack_concat, backtrack_quest.
  unfold OpLiteral. rewrite backtrack_class.
  destruct (class_matcher _ pos s caps _) as [m'|] eqn:Hdash.
  - intros [= ->]. destruct s as [|a s]; [done|].
    rewrite class_matcher_cons in Hdash. destruct (byte_is a "-") eqn:Ha; [|done].
    rewrite backtrack_star_class in Hdash.
    apply star_class_inv in Hdash as (run & rest & -> & Hrun & Hrest).
    exists (String a run), rest. eexists. rewrite string_app_cons. split; [done|].
    unfold is_token. rewrite Ha. split; [done|].
    replace (pos + String.length (String a run))%nat
      with (S pos + String.length run)%nat by (simpl; lia).
    apply Hrest.
  - rewrite backtrack_star_class. intros Hstar.
    apply star_class_inv in Hstar as (run & rest & -> & Hrun & Hrest).
    exists run, rest. eexists. split; [done|]. split; [|apply Hrest].
    unfold is_token. destruct run as [|a run]; [done|].
    simpl in Hrun. apply andb_true_iff in Hrun as [Ha Hrun].
    rewrite (class_alnum_not_dash a Ha). simpl. by rewrite Ha, Hrun.
Qed.

Lemma find_from_anchored (n : nat) (s : string) :
  forall pos, (0 < pos)%nat -> find_from responseRegex n pos s = None.
Proof.
  induction s as [|a s IH]; intros pos Hpos.
  - cbn [find_from]. unfold responseRegex, OpConcats. rewrite backtrack_concat.
    cbn [backtrack]. by destruct pos; [lia|].
  - cbn [find_from]. unfold responseRegex, OpConcats. rewrite backtrack_concat.
    cbn [backtrack]. destruct pos; [lia|]. cbn [Nat.eqb]. apply IH. lia.
Qed.

(** A line that [responseRegex] matches has the form of the grammar. *)
Lemma responseRegex_sound (raw : string) (pieces : list string) :
  responseRegex_FindStringSubmatch raw = Some pieces ->
  exists st sp tok tail,
    is_status st = true /\ class_space sp = true /\
    is_token tok = true /\ is_tail tail = true /\
    raw = reply_line st sp tok tail.
Proof.
  unfold responseRegex_FindStringSubmatch, FindStringSubmatch.
  destruct (find_from _ _ _ _) as [caps|] eqn:Hfind; [intros _|done].
  assert (Hm : exists k, backtrack responseRegex 0%nat raw
                           (replicate (S responseRegex_groups) None) k = Some caps).
  { exists (fun pos' _ caps =>
              Some (set_capture 0 (string_take (pos' - 0) raw) caps)).
    destruct raw as [|a raw]; cbn [find_from] in Hfind.
    - by destruct (backtrack _ _ _ _ _) eqn:E.
    - destruct (backtrack _ _ _ _ _) eqn:E; [done|].
      by rewrite find_from_anchored in Hfind by lia. }
  clear Hfind. destruct Hm as [k Hm].
  unfold responseRegex, OpConcats in Hm.
  rewrite backtrack_concat, backtrack_begin in Hm.
  rewrite backtrack_concat, backtrack_capture in Hm.
  destruct raw as [|d1 [|d2 [|d3 [|sp raw]]]];
    try (cbn in Hm; repeat case_match; discriminate).
  destruct (class_digit d1) eqn:Hd1; [|by cbn in Hm; rewrite Hd1 in Hm].
  destruct (class_digit d2) eqn:Hd2; [|by cbn in Hm; rewrite Hd1, Hd2 in Hm].
  destruct (class_digit d3) eqn:Hd3; [|by cbn in Hm; rewrite Hd1, Hd2, Hd3 in Hm].
  rewrite backtrack_repeat3_class in Hm by done.
  rewrite backtrack_concat, backtrack_class, class_matcher_cons in Hm.
  destruct (class_space sp) eqn:Hsp; [|done].
  rewrite backtrack_concat in Hm.
  apply backtrack_literal_string_inv in Hm as (s' & -> & Hm).
  rewrite backtrack_concat in Hm.
  apply backtrack_token_inv in Hm as (tok & rest & caps' & -> & Htok & Hm).
  apply backtrack_tail_inv in Hm.
  exists (String d1 (String d2 (String d3 ""))), sp, tok, rest.
  unfold is_status. simpl. by rewrite Hd1, Hd2, Hd3.
Qed.

(** The match of [responseRegex] is the parse of the grammar. *)
Lemma responseRegex_grammar (raw : string) (pieces : list string) :
  responseRegex_FindStringSubmatch raw = Some pieces <->
  exists st sp tok tail,
    is_status st = true /\ class_space sp = true /\
    is_token tok = true /\ is_tail tail = true /\
    raw = reply_line st sp tok tail /\ pieces = [raw; st; tok; tail].
Proof.
  split.
  - intros H. destruct (responseRegex_sound _ _ H) as (st & sp & tok & tail & ? & ? & ? & ? & ->).
    exists st, sp, tok, tail. rewrite responseRegex_complete in H by done.
    by injection H as <-.
  - intros (st & sp & tok & tail & ? & ? & ? & ? & -> & ->).
    by apply responseRegex_complete.
Qed.

(** ** [strconv.Atoi] *)

(** The value [Atoi] returns with an error: 0 on a syntax error, the
    nearest bound of [int] on a range error. *)
Lemma Atoi_error (s : string) (v : Z) (e : NumError) :
  strconv_Atoi s = (v, Some e) ->
  Func e = "Atoi" /\ Num e = s /\
  ((Err e = ErrSyntax /\ v = 0) \/
   (Err e = ErrRange /\ (v = 2 ^ 63 - 1 \/ v = - 2 ^ 63))).
Proof.
  unfold strconv_Atoi, strconv_ParseInt. intros H.
  repeat case_match; simplify_eq; cbn [Func Num Err]; auto 10.
Qed.

Lemma Atoi_error_not_200 (s : string) (v : Z) (e : NumError) :
  strconv_Atoi s = (v, Some e) -> v <> StatusOK.
Proof.
  intros H. apply Atoi_error in H as (_ & _ & [[_ ->]|[_ [-> | ->]]]); unfold StatusOK; lia.
Qed.

Lemma class_digit_byte (c : ascii) : class_digit c = true -> 48 <= byte c <= 57.
Proof. unfold class_digit, byte_in. intros H. apply andb_true_iff in H. lia. Qed.

Lemma Atoi_digits_decimal (s : string) :
  forall n, string_forallb class_digit s = true ->
            Atoi_digits s n = Some (decimal_from s n).
Proof.
  induction s as [|c s IH]; intros n Hs; [reflexivity|].
  simpl in Hs. apply andb_true_iff in Hs as [Hc Hs].
  apply class_digit_byte in Hc. simpl. unfold digit_of.
  rewrite Z.mod_small by lia.
  replace (9 <? byte c - 48) with false by (symmetry; apply Z.ltb_ge; lia).
  by apply IH.
Qed.

(** The status field of the grammar always converts. *)
Lemma Atoi_status (st : string) :
  is_status st = true -> strconv_Atoi st = (decimal st, None).
Proof.
  unfold is_status. intros H. apply andb_true_iff in H as [Hlen Hd].
  apply Nat.eqb_eq in Hlen.
  unfold strconv_Atoi, len. rewrite Hlen. cbn [Z.of_nat andb Z.ltb Z.compare Pos.of_succ_nat Pos.succ Pos.compare Pos.compare_cont].
  destruct st as [|c0 s1]; [discriminate|].
  assert (Hc0 : 48 <= byte c0 <= 57).
  { simpl in Hd. apply andb_true_iff in Hd as [Hc _]. by apply class_digit_byte. }
  rewrite !byte_is_false by (change (byte "-") with 45; change (byte "+") with 43; lia).
  cbn [orb andb]. rewrite Atoi_digits_decimal by done. reflexivity.
Qed.

Lemma decimal_status_range (st : string) :
  is_status st = true -> 0 <= decimal st <= 999.
Proof.
  unfold is_status. intros H. apply andb_true_iff in H as [Hlen Hd].
  destruct st as [|d1 [|d2 [|d3 [|? ?]]]]; try discriminate Hlen.
  simpl in Hd.
  apply andb_true_iff in Hd as [H1%class_digit_byte Hd].
  apply andb_true_iff in Hd as [H2%class_digit_byte Hd].
  apply andb_true_iff in Hd as [H3%class_digit_byte _].
  unfold decimal. simpl. lia.
Qed.

(** ** [strings.TrimSpace] *)

Lemma string_last_app (s : string) (c : ascii) :
  string_last (s +:+ String c "") = Some c.
Proof.
  induction s as [|a s IH]; [reflexivity|].
  rewrite string_app_cons. simpl. rewrite IH.
  by destruct (s +:+ String c "") eqn:E; [destruct s|].
Qed.

Lemma TrimLeftSpace_stop (c : ascii) (s : string) :
  byte c < RuneSelf -> unicode_IsSpace (byte c) = false ->
  strings_TrimLeftSpace (String c s) = String c s.
Proof.
  intros Hc Hsp. cbn [strings_TrimLeftSpace utf8_DecodeRuneInString].
  apply Z.ltb_lt in Hc. by rewrite Hc, Hsp.
Qed.

Lemma TrimLeftSpace_skip (c : ascii) (s : string) :
  byte c < RuneSelf -> unicode_IsSpace (byte c) = true ->
  strings_TrimLeftSpace (String c s) = strings_TrimLeftSpace s.
Proof.
  intros Hc Hsp. cbn [strings_TrimLeftSpace utf8_DecodeRuneInString].
  apply Z.ltb_lt in Hc. by rewrite Hc, Hsp.
Qed.

Lemma TrimRightSpace_stop (s : string) (c : ascii) :
  byte c < RuneSelf -> unicode_IsSpace (byte c) = false ->
  strings_TrimRightSpace (s +:+ String c "") = s +:+ String c "".
Proof.
  intros Hc Hsp. unfold strings_TrimRightSpace.
  destruct (String.length _) as [|fuel]; [reflexivity|].
  cbn [strings_TrimRightSpace_go]. unfold utf8_DecodeLastRuneInString.
  rewrite string_last_app. apply Z.ltb_lt in Hc. by rewrite Hc, Hsp.
Qed.

Lemma class_space_ascii (c : ascii) :
  class_space c = true -> byte c < RuneSelf /\ unicode_IsSpace (byte c) = true.
Proof.
  unfold class_space. intros H.
  repeat (apply orb_true_iff in H as [H|H]); apply Z.eqb_eq in H; rewrite H; done.
Qed.

Lemma HasPrefix_app (p s : string) : strings_HasPrefix (p +:+ s) p = true.
Proof.
  induction p as [|c p IH]; [by destruct s|].
  rewrite string_app_cons. simpl. unfold byte_is. by rewrite Ascii.eqb_refl, IH.
Qed.

Lemma TrimPrefix_app (p s : string) : strings_TrimPrefix (p +:+ s) p = s.
Proof. unfold strings_TrimPrefix. by rewrite HasPrefix_app, string_drop_app. Qed.

Lemma TrimSuffix_app (s p : string) : strings_TrimSuffix (s +:+ p) p = s.
Proof.
  unfold strings_TrimSuffix, strings_HasSuffix. rewrite string_length_app.
  replace (String.length s + String.length p - String.length p)%nat
    with (String.length s) by lia.
  rewrite string_drop_app, string_take_app, String.eqb_refl.
  by replace (String.length p <=? String.length s + String.length p)%nat
    with true by (symmetry; apply Nat.leb_le; lia).
Qed.

(** The value of a parenthesized group: [TrimSpace] leaves the
    parentheses, [TrimPrefix] and [TrimSuffix] remove them. *)
Lemma Value_of_group (sp : ascii) (v : string) :
  class_space sp = true ->
  strings_TrimSuffix
    (strings_TrimPrefix (strings_TrimSpace (String sp ("(" +:+ v +:+ ")"))) "(") ")"
  = v.
Proof.
  intros [Hlt Hsp]%class_space_ascii.
  unfold strings_TrimSpace.
  rewrite TrimLeftSpace_skip by done.
  change ("(" +:+ v +:+ ")") with (String "(" (v +:+ ")")).
  rewrite TrimLeftSpace_stop by done.
  rewrite <- string_app_cons, TrimRightSpace_stop by done.
  change (String "(" v +:+ ")") with ("(" +:+ (v +:+ ")")).
  by rewrite TrimPrefix_app, TrimSuffix_app.
Qed.

(** ** The scanner *)

Lemma string_forallb_app (f : ascii -> bool) (s t : string) :
  string_forallb f (s +:+ t) = string_forallb f s && string_forallb f t.
Proof.
  induction s as [|a s IH]; [reflexivity|].
  rewrite string_app_cons. simpl. by rewrite IH, andb_assoc.
Qed.

Lemma string_forallb_take (f : ascii -> bool) (s : string) :
  forall n, string_forallb f s = true -> string_forallb f (string_take n s) = true.
Proof.
  induction s as [|a s IH]; intros [|n] H; try done.
  simpl in *. apply andb_true_iff in H as [-> H]. by apply IH.
Qed.

Lemma segments_no_newline (data : string) : Forall no_newline (segments data).
Proof.
  induction data as [|a data IH]; simpl.
  - by repeat constructor.
  - destruct (byte_is a "010") eqn:Ha.
    + by constructor.
    + destruct (segments data) as [|seg segs]; inversion IH; subst.
      * repeat constructor. unfold no_newline. simpl. rewrite andb_true_r.
        unfold class_any_not_nl. apply negb_true_iff, Z.eqb_neq. intros Hb.
        apply (byte_inj a "010") in Hb. subst. discriminate.
      * constructor; [|done]. unfold no_newline in *. simpl.
        apply andb_true_iff. split; [|done].
        unfold class_any_not_nl. apply negb_true_iff, Z.eqb_neq. intros Hb.
        apply (byte_inj a "010") in Hb. subst. discriminate.
Qed.

Lemma dropCR_no_newline (s : string) : no_newline s -> no_newline (dropCR s).
Proof.
  unfold dropCR. intros H. destruct (string_last s); [|done].
  destruct (byte_is _ _); [|done]. by apply string_forallb_take.
Qed.

Lemma Scanner_tokens_no_newline (closes : bool) (segs : list string) :
  Forall no_newline segs ->
  Forall no_newline (Scanner_tokens closes segs).1.
Proof.
  induction segs as [|seg segs IH]; intros H; [constructor|].
  inversion H as [|?? Hseg Hsegs]; subst. specialize (IH Hsegs).
  cbn [Scanner_tokens]. destruct segs as [|seg' segs].
  - destruct (_ <=? _); [constructor|].
    destruct closes; [|constructor].
    destruct seg; [constructor|].
    repeat constructor. by apply dropCR_no_newline.
  - destruct (_ <=? _); [constructor|].
    destruct (Scanner_tokens closes (seg' :: segs)) as [tokens e].
    simpl in *. constructor; [by apply dropCR_no_newline|done].
Qed.

(** No line the scanner returns contains a newline. *)
Lemma NewScanner_no_newline (r : io_Reader) (tokens : list string) (e : ScanEnd) :
  bufio_NewScanner r = (tokens, e) -> Forall no_newline tokens.
Proof.
  intros H. pose proof (Scanner_tokens_no_newline (closes r) (segments (delivered r))
                          (segments_no_newline _)) as Hn.
  unfold bufio_NewScanner in H. by rewrite H in Hn.
Qed.

(** ** The reading loop *)

Lemma class_digit_not_H (c : ascii) : class_digit c = true -> byte_is c "H" = false.
Proof.
  intros H%class_digit_byte. apply byte_is_false. change (byte "H") with 72. lia.
Qed.

(** A line of the grammar is neither empty nor a hangup notice. *)
Lemma reply_not_skipped (raw : string) (pieces : list string) :
  responseRegex_FindStringSubmatch raw = Some pieces ->
  String.eqb raw "" = false /\ strings_HasPrefix raw "HANGUP" = false.
Proof.
  intros (st & sp & tok & tail & Hst & _ & _ & _ & ->)%responseRegex_sound.
  unfold is_status in Hst. apply andb_true_iff in Hst as [Hlen Hd].
  destruct st as [|d1 st]; [done|]. simpl in Hd.
  apply andb_true_iff in Hd as [Hd1 _].
  unfold reply_line. rewrite string_app_cons. split; [done|].
  simpl. by rewrite class_digit_not_H.
Qed.

Lemma hangup_not_empty (line : string) :
  is_hangup line -> String.eqb line "" = false.
Proof. by destruct line. Qed.

Lemma read_reply_hangups (hangups tokens : list string) (e : ScanEnd) (resp : Response) :
  forall raw,
    Forall is_hangup hangups ->
    read_reply (hangups ++ tokens) e resp raw
    = let rd := read_reply tokens e resp (default raw (last hangups)) in
      mkReading (reading_resp rd) (reading_raw rd)
        ((scan_line <$> hangups) ++ reading_events rd) (reading_done rd).
Proof.
  induction hangups as [|h hangups IH]; intros raw Hh.
  - simpl. by destruct (read_reply tokens e resp raw).
  - inversion Hh as [|?? Hh1 Hh2]; subst.
    cbn [app read_reply]. rewrite (hangup_not_empty h Hh1), Hh1, (IH h Hh2).
    cbn [reading_resp reading_raw reading_events reading_done fmap list_fmap app].
    assert (E : default raw (last (h :: hangups)) = default h (last hangups)).
    { destruct hangups as [|h' hangups]; [done|]. rewrite !last_cons.
      by destruct (last hangups). }
    by rewrite E.
Qed.

Lemma read_reply_match (raw : string) (pieces rest : list string) (e : ScanEnd)
    (resp : Response) (raw0 : string) :
  responseRegex_FindStringSubmatch raw = Some pieces ->
  read_reply (raw :: rest) e resp raw0
  = mkReading (parse_reply raw resp) raw [scan_line raw] true.
Proof.
  intros [Hne Hnh]%reply_not_skipped. cbn [read_reply]. by rewrite Hne, Hnh.
Qed.

(** [parse_reply] on a line of the grammar. *)
Lemma parse_reply_grammar (st : string) (sp : ascii) (tok tail : string) (resp : Response) :
  is_status st = true -> class_space sp = true ->
  is_token tok = true -> is_tail tail = true ->
  parse_reply (reply_line st sp tok tail) resp
  = mkResponse
      (match (strconv_Atoi tok).2 with
       | Some err => Some (ErrResultCode err (reply_line st sp tok tail))
       | None => Error resp
       end)
      (decimal st) (strconv_Atoi tok).1 tok
      (strings_TrimSuffix (strings_TrimPrefix (strings_TrimSpace tail) "(") ")").
Proof.
  intros Hst Hsp Htok Htail. unfold parse_reply.
  rewrite responseRegex_complete by done. cbn [nth].
  rewrite (Atoi_status st Hst).
  by destruct (strconv_Atoi tok) as [result [err|]].
Qed.

Lemma Command_sent (a : AGI) (timeout : Z) (cmd : list string) :
  Write (w a) (command_line cmd) = None ->
  Command a timeout cmd
  = let rd := read_reply (bufio_NewScanner (r a)).1 (bufio_NewScanner (r a)).2
                Response_zero "" in
    let events := EvWrite (command_line cmd) :: reading_events rd in
    if reading_done rd then
      mkRun (Some (check_status (reading_resp rd) (reading_raw rd))) events
    else if 0 <? timeout then
      mkRun (Some (set_Error ErrTimeout (reading_resp rd))) events
    else mkRun None events.
Proof.
  intros Hw. unfold Command. fold (command_line cmd). rewrite Hw.
  by destruct (bufio_NewScanner (r a)).
Qed.

(** The goroutine either stops at a line of the grammar, which is then the
    last line it has read, or leaves the status at zero. *)
Lemma read_reply_cases (tokens : list string) (e : ScanEnd) :
  forall raw0,
    let rd := read_reply tokens e Response_zero raw0 in
    (exists raw pieces,
       reading_done rd = true /\
       last (reading_events rd) = Some (scan_line raw) /\
       responseRegex_FindStringSubmatch raw = Some pieces /\
       reading_resp rd = parse_reply raw Response_zero /\
       reading_raw rd = raw) \/
    (Status (reading_resp rd) = 0 /\ Value (reading_resp rd) = "").
Proof.
  induction tokens as [|text tokens IH]; intros raw0; cbn [read_reply].
  - right. done.
  - destruct (String.eqb text "") eqn:Hempty; [by right|].
    destruct (strings_HasPrefix text "HANGUP") eqn:Hh.
    + destruct (IH text) as [(raw & pieces & Hd & Hl & Hm & Hr & Hraw)|Hz].
      * left. exists raw, pieces. cbn [reading_done reading_events reading_resp reading_raw].
        repeat split; try done.
        destruct (reading_events _) as [|ev evs]; [done|]. by rewrite last_cons, Hl.
      * by right.
    + cbn zeta. cbn [reading_done reading_events reading_resp reading_raw].
      destruct (responseRegex_FindStringSubmatch text) as [pieces|] eqn:Hm.
      * left. by exists text, pieces.
      * right. unfold parse_reply. by rewrite Hm.
Qed.

Lemma last_cons_ne {A : Type} (x : A) (l : list A) :
  l <> [] -> last (x :: l) = last l.
Proof. destruct l as [|y l]; [done|]. intros _. by rewrite (last_cons x (y :: l)), (last_cons y l); destruct (last l). Qed.

Lemma read_reply_events_last (tokens : list string) (e : ScanEnd) (resp : Response) :
  forall raw,
    let rd := read_reply tokens e resp raw in
    reading_events rd <> [] /\
    (reading_done rd = false <-> last (reading_events rd) = Some EvScanBlocks).
Proof.
  induction tokens as [|text tokens IH]; intros raw; cbn [read_reply].
  - by destruct e.
  - destruct (String.eqb text "") eqn:Hempty; [done|].
    destruct (strings_HasPrefix text "HANGUP") eqn:Hh; [|done].
    destruct (IH text) as [Hne Hlast].
    cbn [reading_events reading_done]. split; [done|].
    by rewrite last_cons_ne.
Qed.

(** ** [strings.SplitN] on the first colon *)

Lemma HasPrefix_nil (s : string) : strings_HasPrefix s "" = true.
Proof. by destruct s. Qed.

Lemma Index_colon_cons (a : ascii) (s : string) :
  strings_Index (String a s) ":"
  = if byte_is a ":" then Some O else S <$> strings_Index s ":".
Proof.
  cbn [strings_Index strings_HasPrefix]. rewrite HasPrefix_nil, andb_true_r. done.
Qed.

Lemma Index_colon_found (key value : string) :
  no_colon key = true ->
  strings_Index (key +:+ ":" +:+ value) ":" = Some (String.length key).
Proof.
  induction key as [|a key IH]; intros Hk.
  - by rewrite string_app_nil_l, string_app_cons, Index_colon_cons.
  - unfold no_colon in *. cbn [string_forallb] in Hk.
    apply andb_true_iff in Hk as [Ha Hk]. apply negb_true_iff in Ha.
    rewrite string_app_cons, Index_colon_cons, Ha, IH by done. done.
Qed.

Lemma Index_colon_none (s : string) :
  no_colon s = true -> strings_Index s ":" = None.
Proof.
  induction s as [|a s IH]; intros Hs; [done|].
  unfold no_colon in *. cbn [string_forallb] in Hs.
  apply andb_true_iff in Hs as [Ha Hs].
  apply negb_true_iff in Ha. by rewrite Index_colon_cons, Ha, IH.
Qed.

Lemma SplitN_colon (key value : string) :
  no_colon key = true ->
  strings_SplitN (key +:+ ":" +:+ value) ":" 2 = [key; value].
Proof.
  intros Hk. cbn [strings_SplitN]. rewrite Index_colon_found by done.
  rewrite string_take_app. f_equal.
  rewrite <- string_app_assoc.
  replace (String.length key + String.length ":")%nat
    with (String.length (key +:+ ":")) by by rewrite string_length_app.
  by rewrite string_drop_app.
Qed.

Lemma SplitN_no_colon (s : string) :
  no_colon s = true -> strings_SplitN s ":" 2 = [s].
Proof. intros Hs. cbn [strings_SplitN]. by rewrite Index_colon_none. Qed.

(** Every line either has no colon or splits on its first one. *)
Lemma colon_line_dec (line : string) :
  no_colon line = true \/ exists key value, colon_line line key value.
Proof.
  induction line as [|a line IH]; [by left|].
  destruct (byte_is a ":") eqn:Ha.
  - right. apply byte_is_true in Ha as ->. by exists "", line.
  - destruct IH as [Hn|(key & value & -> & Hk)].
    + left. unfold no_colon in *. cbn [string_forallb]. by rewrite Ha, Hn.
    + right. exists (String a key), value. split; [done|].
      unfold no_colon in *. cbn [string_forallb]. by rewrite Ha, Hk.
Qed.

Lemma colon_line_inj (line key value key' value' : string) :
  colon_line line key value -> colon_line line key' value' ->
  key = key' /\ value = value'.
Proof.
  intros [-> Hk] [E Hk'].
  pose proof (SplitN_colon key value Hk) as H1.
  rewrite E, SplitN_colon in H1 by done. by injection H1.
Qed.

Lemma no_colon_not_colon_line (line key value : string) :
  no_colon line = true -> ~ colon_line line key value.
Proof.
  intros Hn [-> Hk].
  pose proof (SplitN_colon key value Hk) as H1.
  by rewrite SplitN_no_colon in H1.
Qed.

(** ** The loop of [NewWithEAGI] *)

Lemma handshake_line_colon (line key value : string) (vars : gmap string string) :
  colon_line line key value ->
  handshake_line line vars
  = <[strings_TrimSpace key := strings_TrimSpace value]> vars.
Proof. intros [-> Hk]. unfold handshake_line. by rewrite SplitN_colon. Qed.

Lemma handshake_line_no_colon (line : string) (vars : gmap string string) :
  no_colon line = true -> handshake_line line vars = vars.
Proof. intros Hn. unfold handshake_line. by rewrite SplitN_no_colon. Qed.

Lemma last_binding_cons (line : string) (block : list string) (k v : string) :
  last_binding (line :: block) k v <->
  last_binding block k v \/
  (exists key value,
     colon_line line key value /\ strings_TrimSpace key = k /\
     strings_TrimSpace value = v /\ Forall (fun l => ~ sets_key k l) block).
Proof.
  split.
  - intros (before & l & after & key & value & Hb & Hl & Hk & Hv & Ha).
    destruct before as [|b before]; simplify_eq/=.
    + right. by exists key, value.
    + left. by exists before, l, after, key, value.
  - intros [(before & l & after & key & value & -> & Hl & Hk & Hv & Ha)
           |(key & value & Hl & Hk & Hv & Ha)].
    + by exists (line :: before), l, after, key, value.
    + by exists [], line, block, key, value.
Qed.

Lemma handshake_block (block rest : list string) (e : ScanEnd) :
  forall vars : gmap string string,
    Forall (fun l => l <> "") block ->
    exists vars',
      handshake (block ++ "" :: rest) e vars
      = (vars', (scan_line <$> block) ++ [scan_line ""], true) /\
      forall k v,
        vars' !! k = Some v <->
        last_binding block k v \/
        (vars !! k = Some v /\ Forall (fun l => ~ sets_key k l) block).
Proof.
  induction block as [|line block IH]; intros vars Hne.
  - exists vars. split; [done|]. intros k v. split.
    + intros H. right. by split.
    + intros [(before & l & after & key & value & Hb & _)|[H _]]; [|done].
      by destruct before.
  - inversion Hne as [|?? Hline Hblock]; subst.
    destruct (IH (handshake_line line vars) Hblock) as (vars' & Hrun & Hlookup).
    exists vars'. split.
    { cbn [app handshake]. apply String.eqb_neq in Hline. by rewrite Hline, Hrun. }
    intros k v. rewrite Hlookup, last_binding_cons.
    destruct (colon_line_dec line) as [Hn|(key & value & Hl)].
    + rewrite handshake_line_no_colon by done.
      assert (Hns : ~ sets_key k line).
      { intros (key & value & Hl & _). by eapply no_colon_not_colon_line. }
      split.
      * intros [?|[? ?]]; [by left; left|]. right. split; [done|]. by constructor.
      * intros [[?|(key & value & Hl & _)]|[? Hf]].
        -- by left.
        -- by destruct (no_colon_not_colon_line line key value).
        -- right. split; [done|]. by inversion Hf.
    + rewrite (handshake_line_colon line key value) by done.
      assert (Hs : sets_key k line <-> strings_TrimSpace key = k).
      { split; [|by exists key, value].
        intros (key' & value' & Hl' & <-).
        by destruct (colon_line_inj _ _ _ _ _ Hl Hl') as [-> _]. }
      split.
      * intros [?|[Hv Hf]]; [by left; left|].
        destruct (decide (strings_TrimSpace key = k)) as [<-|Hk].
        -- rewrite lookup_insert_eq in Hv. injection Hv as <-.
           left. right. by exists key, value.
        -- rewrite lookup_insert_ne in Hv by done. right. split; [done|].
           constructor; [|done]. by rewrite Hs.
      * intros [[?|(key' & value' & Hl' & Hk & Hv & Hf)]|[Hv Hf]].
        -- by left.
        -- destruct (colon_line_inj _ _ _ _ _ Hl Hl') as [<- <-]. right.
           split; [|done]. subst. by rewrite lookup_insert_eq.
        -- inversion Hf as [|?? Hnot Hf']; subst. right. split; [|done].
           rewrite lookup_insert_ne; [done|]. by rewrite <- Hs.
Qed.



(** ** The command executor *)

Lemma Command_unsent (a : AGI) (timeout : Z) (cmd : list string) (err : string) :
  Write (w a) (command_line cmd) = Some err ->
  Command a timeout cmd
  = mkRun (Some (mkResponse (Some (ErrSendCommand err)) 0 0 "" ""))
          [EvWrite (command_line cmd)].
Proof. intros Hw. unfold Command. by rewrite Hw. Qed.

Lemma hangup_prefix (h : string) : (exists t, h = "HANGUP" +:+ t) <-> is_hangup h.
Proof.
  unfold is_hangup. split.
  - intros [t ->]. apply HasPrefix_app.
  - intros H. exists (string_drop 6 h).
    do 6 (destruct h as [|? h]; [by cbn in H|];
          cbn [strings_HasPrefix] in H; apply andb_true_iff in H as [->%byte_is_true H]).
    done.
Qed.

Lemma hangups_prefix (hangups : list string) :
  Forall (fun h => exists t, h = "HANGUP" +:+ t) hangups -> Forall is_hangup hangups.
Proof. intros H. eapply Forall_impl; [exact H|]. intros h. apply hangup_prefix. Qed.

(** [Command] on a stream whose first line that is no hangup notice is a
    line of the grammar. *)
Lemma Command_reply_run (a : AGI) (timeout : Z) (cmd : list string)
    (hangups : list string) (st : string) (sp : ascii) (tok tail : string)
    (rest : list string) (e : ScanEnd) :
  Write (w a) (command_line cmd) = None ->
  bufio_NewScanner (r a) = (hangups ++ reply_line st sp tok tail :: rest, e) ->
  Forall is_hangup hangups ->
  is_status st = true -> class_space sp = true ->
  is_token tok = true -> is_tail tail = true ->
  Command a timeout cmd
  = mkRun
      (Some (mkResponse (reply_error st tok (reply_line st sp tok tail))
               (decimal st) (strconv_Atoi tok).1 tok
               (strings_TrimSuffix
                  (strings_TrimPrefix (strings_TrimSpace tail) "(") ")")))
      (EvWrite (command_line cmd)
         :: (scan_line <$> hangups) ++ [scan_line (reply_line st sp tok tail)]).
Proof.
  intros Hw Hscan Hh Hst Hsp Htok Htail.
  rewrite Command_sent, Hscan by done. cbn [fst snd].
  rewrite read_reply_hangups by done.
  erewrite read_reply_match by by apply responseRegex_complete.
  cbn [reading_done reading_resp reading_raw reading_events].
  rewrite parse_reply_grammar by done. unfold check_status, reply_error.
  cbn [Status Error].
  destruct (strconv_Atoi tok).2 as [nerr|]; cbn [Error].
  - by rewrite bool_decide_eq_false_2, andb_false_r.
  - rewrite bool_decide_eq_true_2, andb_true_r by done.
    by destruct (decimal st =? StatusOK).
Qed.

(** [Command] on a first line of the grammar. *)
Lemma Command_reply_result (a : AGI) (timeout : Z) (cmd : list string)
    (st : string) (sp : ascii) (tok tail : string) (rest : list string) (e : ScanEnd) :
  Write (w a) (command_line cmd) = None ->
  bufio_NewScanner (r a) = (reply_line st sp tok tail :: rest, e) ->
  is_status st = true -> class_space sp = true ->
  is_token tok = true -> is_tail tail = true ->
  result (Command a timeout cmd)
  = Some (mkResponse (reply_error st tok (reply_line st sp tok tail))
            (decimal st) (strconv_Atoi tok).1 tok
            (strings_TrimSuffix (strings_TrimPrefix (strings_TrimSpace tail) "(") ")")).
Proof.
  intros Hw Hscan Hst Hsp Htok Htail.
  by rewrite (Command_reply_run a timeout cmd [] st sp tok tail rest e).
Qed.

(** [Command] on a stream that stays open after hangup notices. *)
Lemma Command_left_waiting (a : AGI) (timeout : Z) (cmd : list string)
    (hangups : list string) :
  Write (w a) (command_line cmd) = None ->
  bufio_NewScanner (r a) = (hangups, ScanBlocks) ->
  Forall is_hangup hangups ->
  Command a timeout cmd
  = mkRun (if 0 <? timeout then Some (mkResponse (Some ErrTimeout) 0 0 "" "") else None)
      (EvWrite (command_line cmd) :: (scan_line <$> hangups) ++ [EvScanBlocks]).
Proof.
  intros Hw Hscan Hh. rewrite Command_sent, Hscan by done. cbn [fst snd].
  pose proof (read_reply_hangups hangups [] ScanBlocks Response_zero "" Hh) as Hrd.
  rewrite app_nil_r in Hrd. rewrite Hrd.
  cbn [read_reply reading_done reading_resp reading_raw reading_events scan_end].
  by destruct (0 <? timeout).
Qed.

(** C6.  When the write of the command fails, [Command] returns at once:
    the response has only [Error] set, to the error of the failed send,
    [Status], [Result], [ResultString] and [Value] keep their zero values,
    and the write is the only event of the call: the input stream is not
    read. *)
Theorem Command_write_failure (a : AGI) (timeout : Z) (cmd : list string) (err : string) :
  Write (w a) (command_line cmd) = Some err ->
  Command a timeout cmd
  = mkRun (Some (mkResponse (Some (ErrSendCommand err)) 0 0 "" ""))
          [EvWrite (command_line cmd)].
Proof. apply Command_unsent. Qed.

(** C6 on a session whose writer is broken. *)
Lemma Command_write_failure_witness :
  Write (w session_broken) (command_line ["ANSWER"]) = Some "broken pipe" /\
  Command session_broken 30000000000 ["ANSWER"]
  = mkRun (Some (mkResponse (Some (ErrSendCommand "broken pipe")) 0 0 "" ""))
          [EvWrite (command_line ["ANSWER"])].
Proof.
  split; [reflexivity|].
  apply (Command_write_failure session_broken 30000000000 ["ANSWER"] "broken pipe").
  reflexivity.
Defined.

(** [Command] on a reader with a position, when the first [Scan] gives a
    line that is neither empty, nor a hangup notice, nor a line of the
    grammar. *)
Lemma Command_from_parse_error (wr : io_Writer) (src : Source) (timeout : Z)
    (cmd : list string) (line : string) (s' : Scanner) (src' : Source) :
  Write wr (command_line cmd) = None ->
  Scan NewScanner src = ScanTrue line s' src' ->
  line <> "" ->
  strings_HasPrefix line "HANGUP" = false ->
  responseRegex_FindStringSubmatch line = None ->
  Command_from wr src timeout cmd
  = Some (mkRun (Some (mkResponse (Some (ErrParseResult line)) 0 0 "" ""))
            [EvWrite (command_line cmd); EvScan (Some line)],
          src').
Proof.
  intros Hw Hscan Hne Hnh Hno. unfold Command_from. rewrite Hw.
  rewrite Nat.add_1_r. cbn [read_reply_from]. rewrite Hscan.
  apply String.eqb_neq in Hne. rewrite Hne, Hnh.
  unfold parse_reply. by rewrite Hno.
Qed.

(** C4, as amended.  When the first line read after the command is not
    empty, does not begin with [HANGUP] and does not match
    [responseRegex], [Command] returns a response whose [Error] is the
    parse error for that line, and its loop reads no further line: the
    events of the call are the write and one [Scan].  The reader is left
    where that [Scan] left it, which can be beyond the line. *)
Theorem Command_parse_error :
  (forall (a : AGI) (timeout : Z) (cmd : list string) (line : string)
          (rest : list string) (e : ScanEnd),
     Write (w a) (command_line cmd) = None ->
     bufio_NewScanner (r a) = (line :: rest, e) ->
     line <> "" ->
     strings_HasPrefix line "HANGUP" = false ->
     responseRegex_FindStringSubmatch line = None ->
     Command a timeout cmd
     = mkRun (Some (mkResponse (Some (ErrParseResult line)) 0 0 "" ""))
             [EvWrite (command_line cmd); EvScan (Some line)]) /\
  (forall (wr : io_Writer) (src : Source) (timeout : Z) (cmd : list string)
          (line : string) (s' : Scanner) (src' : Source),
     Write wr (command_line cmd) = None ->
     Scan NewScanner src = ScanTrue line s' src' ->
     line <> "" ->
     strings_HasPrefix line "HANGUP" = false ->
     responseRegex_FindStringSubmatch line = None ->
     Command_from wr src timeout cmd
     = Some (mkRun (Some (mkResponse (Some (ErrParseResult line)) 0 0 "" ""))
               [EvWrite (command_line cmd); EvScan (Some line)],
             src')).
Proof.
  split; [|apply Command_from_parse_error].
  intros a timeout cmd line rest e Hw Hscan Hne Hnh Hno.
  rewrite Command_sent, Hscan by done.
  cbn [fst snd read_reply]. apply String.eqb_neq in Hne. rewrite Hne, Hnh.
  unfold parse_reply. by rewrite Hno.
Qed.

(** C4, as amended, on the line [banana] followed by a reply: as a text,
    and as a reader whose first [Read] returns both lines. *)
Lemma Command_parse_error_witness :
  (Write (w session_banana) (command_line ["ANSWER"]) = None /\
   bufio_NewScanner (r session_banana) = (["banana"; "200 result=1"], ScanBlocks) /\
   "banana" <> "" /\
   strings_HasPrefix "banana" "HANGUP" = false /\
   responseRegex_FindStringSubmatch "banana" = None /\
   Command session_banana 0 ["ANSWER"]
   = mkRun (Some (mkResponse (Some (ErrParseResult "banana")) 0 0 "" ""))
           [EvWrite (command_line ["ANSWER"]); EvScan (Some "banana")]) /\
  (Write writer_ok (command_line ["ANSWER"]) = None /\
   Scan NewScanner source_two_lines
   = ScanTrue "banana" (mkScanner 4096 7 ("200 result=1" +:+ nl) None) source_silent /\
   Command_from writer_ok source_two_lines 0 ["ANSWER"]
   = Some (mkRun (Some (mkResponse (Some (ErrParseResult "banana")) 0 0 "" ""))
             [EvWrite (command_line ["ANSWER"]); EvScan (Some "banana")],
           source_silent)).
Proof.
  split.
  - split; [reflexivity|]. split; [reflexivity|]. split; [discriminate|].
    split; [reflexivity|]. split; [reflexivity|].
    apply (proj1 Command_parse_error session_banana 0 ["ANSWER"] "banana"
             ["200 result=1"] ScanBlocks);
      [reflexivity|reflexivity|discriminate|reflexivity|reflexivity].
  - split; [reflexivity|]. split; [by vm_compute|].
    apply (proj2 Command_parse_error writer_ok source_two_lines 0 ["ANSWER"] "banana"
             (mkScanner 4096 7 ("200 result=1" +:+ nl) None) source_silent);
      [reflexivity|by vm_compute|discriminate|reflexivity|reflexivity].
Defined.

(** C4 as stated fails: when one [Read] returns the malformed line
    together with the reply that follows it, the scanner of the call holds
    that reply when the loop ends and is dropped with it: the reader has
    nothing left, and the next command waits for a reply although the
    stream has delivered one.  Had the line been left in the stream, the
    next command would have returned it. *)
Lemma Command_parse_error_counterexample :
  pending source_two_lines = ["banana" +:+ nl +:+ "200 result=1" +:+ nl] /\
  Command_from writer_ok source_two_lines 0 ["ANSWER"]
  = Some (mkRun (Some (mkResponse (Some (ErrParseResult "banana")) 0 0 "" ""))
            [EvWrite (command_line ["ANSWER"]); EvScan (Some "banana")],
          mkSource [] false) /\
  Command_from writer_ok (mkSource [] false) 0 ["ANSWER"]
  = Some (mkRun None [EvWrite (command_line ["ANSWER"]); EvScanBlocks],
          mkSource [] false) /\
  Command_from writer_ok (mkSource ["200 result=1" +:+ nl] false) 0 ["ANSWER"]
  = Some (mkRun (Some (mkResponse None 200 1 "1" ""))
            [EvWrite (command_line ["ANSWER"]); EvScan (Some "200 result=1")],
          mkSource [] false).
Proof. repeat split; by vm_compute. Qed.

(** However the stream is cut into chunks, the run is that of [Command]
    on the text of the stream; the chunks decide what is left. *)
Example Command_from_chunks :
  Command_from writer_ok
    (mkSource ["HANGUP" +:+ nl +:+ "200 result=1 (avail)" +:+ nl] false) 0
    ["CHANNEL"; "STATUS"]
  = Some (Command session_hangup 0 ["CHANNEL"; "STATUS"], mkSource [] false) /\
  Command_from writer_ok
    (mkSource ["HAN"; "GUP" +:+ nl +:+ "200 res"; "ult=1 (avail)" +:+ nl; "HANGUP" +:+ nl]
       false) 0 ["CHANNEL"; "STATUS"]
  = Some (Command session_hangup 0 ["CHANNEL"; "STATUS"],
          mkSource ["HANGUP" +:+ nl] false).
Proof. split; by vm_compute. Qed.

(** C3.  When the lines read before a line of the reply grammar all begin
    with [HANGUP], [Command] reads past them: the loop goes on to the
    reply and stops there, and the call returns the response parsed from
    the reply: its status, its result token with the integer it denotes,
    its value, and as error that of the token's conversion or of a status
    that is not 200, never a parse error.  On [HANGUP] followed by
    [200 result=1 (avail)] the response is status 200, result 1, value
    [avail], no error. *)
Theorem Command_skips_HANGUP :
  Command session_hangup 0 ["CHANNEL"; "STATUS"]
  = mkRun (Some (mkResponse None 200 1 "1" "avail"))
      [EvWrite ("CHANNEL STATUS" +:+ nl); EvScan (Some "HANGUP");
       EvScan (Some "200 result=1 (avail)")] /\
  forall (a : AGI) (timeout : Z) (cmd : list string) (hangups : list string)
         (st : string) (sp : ascii) (tok tail : string) (rest : list string)
         (e : ScanEnd),
    Write (w a) (command_line cmd) = None ->
    bufio_NewScanner (r a) = (hangups ++ reply_line st sp tok tail :: rest, e) ->
    Forall (fun h => exists t, h = "HANGUP" +:+ t) hangups ->
    is_status st = true -> class_space sp = true ->
    is_token tok = true -> is_tail tail = true ->
    Command a timeout cmd
    = mkRun
        (Some (mkResponse (reply_error st tok (reply_line st sp tok tail))
                 (decimal st) (strconv_Atoi tok).1 tok
                 (strings_TrimSuffix
                    (strings_TrimPrefix (strings_TrimSpace tail) "(") ")")))
        (EvWrite (command_line cmd)
           :: (scan_line <$> hangups) ++ [scan_line (reply_line st sp tok tail)]) /\
    (forall raw,
       reply_error st tok (reply_line st sp tok tail) <> Some (ErrParseResult raw)) /\
    (reply_error st tok (reply_line st sp tok tail) = None <->
     decimal st = StatusOK /\ (strconv_Atoi tok).2 = None).
Proof.
  split; [reflexivity|].
  intros a timeout cmd hangups st sp tok tail rest e Hw Hscan Hh Hst Hsp Htok Htail.
  split; [|split].
  - apply (Command_reply_run a timeout cmd hangups st sp tok tail rest e); try done.
    eapply Forall_impl; [exact Hh|]. intros h. apply hangup_prefix.
  - intros raw. unfold reply_error. by repeat case_match.
  - unfold reply_error. destruct (strconv_Atoi tok).2.
    + split; [done|]. by intros [_ ?].
    + destruct (decimal st =? StatusOK) eqn:E.
      * apply Z.eqb_eq in E. done.
      * apply Z.eqb_neq in E. split; [done|]. by intros [? _].
Qed.

(** C3, the general part, on a hangup notice followed by
    [200 result=1 (avail)]. *)
Lemma Command_skips_HANGUP_witness :
  Write (w session_hangup) (command_line ["CHANNEL"; "STATUS"]) = None /\
  bufio_NewScanner (r session_hangup)
  = (["HANGUP"] ++ reply_line "200" " " "1" " (avail)" :: [], ScanBlocks) /\
  Forall (fun h => exists t, h = "HANGUP" +:+ t) ["HANGUP"] /\
  Command session_hangup 0 ["CHANNEL"; "STATUS"]
  = mkRun
      (Some (mkResponse (reply_error "200" "1" (reply_line "200" " " "1" " (avail)"))
               (decimal "200") (strconv_Atoi "1").1 "1"
               (strings_TrimSuffix
                  (strings_TrimPrefix (strings_TrimSpace " (avail)") "(") ")")))
      (EvWrite (command_line ["CHANNEL"; "STATUS"])
         :: (scan_line <$> ["HANGUP"])
            ++ [scan_line (reply_line "200" " " "1" " (avail)")]) /\
  (forall raw,
     reply_error "200" "1" (reply_line "200" " " "1" " (avail)")
     <> Some (ErrParseResult raw)) /\
  (reply_error "200" "1" (reply_line "200" " " "1" " (avail)") = None <->
   decimal "200" = StatusOK /\ (strconv_Atoi "1").2 = None).
Proof.
  split; [reflexivity|]. split; [reflexivity|].
  split; [repeat constructor; by exists ""|].
  apply (proj2 Command_skips_HANGUP session_hangup 0 ["CHANNEL"; "STATUS"] ["HANGUP"]
           "200" " "%char "1" " (avail)" [] ScanBlocks);
    [reflexivity|reflexivity|repeat constructor; by exists ""
    |reflexivity|reflexivity|reflexivity|reflexivity].
Defined.

(** C10, as amended.  When every line read before the stream ends, or
    before its first empty line, is a hangup notice, [Command] with zero
    timeout returns a response with [Status] 0, the other fields at their
    zero values, and the error of a status that is not 200; the error
    carries the last line read: the empty line, or the last hangup
    notice. *)
Theorem Command_no_reply (a : AGI) (cmd : list string)
    (hangups tokens : list string) (e : ScanEnd) (raw : string) :
  Write (w a) (command_line cmd) = None ->
  bufio_NewScanner (r a) = (hangups ++ tokens, e) ->
  Forall is_hangup hangups ->
  (tokens = [] /\ e = ScanStops /\ raw = default "" (last hangups)) \/
  (exists rest, tokens = "" :: rest /\ raw = "") ->
  result (Command a 0 cmd) = Some (mkResponse (Some (ErrNon200 raw)) 0 0 "" "").
Proof.
  intros Hw Hscan Hh Hend. rewrite Command_sent, Hscan by done.
  cbn [fst snd]. rewrite read_reply_hangups by done.
  by destruct Hend as [(-> & -> & ->)|(rest & -> & ->)].
Qed.

(** C10 on a stream that ends after a hangup notice. *)
Lemma Command_no_reply_witness :
  Write (w session_hangup_eof) (command_line ["ANSWER"]) = None /\
  bufio_NewScanner (r session_hangup_eof) = (["HANGUP"] ++ [], ScanStops) /\
  Forall is_hangup ["HANGUP"] /\
  (([] : list string) = [] /\ ScanStops = ScanStops /\
   "HANGUP" = default "" (last ["HANGUP"])) /\
  result (Command session_hangup_eof 0 ["ANSWER"])
  = Some (mkResponse (Some (ErrNon200 "HANGUP")) 0 0 "" "").
Proof.
  split; [reflexivity|]. split; [reflexivity|]. split; [repeat constructor|].
  split; [split; [reflexivity|split; reflexivity]|].
  apply (Command_no_reply session_hangup_eof ["ANSWER"] ["HANGUP"] [] ScanStops "HANGUP");
    [reflexivity|reflexivity|repeat constructor|].
  left. split; [reflexivity|]. split; reflexivity.
Defined.

(** C10 as stated fails: the stream whose only line is [banana] ends
    before any line that matches the grammar is read, and [Command]
    returns the parse error, not the error of a status that is not 200. *)
Lemma Command_no_reply_counterexample :
  bufio_NewScanner (r session_banana_eof) = (["banana"], ScanStops) /\
  responseRegex_FindStringSubmatch "banana" = None /\
  result (Command session_banana_eof 0 ["ANSWER"])
  = Some (mkResponse (Some (ErrParseResult "banana")) 0 0 "" "") /\
  forall raw,
    Error <$> result (Command session_banana_eof 0 ["ANSWER"])
    <> Some (Some (ErrNon200 raw)).
Proof. split; [reflexivity|]. split; [reflexivity|]. split; [reflexivity|discriminate]. Qed.

(** C2, as amended.  For a reply line of the grammar whose result token
    [strconv.Atoi] rejects, [Command] returns a response whose
    [ResultString] is the token verbatim and whose [Error] is not nil but
    the error of the failed conversion; [Result] is what [Atoi] returned
    with its error: zero for a syntax error, the nearest bound of [int]
    for a range error. *)
Theorem Command_result_not_integer (a : AGI) (timeout : Z) (cmd : list string)
    (st : string) (sp : ascii) (tok tail : string) (rest : list string) (e : ScanEnd)
    (v : Z) (err : NumError) :
  Write (w a) (command_line cmd) = None ->
  bufio_NewScanner (r a) = (reply_line st sp tok tail :: rest, e) ->
  is_status st = true -> class_space sp = true ->
  is_token tok = true -> is_tail tail = true ->
  strconv_Atoi tok = (v, Some err) ->
  exists resp,
    result (Command a timeout cmd) = Some resp /\
    ResultString resp = tok /\
    Result resp = v /\
    (Err err = ErrSyntax -> Result resp = 0) /\
    (Err err = ErrRange -> Result resp = 2 ^ 63 - 1 \/ Result resp = - 2 ^ 63) /\
    Error resp = Some (ErrResultCode err (reply_line st sp tok tail)).
Proof.
  intros Hw Hscan Hst Hsp Htok Htail Hatoi.
  rewrite Command_sent, Hscan by done. cbn [fst snd].
  erewrite read_reply_match by by apply responseRegex_complete.
  cbn [reading_done reading_resp reading_raw result].
  rewrite parse_reply_grammar, Hatoi by done. cbn [fst snd].
  eexists. split; [done|]. unfold check_status.
  cbn [Error Status ResultString Result]. rewrite andb_false_r.
  cbn [Error Status ResultString Result].
  repeat split; try done.
  - intros Hsyn. apply Atoi_error in Hatoi as (_ & _ & [[_ ->]|[Hr _]]); [done|congruence].
  - intros Hr. apply Atoi_error in Hatoi as (_ & _ & [[Hsyn _]|[_ Hv]]); [congruence|done].
Qed.

(** C2, as amended, on the reply [200 result=on]. *)
Lemma Command_result_not_integer_witness :
  Write (w session_on) (command_line ["GET"; "DATA"]) = None /\
  bufio_NewScanner (r session_on) = (reply_line "200" " " "on" "" :: [], ScanBlocks) /\
  strconv_Atoi "on" = (0, Some (mkNumError "Atoi" "on" ErrSyntax)) /\
  exists resp,
    result (Command session_on 0 ["GET"; "DATA"]) = Some resp /\
    ResultString resp = "on" /\
    Result resp = 0 /\
    (Err (mkNumError "Atoi" "on" ErrSyntax) = ErrSyntax -> Result resp = 0) /\
    (Err (mkNumError "Atoi" "on" ErrSyntax) = ErrRange ->
     Result resp = 2 ^ 63 - 1 \/ Result resp = - 2 ^ 63) /\
    Error resp
    = Some (ErrResultCode (mkNumError "Atoi" "on" ErrSyntax)
              (reply_line "200" " " "on" "")).
Proof.
  split; [reflexivity|]. split; [reflexivity|]. split; [reflexivity|].
  apply (Command_result_not_integer session_on 0 ["GET"; "DATA"] "200" " " "on" ""
           [] ScanBlocks 0 (mkNumError "Atoi" "on" ErrSyntax));
    reflexivity.
Defined.

(** C2 as stated fails: on the reply [200 result=on], which matches the
    grammar and whose token is no integer, the [Error] of the response is
    not nil; and on a token of twenty digits, which no [int] holds,
    [Result] is not left at zero either. *)
Lemma Command_result_not_integer_counterexample :
  responseRegex_FindStringSubmatch "200 result=on"
  = Some ["200 result=on"; "200"; "on"; ""] /\
  (strconv_Atoi "on").2 = Some (mkNumError "Atoi" "on" ErrSyntax) /\
  result (Command session_on 0 ["GET"; "DATA"])
  = Some (mkResponse
            (Some (ErrResultCode (mkNumError "Atoi" "on" ErrSyntax) "200 result=on"))
            200 0 "on" "") /\
  Error <$> result (Command session_on 0 ["GET"; "DATA"]) <> Some None /\
  Result <$> result (Command (session ("200 result=99999999999999999999" +:+ nl) false)
                       0 ["GET"; "DATA"])
  = Some 9223372036854775807.
Proof.
  split; [reflexivity|]. split; [reflexivity|]. split; [reflexivity|].
  split; [discriminate|]. vm_compute. reflexivity.
Qed.

(** C1, as amended.  For every response [Command] returns after its
    reading loop has stopped at a line it read, and that is not the
    response of a timeout, [Error] is nil if and only if [Status] is 200,
    that line is a line of the reply grammar, and the result token of the
    line converts to an integer. *)
Theorem Command_Error_nil_iff (a : AGI) (timeout : Z) (cmd : list string)
    (resp : Response) (raw : string) :
  result (Command a timeout cmd) = Some resp ->
  last (trace (Command a timeout cmd)) = Some (EvScan (Some raw)) ->
  Error resp <> Some ErrTimeout ->
  (Error resp = None <->
   Status resp = StatusOK /\
   exists st sp tok tail,
     is_status st = true /\ class_space sp = true /\
     is_token tok = true /\ is_tail tail = true /\
     raw = reply_line st sp tok tail /\
     (strconv_Atoi tok).2 = None).
Proof.
  destruct (Write (w a) (command_line cmd)) as [err|] eqn:Hw.
  { by rewrite (Command_unsent a timeout cmd err Hw). }
  rewrite Command_sent by done. cbn zeta.
  destruct (read_reply_events_last (bufio_NewScanner (r a)).1
              (bufio_NewScanner (r a)).2 Response_zero "") as [Hne Hblocked].
  destruct (read_reply_cases (bufio_NewScanner (r a)).1 (bufio_NewScanner (r a)).2 "")
    as [(raw' & pieces & Hd & Hl & Hm & Hr & Hraw)|[Hz _]];
    set (rd := read_reply _ _ _ _) in *.
  - rewrite Hd, Hr, Hraw. cbn [result trace]. intros [= <-].
    rewrite last_cons_ne, Hl by done. intros [= <-] _.
    apply responseRegex_grammar in Hm
      as (st & sp & tok & tail & Hst & Hsp & Htok & Htail & -> & ->).
    rewrite parse_reply_grammar by done. unfold check_status.
    cbn [Status Error]. split.
    + intros Herr. destruct (strconv_Atoi tok).2 as [nerr|] eqn:Hatoi.
      { by rewrite andb_false_r in Herr. }
      destruct (decimal st =? StatusOK) eqn:Hs; [|done].
      apply Z.eqb_eq in Hs. split; [done|]. by exists st, sp, tok, tail.
    + intros (Hs & st' & sp' & tok' & tail' & Hst' & Hsp' & Htok' & Htail' & Heq & Hatoi).
      assert (tok' = tok) as ->.
      { pose proof (responseRegex_complete st sp tok tail Hst Hsp Htok Htail) as H1.
        pose proof (responseRegex_complete st' sp' tok' tail' Hst' Hsp' Htok' Htail') as H2.
        rewrite <- Heq, H1 in H2. by injection H2. }
      revert Hs. rewrite Hatoi.
      destruct (decimal st =? StatusOK) eqn:E; [done|].
      cbn [negb andb]. rewrite bool_decide_eq_true_2 by done. cbn [Status].
      by apply Z.eqb_neq in E.
  - destruct (reading_done rd) eqn:Hd.
    + cbn [result trace]. intros [= <-] _ _.
      unfold check_status. rewrite Hz. cbn [Z.eqb negb andb].
      destruct (reading_resp rd) as [[err|] status ? ? ?]; cbn in *.
      * split; [done|]. intros [? _]. by subst.
      * split; [done|]. intros [? _]. by subst.
    + assert (Hb : last (reading_events rd) = Some EvScanBlocks) by by apply Hblocked.
      destruct (0 <? timeout); cbn [result trace]; [|done].
      intros _. by rewrite last_cons_ne, Hb.
Qed.

(** C1, as amended, on the reply [200 result=1 (avail)]. *)
Lemma Command_Error_nil_iff_witness :
  result (Command session_avail 0 ["CHANNEL"; "STATUS"])
  = Some (mkResponse None 200 1 "1" "avail") /\
  last (trace (Command session_avail 0 ["CHANNEL"; "STATUS"]))
  = Some (EvScan (Some "200 result=1 (avail)")) /\
  Error (mkResponse None 200 1 "1" "avail") <> Some ErrTimeout /\
  (Error (mkResponse None 200 1 "1" "avail") = None <->
   Status (mkResponse None 200 1 "1" "avail") = StatusOK /\
   exists st sp tok tail,
     is_status st = true /\ class_space sp = true /\
     is_token tok = true /\ is_tail tail = true /\
     "200 result=1 (avail)" = reply_line st sp tok tail /\
     (strconv_Atoi tok).2 = None).
Proof.
  split; [reflexivity|]. split; [reflexivity|]. split; [discriminate|].
  apply (Command_Error_nil_iff session_avail 0 ["CHANNEL"; "STATUS"]
           (mkResponse None 200 1 "1" "avail") "200 result=1 (avail)");
    [reflexivity|reflexivity|discriminate].
Defined.

(** C1 as stated fails: on the reply [200 result=on] the line read matches
    the grammar and [Status] is 200, yet [Error] is not nil: the failed
    conversion of the result token sets it. *)
Lemma Command_Error_nil_iff_counterexample :
  last (trace (Command session_on 0 ["GET"; "DATA"]))
  = Some (EvScan (Some "200 result=on")) /\
  responseRegex_FindStringSubmatch "200 result=on"
  = Some ["200 result=on"; "200"; "on"; ""] /\
  Status <$> result (Command session_on 0 ["GET"; "DATA"]) = Some StatusOK /\
  Error <$> result (Command session_on 0 ["GET"; "DATA"])
  = Some (Some (ErrResultCode (mkNumError "Atoi" "on" ErrSyntax) "200 result=on")) /\
  Error <$> result (Command session_on 0 ["GET"; "DATA"]) <> Some None.
Proof.
  split; [reflexivity|]. split; [reflexivity|]. split; [reflexivity|].
  split; [reflexivity|discriminate].
Qed.

(** C7.  The reply [200 result=1 (avail)] gives [Status] 200, [Result] 1,
    [ResultString] ["1"] and [Value] ["avail"]; and for every reply line
    of the grammar that ends in a parenthesized group, [Value] is the
    text between the parentheses, next to the status, the token and its
    conversion. *)
Theorem Command_parenthesized_value :
  result (Command session_avail 0 ["CHANNEL"; "STATUS"])
  = Some (mkResponse None 200 1 "1" "avail") /\
  forall (a : AGI) (timeout : Z) (cmd : list string) (st : string) (sp : ascii)
         (tok : string) (sp' : ascii) (v : string) (rest : list string) (e : ScanEnd),
    Write (w a) (command_line cmd) = None ->
    bufio_NewScanner (r a)
    = (reply_line st sp tok (String sp' ("(" +:+ v +:+ ")")) :: rest, e) ->
    is_status st = true -> class_space sp = true ->
    is_token tok = true -> class_space sp' = true ->
    exists resp,
      result (Command a timeout cmd) = Some resp /\
      Status resp = decimal st /\
      ResultString resp = tok /\
      Result resp = (strconv_Atoi tok).1 /\
      Value resp = v.
Proof.
  split; [reflexivity|].
  intros a timeout cmd st sp tok sp' v rest e Hw Hscan Hst Hsp Htok Hsp'.
  assert (Htail : is_tail (String sp' ("(" +:+ v +:+ ")")) = true).
  { apply NewScanner_no_newline, Forall_cons_1 in Hscan as [Hline _].
    unfold no_newline, reply_line in Hline.
    rewrite string_forallb_app in Hline. apply andb_true_iff in Hline as [_ Hline].
    cbn [string_forallb] in Hline. apply andb_true_iff in Hline as [_ Hline].
    rewrite !string_forallb_app in Hline.
    apply andb_true_iff in Hline as [_ Hline]. apply andb_true_iff in Hline as [_ Hline].
    cbn [string_forallb] in Hline. apply andb_true_iff in Hline as [_ Hline].
    cbn [is_tail]. by rewrite Hsp'. }
  rewrite Command_sent, Hscan by done. cbn [fst snd].
  erewrite read_reply_match by by apply responseRegex_complete.
  cbn [reading_done reading_resp reading_raw result].
  rewrite parse_reply_grammar, Value_of_group by done.
  eexists. split; [done|]. unfold check_status. by case_match.
Qed.

(** C7, the general part, on the reply [200 result=1 (avail)]. *)
Lemma Command_parenthesized_value_witness :
  Write (w session_avail) (command_line ["CHANNEL"; "STATUS"]) = None /\
  bufio_NewScanner (r session_avail)
  = (reply_line "200" " " "1" (String " " ("(" +:+ "avail" +:+ ")")) :: [], ScanBlocks) /\
  exists resp,
    result (Command session_avail 0 ["CHANNEL"; "STATUS"]) = Some resp /\
    Status resp = decimal "200" /\
    ResultString resp = "1" /\
    Result resp = (strconv_Atoi "1").1 /\
    Value resp = "avail".
Proof.
  split; [reflexivity|]. split; [reflexivity|].
  apply (proj2 Command_parenthesized_value session_avail 0 ["CHANNEL"; "STATUS"]
           "200" " "%char "1" " "%char "avail" [] ScanBlocks); reflexivity.
Defined.

(** ** [strings.TrimSpace] on ASCII text *)














(** ** The handshake *)



Example NewWithEAGI_example :
  map_to_list <$> (Variables <$> result (NewWithEAGI (mkReader handshake_input false) writer_ok None))
  = Some [("agi_channel", "SIP/1234"); ("a", "z")].
Proof. vm_compute. reflexivity. Qed.

(** The trimming of the specification on the lines of the example. *)
Example trim_examples :
  trim " a " = "a" /\ trim " b:c " = "b:c" /\ trim " SIP/1234" = "SIP/1234" /\
  trim (String "009" " x  y" +:+ nl) = "x  y" /\ trim "   " = "".
Proof. repeat split. Qed.

(** ** The listener *)



(** * The rest of the package *)

(** ** Numerals *)

Example Itoa_examples :
  strconv_Itoa 0 = "0" /\ strconv_Itoa 1024 = "1024" /\ strconv_Itoa (-7) = "-7".
Proof. repeat split. Qed.

(** ** [strconv.Atoi] on numerals and its range *)

Lemma decimal_from_bounds (s : string) :
  forall n, string_forallb class_digit s = true -> 0 <= n ->
    n * 10 ^ Z.of_nat (String.length s) <= decimal_from s n
    < (n + 1) * 10 ^ Z.of_nat (String.length s).
Proof.
  induction s as [|c s IH]; intros n Hs Hn.
  - simpl. lia.
  - simpl in Hs. apply andb_true_iff in Hs as [Hc Hs].
    apply class_digit_byte in Hc.
    cbn [decimal_from String.length]. rewrite Nat2Z.inj_succ, Z.pow_succ_r by lia.
    specialize (IH (n * 10 + (byte c - 48)) Hs ltac:(lia)).
    assert (0 < 10 ^ Z.of_nat (String.length s)) by (apply Z.pow_pos_nonneg; lia).
    nia.
Qed.

Lemma decimal_from_ge (s : string) (n : Z) :
  string_forallb class_digit s = true -> 0 <= n -> n <= decimal_from s n.
Proof.
  intros Hs Hn. pose proof (decimal_from_bounds s n Hs Hn) as [H _].
  assert (0 < 10 ^ Z.of_nat (String.length s)) by (apply Z.pow_pos_nonneg; lia).
  nia.
Qed.

Lemma ParseUint_loop_digits (s : string) :
  forall n, string_forallb class_digit s = true -> 0 <= n <= maxUint64 ->
    ParseUint_loop s n
    = if decimal_from s n <=? maxUint64 then (decimal_from s n, None)
      else (maxUint64, Some ErrRange).
Proof.
  induction s as [|c s IH]; intros n Hs Hn.
  - cbn [ParseUint_loop decimal_from].
    by replace (n <=? maxUint64) with true by (symmetry; apply Z.leb_le; lia).
  - simpl in Hs. apply andb_true_iff in Hs as [Hc Hs].
    pose proof (class_digit_byte c Hc) as Hb.
    cbn [ParseUint_loop decimal_from]. unfold class_digit in Hc. rewrite Hc.
    replace (10 <=? byte c - 48) with false by (symmetry; apply Z.leb_gt; lia).
    pose proof (decimal_from_ge s (n * 10 + (byte c - 48)) Hs ltac:(lia)) as Hge.
    unfold maxUint64 in *.
    destruct ((2 ^ 64 - 1) / 10 + 1 <=? n) eqn:Hcut.
    + apply Z.leb_le in Hcut.
      replace (decimal_from s (n * 10 + (byte c - 48)) <=? 2 ^ 64 - 1) with false; [done|].
      symmetry. apply Z.leb_gt. change ((2 ^ 64 - 1) / 10 + 1) with 1844674407370955162 in Hcut.
      change (2 ^ 64 - 1) with 18446744073709551615. lia.
    + destruct (2 ^ 64 - 1 <? n * 10 + (byte c - 48)) eqn:Hov.
      * apply Z.ltb_lt in Hov.
        replace (decimal_from s (n * 10 + (byte c - 48)) <=? 2 ^ 64 - 1) with false; [done|].
        symmetry. apply Z.leb_gt. lia.
      * apply Z.ltb_ge in Hov. apply IH; [done|lia].
Qed.

(** [Atoi] on a numeral without sign: its value if it fits an [int], the
    upper bound and a range error otherwise. *)
Lemma Atoi_of_digits (s : string) :
  s <> "" -> string_forallb class_digit s = true ->
  strconv_Atoi s
  = if decimal s <? 2 ^ 63 then (decimal s, None)
    else (2 ^ 63 - 1, Some (mkNumError "Atoi" s ErrRange)).
Proof.
  intros Hne Hs. destruct s as [|c0 s1]; [done|].
  assert (Hc0 : 48 <= byte c0 <= 57).
  { simpl in Hs. apply andb_true_iff in Hs as [Hc _]. by apply class_digit_byte. }
  assert (Hsign : byte_is c0 "-" = false /\ byte_is c0 "+" = false).
  { split; apply byte_is_false; [change (byte "-") with 45|change (byte "+") with 43]; lia. }
  destruct Hsign as [Hminus Hplus].
  pose proof (decimal_from_bounds (String c0 s1) 0 Hs ltac:(lia)) as Hb.
  fold (decimal (String c0 s1)) in Hb.
  unfold strconv_Atoi.
  destruct ((0 <? len (String c0 s1)) && (len (String c0 s1) <? 19)) eqn:Hfast.
  - rewrite Hminus, Hplus. cbn [orb andb].
    rewrite Atoi_digits_decimal by done. fold (decimal (String c0 s1)).
    apply andb_true_iff in Hfast as [_ Hlen]. apply Z.ltb_lt in Hlen. unfold len in Hlen.
    assert (10 ^ Z.of_nat (String.length (String c0 s1)) <= 10 ^ 18)
      by (apply Z.pow_le_mono_r; lia).
    replace (decimal (String c0 s1) <? 2 ^ 63) with true; [done|].
    symmetry. apply Z.ltb_lt. change (10 ^ 18) with 1000000000000000000 in *.
    change (2 ^ 63) with 9223372036854775808. lia.
  - unfold strconv_ParseInt. rewrite Hminus, Hplus. cbn [orb negb andb].
    unfold strconv_ParseUint.
    rewrite ParseUint_loop_digits by (done || (unfold maxUint64; lia)).
    fold (decimal (String c0 s1)). unfold intSize, maxUint64.
    change (2 ^ (64 - 1)) with 9223372036854775808.
    change (2 ^ 63) with 9223372036854775808.
    change (2 ^ 64 - 1) with 18446744073709551615.
    destruct (decimal (String c0 s1) <=? 18446744073709551615) eqn:Hmax.
    + destruct (decimal (String c0 s1) <? 9223372036854775808) eqn:Hfit.
      * apply Z.ltb_lt in Hfit.
        by replace (9223372036854775808 <=? decimal (String c0 s1)) with false
          by (symmetry; apply Z.leb_gt; lia).
      * apply Z.ltb_ge in Hfit.
        by replace (9223372036854775808 <=? decimal (String c0 s1)) with true
          by (symmetry; apply Z.leb_le; lia).
    + apply Z.leb_gt in Hmax.
      by replace (decimal (String c0 s1) <? 9223372036854775808) with false
        by (symmetry; apply Z.ltb_ge; lia).
Qed.

Lemma Atoi_digits_bounds (s : string) :
  forall n v, Atoi_digits s n = Some v -> 0 <= n ->
    n * 10 ^ Z.of_nat (String.length s) <= v
    < (n + 1) * 10 ^ Z.of_nat (String.length s).
Proof.
  induction s as [|c s IH]; intros n v H Hn.
  - injection H as <-. simpl. lia.
  - cbn [Atoi_digits] in H. destruct (9 <? digit_of c) eqn:Hd; [done|].
    apply Z.ltb_ge in Hd.
    assert (0 <= digit_of c) by (unfold digit_of; apply Z.mod_pos_bound; lia).
    apply IH in H; [|lia].
    cbn [String.length]. rewrite Nat2Z.inj_succ, Z.pow_succ_r by lia.
    assert (0 < 10 ^ Z.of_nat (String.length s)) by (apply Z.pow_pos_nonneg; lia).
    nia.
Qed.

Lemma ParseUint_loop_nonneg (s : string) :
  forall n, 0 <= n -> 0 <= (ParseUint_loop s n).1.
Proof.
  induction s as [|c s IH]; intros n Hn; [done|].
  cbn [ParseUint_loop].
  assert (Hlow : 0 <= strconv_lower c).
  { unfold strconv_lower. apply Z.lor_nonneg. pose proof (byte_range c). lia. }
  destruct (byte_in 48 57 c) eqn:Hc.
  - unfold byte_in in Hc. apply andb_true_iff in Hc as [Hc _]. apply Z.leb_le in Hc.
    repeat case_match; cbn [fst]; try (unfold maxUint64; lia); try (apply IH; lia).
  - destruct ((97 <=? strconv_lower c) && (strconv_lower c <=? 122)) eqn:Hl; [|done].
    apply andb_true_iff in Hl as [Hl _]. apply Z.leb_le in Hl.
    repeat case_match; cbn [fst]; try (unfold maxUint64; lia); try (apply IH; lia).
Qed.

(** The value [Atoi] returns is an [int] of 64 bits, with or without
    error. *)
Lemma Atoi_int_range (s : string) :
  - 2 ^ 63 <= (strconv_Atoi s).1 <= 2 ^ 63 - 1.
Proof.
  unfold strconv_Atoi.
  destruct ((0 <? len s) && (len s <? 19)) eqn:Hfast.
  - apply andb_true_iff in Hfast as [_ Hlen]. apply Z.ltb_lt in Hlen. unfold len in *.
    destruct s as [|c0 s1]; [cbn; lia|].
    set (digits := if byte_is c0 "-" || byte_is c0 "+" then s1 else String c0 s1).
    assert (Hd : (String.length digits <= 18)%nat).
    { unfold digits. destruct (_ || _); cbn [String.length] in *; lia. }
    destruct (_ && _); [cbn; lia|].
    destruct (Atoi_digits digits 0) as [n|] eqn:Hn; [|cbn; lia].
    apply Atoi_digits_bounds in Hn; [|lia].
    assert (10 ^ Z.of_nat (String.length digits) <= 10 ^ 18)
      by (apply Z.pow_le_mono_r; lia).
    change (10 ^ 18) with 1000000000000000000 in *.
    change (2 ^ 63) with 9223372036854775808.
    cbn [fst]. destruct (byte_is c0 "-"); lia.
  - unfold strconv_ParseInt. destruct s as [|c0 s1]; [cbn; lia|].
    set (digits := if byte_is c0 "+" || byte_is c0 "-" then s1 else String c0 s1).
    assert (Hun : 0 <= (strconv_ParseUint digits).1).
    { unfold strconv_ParseUint. destruct digits; [done|]. by apply ParseUint_loop_nonneg. }
    destruct (strconv_ParseUint digits) as [un [[]|]]; cbn [fst] in Hun.
    + cbn. lia.
    + unfold intSize. change (2 ^ (64 - 1)) with 9223372036854775808.
      change (2 ^ 63) with 9223372036854775808.
      destruct (negb (byte_is c0 "-") && (9223372036854775808 <=? un)) eqn:H1; [cbn; lia|].
      destruct (byte_is c0 "-" && (9223372036854775808 <? un)) eqn:H2; [cbn; lia|].
      cbn [fst]. destruct (byte_is c0 "-"); cbn [negb andb] in H1, H2.
      * apply Z.ltb_ge in H2. lia.
      * apply Z.leb_gt in H1. lia.
    + unfold intSize. change (2 ^ (64 - 1)) with 9223372036854775808.
      change (2 ^ 63) with 9223372036854775808.
      destruct (negb (byte_is c0 "-") && (9223372036854775808 <=? un)) eqn:H1; [cbn; lia|].
      destruct (byte_is c0 "-" && (9223372036854775808 <? un)) eqn:H2; [cbn; lia|].
      cbn [fst]. destruct (byte_is c0 "-"); cbn [negb andb] in H1, H2.
      * apply Z.ltb_ge in H2. lia.
      * apply Z.leb_gt in H1. lia.
Qed.

(** ** More on the reading loop *)

(** The response of the goroutine is the one it started with, or the one
    parsed from a line. *)
Lemma read_reply_resp (tokens : list string) (e : ScanEnd) (resp : Response) :
  forall raw,
    reading_resp (read_reply tokens e resp raw) = resp \/
    exists line, reading_resp (read_reply tokens e resp raw) = parse_reply line resp.
Proof.
  induction tokens as [|text tokens IH]; intros raw; cbn [read_reply]; [by left|].
  destruct (String.eqb text ""); [by left|].
  destruct (strings_HasPrefix text "HANGUP"); [apply IH|].
  right. by exists text.
Qed.

Lemma parse_reply_ok (line : string) : response_ok (parse_reply line Response_zero).
Proof.
  destruct (responseRegex_FindStringSubmatch line) as [pieces|] eqn:Hm.
  - apply responseRegex_grammar in Hm
      as (st & sp & tok & tail & Hst & Hsp & Htok & Htail & -> & ->).
    rewrite parse_reply_grammar by done. unfold response_ok.
    cbn [Status ResultString Result Error].
    split; [by apply decimal_status_range|]. split; [done|].
    split; [apply Atoi_int_range|]. by destruct (strconv_Atoi tok).2.
  - unfold parse_reply. rewrite Hm. unfold response_ok. cbn. repeat split; try done; lia.
Qed.

Lemma response_ok_zero : response_ok Response_zero.
Proof. unfold response_ok. cbn. repeat split; try done; lia. Qed.

Lemma check_status_ok (resp : Response) (raw : string) :
  response_ok resp -> response_ok (check_status resp raw).
Proof.
  unfold check_status, response_ok. intros (? & ? & ? & ?).
  by destruct (_ && _).
Qed.

Lemma read_reply_ok (tokens : list string) (e : ScanEnd) (raw : string) :
  response_ok (reading_resp (read_reply tokens e Response_zero raw)).
Proof.
  destruct (read_reply_resp tokens e Response_zero raw) as [->|[line ->]].
  - apply response_ok_zero.
  - apply parse_reply_ok.
Qed.

(** ** More on [Command] *)

(** X1.  [responseRegex] matches a line exactly when the line is made of
    three digits, one white space character, [result=], a token of
    alphanumeric characters with an optional leading [-], and either
    nothing or a white space character followed by characters other than
    newline; the submatches are then the line, the digits, the token and
    the rest. *)
Theorem responseRegex_matches_grammar (raw : string) (pieces : list string) :
  responseRegex_FindStringSubmatch raw = Some pieces <->
  exists st sp tok tail,
    is_status st = true /\ class_space sp = true /\
    is_token tok = true /\ is_tail tail = true /\
    raw = reply_line st sp tok tail /\ pieces = [raw; st; tok; tail].
Proof. apply responseRegex_grammar. Qed.

(** X2.  Without timeout, [Command] waits for a reply without limit: when
    the command is written and the stream stays open delivering nothing
    but hangup notices, the call reads them all and never returns. *)
Theorem Command_waits_without_timeout (a : AGI) (timeout : Z) (cmd : list string)
    (hangups : list string) :
  timeout <= 0 ->
  Write (w a) (command_line cmd) = None ->
  bufio_NewScanner (r a) = (hangups, ScanBlocks) ->
  Forall (fun h => exists t, h = "HANGUP" +:+ t) hangups ->
  Command a timeout cmd
  = mkRun None (EvWrite (command_line cmd) :: (scan_line <$> hangups) ++ [EvScanBlocks]).
Proof.
  intros Ht Hw Hscan Hh%hangups_prefix.
  rewrite (Command_left_waiting a timeout cmd hangups) by done.
  by replace (0 <? timeout) with false by lia.
Qed.

(** X3.  With a timeout, when the command is written and the stream stays
    open delivering nothing but hangup notices, [Command] returns the
    timeout error, and the other fields of the response have their zero
    values. *)
Theorem Command_timeout_error (a : AGI) (timeout : Z) (cmd : list string)
    (hangups : list string) :
  0 < timeout ->
  Write (w a) (command_line cmd) = None ->
  bufio_NewScanner (r a) = (hangups, ScanBlocks) ->
  Forall (fun h => exists t, h = "HANGUP" +:+ t) hangups ->
  Command a timeout cmd
  = mkRun (Some (mkResponse (Some ErrTimeout) 0 0 "" ""))
      (EvWrite (command_line cmd) :: (scan_line <$> hangups) ++ [EvScanBlocks]).
Proof.
  intros Ht Hw Hscan Hh%hangups_prefix.
  rewrite (Command_left_waiting a timeout cmd hangups) by done.
  by replace (0 <? timeout) with true by lia.
Qed.

(** X4.  For a first line of the reply grammar whose token converts to an
    integer, the response has the status, the converted result, the token
    and the trimmed value of the line; its error is nil for status 200
    and the non-200 error, which carries the line, for any other
    status. *)
Theorem Command_reply_status (a : AGI) (timeout : Z) (cmd : list string)
    (st : string) (sp : ascii) (tok tail : string) (rest : list string) (e : ScanEnd)
    (v : Z) :
  Write (w a) (command_line cmd) = None ->
  bufio_NewScanner (r a) = (reply_line st sp tok tail :: rest, e) ->
  is_status st = true -> class_space sp = true ->
  is_token tok = true -> is_tail tail = true ->
  strconv_Atoi tok = (v, None) ->
  result (Command a timeout cmd)
  = Some (mkResponse
            (if decimal st =? StatusOK then None
             else Some (ErrNon200 (reply_line st sp tok tail)))
            (decimal st) v tok
            (strings_TrimSuffix (strings_TrimPrefix (strings_TrimSpace tail) "(") ")")).
Proof.
  intros Hw Hscan Hst Hsp Htok Htail Hatoi.
  rewrite Command_sent, Hscan by done. cbn [fst snd].
  erewrite read_reply_match by by apply responseRegex_complete.
  cbn [reading_done reading_resp reading_raw result].
  rewrite parse_reply_grammar, Hatoi by done. cbn [fst snd].
  unfold check_status. cbn [Status Error].
  by destruct (decimal st =? StatusOK).
Qed.

(** X5.  [Command] reads hangup notices and one further line, then stops:
    two sessions with the same writer whose input streams agree on that
    prefix give the same response and the same trace, whatever
    follows. *)
Theorem Command_reads_prefix_only (a1 a2 : AGI) (timeout : Z) (cmd : list string)
    (hangups : list string) (line : string) (rest1 rest2 : list string)
    (e1 e2 : ScanEnd) :
  w a1 = w a2 ->
  bufio_NewScanner (r a1) = (hangups ++ line :: rest1, e1) ->
  bufio_NewScanner (r a2) = (hangups ++ line :: rest2, e2) ->
  Forall is_hangup hangups ->
  ~ is_hangup line ->
  Command a1 timeout cmd = Command a2 timeout cmd /\
  (Write (w a1) (command_line cmd) = None ->
   trace (Command a1 timeout cmd)
   = EvWrite (command_line cmd) :: (scan_line <$> hangups ++ [line])).
Proof.
  intros Hw Hs1 Hs2 Hh Hline.
  assert (Hstep : forall rest e raw,
            read_reply (line :: rest) e Response_zero raw
            = mkReading (if String.eqb line "" then Response_zero
                         else parse_reply line Response_zero)
                line [scan_line line] true).
  { intros rest e raw. cbn [read_reply].
    destruct (String.eqb line ""); [done|].
    unfold is_hangup in Hline. by destruct (strings_HasPrefix line "HANGUP"). }
  destruct (Write (w a1) (command_line cmd)) as [err|] eqn:Hw1.
  { split; [|done].
    rewrite (Command_unsent a1 timeout cmd err Hw1).
    rewrite (Command_unsent a2 timeout cmd err); [done|congruence]. }
  rewrite !Command_sent, Hs1, Hs2 by congruence. cbn [fst snd].
  rewrite !read_reply_hangups, !Hstep by done.
  cbn [reading_done reading_resp reading_raw reading_events trace].
  split; [done|]. intros _. by rewrite fmap_app.
Qed.

(** X6.  Every response [Command] returns has a status between 0 and 999,
    a result string that is a token of the grammar, a result within the
    range of a 64-bit integer, and status 200 when its error is nil. *)
Theorem Command_response_invariant (a : AGI) (timeout : Z) (cmd : list string)
    (resp : Response) :
  result (Command a timeout cmd) = Some resp ->
  0 <= Status resp <= 999 /\
  is_token (ResultString resp) = true /\
  - 2 ^ 63 <= Result resp <= 2 ^ 63 - 1 /\
  (Error resp = None -> Status resp = StatusOK).
Proof.
  destruct (Write (w a) (command_line cmd)) as [err|] eqn:Hw.
  { rewrite (Command_unsent a timeout cmd err Hw). cbn. intros [= <-]. cbn.
    repeat split; try done; lia. }
  rewrite Command_sent by done. cbn zeta.
  pose proof (read_reply_ok (bufio_NewScanner (r a)).1
                (bufio_NewScanner (r a)).2 "") as Hok.
  set (rd := read_reply _ _ _ _) in *.
  destruct (reading_done rd).
  - cbn. intros [= <-].
    destruct (check_status_ok _ (reading_raw rd) Hok) as (? & ? & ? & _).
    repeat split; try done; try lia.
    unfold check_status.
    destruct (Status (reading_resp rd) =? StatusOK) eqn:Hs; cbn [negb andb].
    + intros _. by apply Z.eqb_eq.
    + destruct (bool_decide (Error (reading_resp rd) = None)) eqn:Hb; [done|].
      by apply bool_decide_eq_false in Hb.
  - destruct (0 <? timeout); cbn; [|done]. intros [= <-].
    destruct Hok as (? & ? & ? & _). cbn. repeat split; try done; lia.
Qed.

(** X7.  [Command] joins its tokens with blanks and neither quotes nor
    escapes them: a token that contains a blank gives the same call as
    the two tokens it is made of. *)
Theorem Command_tokens_not_quoted (a : AGI) (timeout : Z) (pre post : list string)
    (s t : string) :
  Command a timeout (pre ++ (s +:+ " " +:+ t) :: post)
  = Command a timeout (pre ++ s :: t :: post).
Proof.
  assert (Hjoin : strings_Join (pre ++ (s +:+ " " +:+ t) :: post) " "
                  = strings_Join (pre ++ s :: t :: post) " ").
  { induction pre as [|p pre IH].
    - cbn [app strings_Join]. destruct post as [|q post]; [done|].
      by rewrite !string_app_assoc.
    - cbn [app]. cbn [strings_Join].
      destruct (pre ++ (s +:+ " " +:+ t) :: post) eqn:E1; [by destruct pre|].
      destruct (pre ++ s :: t :: post) eqn:E2; [by destruct pre|].
      by rewrite IH. }
  unfold Command, command_line. by rewrite Hjoin.
Qed.

(** ** More on the handshake *)

Lemma handshake_no_blank (block : list string) (e : ScanEnd) :
  forall vars : gmap string string,
    Forall (fun l => l <> "") block ->
    handshake block e vars
    = ((handshake (block ++ [""]) e vars).1.1,
       (scan_line <$> block) ++ scan_end e,
       match e with ScanStops => true | ScanBlocks => false end).
Proof.
  induction block as [|line block IH]; intros vars Hne; [done|].
  inversion Hne as [|?? Hline Hblock]; subst.
  cbn [app handshake]. apply String.eqb_neq in Hline. rewrite Hline.
  rewrite (IH _ Hblock).
  by destruct (handshake (block ++ [""]) e (handshake_line line vars)) as [[??]?].
Qed.


(** X8.  When the input stream ends before an empty line, [NewWithEAGI]
    still returns a session, with the variables of the lines read; the
    end of the stream is its last event. *)
Theorem NewWithEAGI_end_of_stream (r : io_Reader) (w : io_Writer)
    (eagi : option io_Reader) (block : list string) :
  bufio_NewScanner r = (block, ScanStops) ->
  Forall (fun l => l <> "") block ->
  exists a,
    NewWithEAGI r w eagi = mkRun (Some a) ((scan_line <$> block) ++ [EvScan None]) /\
    forall k v, Variables a !! k = Some v <-> last_binding block k v.
Proof.
  intros Hscan Hne. unfold NewWithEAGI. rewrite Hscan, handshake_no_blank by done.
  destruct (handshake_block block [] ScanStops ∅ Hne) as (vars & -> & Hlookup).
  eexists. split; [done|]. cbn [Variables fst]. intros k v.
  rewrite Hlookup. split; [|by left].
  intros [?|[H _]]; [done|]. by rewrite lookup_empty in H.
Qed.


(** ** The life cycle of a session *)

(** X10.  A session of [NewConn] is not closed; [Close] calls [Close] on
    its connection once, returns the error of that call and leaves the
    session closed, with its variables; a second [Close] does nothing and
    returns nil. *)
Theorem Close_connection (conn_Close : net_Conn -> option string) (c : net_Conn)
    (a : AGI) :
  result (NewConn c) = Some a ->
  IsClosed (Some a) = false /\
  exists a',
    Close conn_Close a = (conn_Close c, a', [c]) /\
    IsClosed (Some a') = true /\
    Variables a' = Variables a /\
    Close conn_Close a' = (None, a', []).
Proof.
  unfold NewConn, New. cbn [result].
  destruct (result (NewWithEAGI (conn_r c) (conn_w c) None)) as [a0|]; [|done].
  cbn. intros [= <-]. split; [done|]. unfold Close. cbn. eexists. by repeat split.
Qed.

(** X11.  A session made by [NewWithEAGI] has no connection: [IsClosed]
    reports true from the start, and [Close] does nothing and returns
    nil. *)
Theorem Close_without_connection (conn_Close : net_Conn -> option string)
    (r : io_Reader) (w : io_Writer) (eagi : option io_Reader) (a : AGI) :
  result (NewWithEAGI r w eagi) = Some a ->
  IsClosed (Some a) = true /\ Close conn_Close a = (None, a, []).
Proof.
  unfold NewWithEAGI. destruct (bufio_NewScanner r) as [tokens e].
  destruct (handshake tokens e ∅) as [[vars events] exits].
  destruct exits; [|done]. cbn. by intros [= <-].
Qed.

(** ** More on the listener *)

Section ListenerFacts.

Context {HandlerFunc : Type}.
Variable net_Listen : string -> string -> net_Listener + string.
Variable handler : HandlerFunc.

Lemma accept_loop_served (conns : list net_Conn) (err : option string) :
  forall sessions,
    Forall2 (fun c a => result (NewConn c) = Some a) conns sessions ->
    accept_loop HandlerFunc handler conns err
    = (ErrAccept <$> err,
       served handler conns sessions
       ++ match err with Some _ => [NetAccept None; NetClose] | None => [] end).
Proof.
  induction conns as [|c conns IH]; intros sessions Hs.
  - inversion Hs; subst. cbn. by destruct err.
  - inversion Hs as [|?? ? sessions' Hc Hrest]; subst.
    cbn [accept_loop]. rewrite Hc, (IH sessions' Hrest). done.
Qed.

Lemma accept_loop_stalled (before after : list net_Conn) (c : net_Conn)
    (err : option string) :
  forall sessions,
    Forall2 (fun c a => result (NewConn c) = Some a) before sessions ->
    result (NewConn c) = None ->
    accept_loop HandlerFunc handler (before ++ c :: after) err
    = (None, served handler before sessions ++ [NetAccept (Some c)]).
Proof.
  induction before as [|b before IH]; intros sessions Hs Hc.
  - inversion Hs; subst. cbn [app accept_loop]. by rewrite Hc.
  - inversion Hs as [|?? ? sessions' Hb Hrest]; subst.
    cbn [app accept_loop]. rewrite Hb, (IH sessions' Hrest Hc). done.
Qed.

Lemma accept_loop_returns (conns : list net_Conn) (err : option string) (e : error) :
  (accept_loop HandlerFunc handler conns err).1 = Some e ->
  (exists cause, err = Some cause /\ e = ErrAccept cause) /\
  last (accept_loop HandlerFunc handler conns err).2 = Some NetClose /\
  Forall (fun c => is_Some (result (NewConn c))) conns.
Proof.
  induction conns as [|c conns IH]; cbn [accept_loop].
  - destruct err as [cause|]; cbn; [|done]. intros [= <-]. eauto.
  - destruct (result (NewConn c)) as [a|] eqn:Hc; [|done].
    destruct (accept_loop HandlerFunc handler conns err) as [res events].
    cbn in *. intros Hres. destruct (IH Hres) as (Hcause & Hlast & Hall).
    split; [done|]. split; [|by constructor].
    rewrite last_cons_ne; [done|by destruct events].
Qed.

(** X12.  When [Listen] returns, it returns an error: either the bind
    failed, and nothing else happened, or an [Accept] failed after the
    handshake of every connection accepted before had ended, and the
    listener is closed last. *)
Theorem Listen_returns_error (addr : string) (e : error) :
  (Listen HandlerFunc net_Listen addr handler).1 = Some e ->
  (exists cause,
     net_Listen "tcp" (listen_addr addr) = inr cause /\ e = ErrBind cause /\
     (Listen HandlerFunc net_Listen addr handler).2
     = [NetListen "tcp" (listen_addr addr)]) \/
  (exists l cause,
     net_Listen "tcp" (listen_addr addr) = inl l /\
     accept_err l = Some cause /\ e = ErrAccept cause /\
     Forall (fun c => is_Some (result (NewConn c))) (incoming l) /\
     last (Listen HandlerFunc net_Listen addr handler).2 = Some NetClose).
Proof.
  unfold Listen. fold (listen_addr addr).
  destruct (net_Listen "tcp" (listen_addr addr)) as [l|cause] eqn:Hl.
  - pose proof (accept_loop_returns (incoming l) (accept_err l) e) as Hret.
    destruct (accept_loop HandlerFunc handler (incoming l) (accept_err l))
      as [res events].
    cbn in *. intros Hres. destruct (Hret Hres) as ((cause & Hc & ->) & Hlast & Hall).
    right. exists l, cause. repeat split; try done.
    rewrite last_cons_ne; [done|by destruct events].
  - cbn. intros [= <-]. left. by exists cause.
Qed.

(** X13.  [Listen] accepts the connections in order and starts a goroutine
    of the handler on the session of each one; when [Accept] fails it
    closes the listener and returns the accept error.  Each session is
    bound to its connection and is not closed. *)
Theorem Listen_serves_each_connection (addr : string) (l : net_Listener)
    (sessions : list AGI) (cause : string) :
  net_Listen "tcp" (listen_addr addr) = inl l ->
  Forall2 (fun c a => result (NewConn c) = Some a) (incoming l) sessions ->
  accept_err l = Some cause ->
  Listen HandlerFunc net_Listen addr handler
  = (Some (ErrAccept cause),
     NetListen "tcp" (listen_addr addr)
       :: served handler (incoming l) sessions ++ [NetAccept None; NetClose]) /\
  Forall2 (fun c a => conn a = Some c /\ IsClosed (Some a) = false)
    (incoming l) sessions.
Proof.
  intros Hl Hs Herr. split.
  - unfold Listen. fold (listen_addr addr).
    by rewrite Hl, (accept_loop_served _ _ sessions Hs), Herr.
  - eapply Forall2_impl; [exact Hs|].
    intros c a. unfold NewConn. cbn [result].
    destruct (result (New _ _)); [|done]. cbn. by intros [= <-].
Qed.

(** X14.  The handshake runs in the accept loop: a connection whose
    handshake never ends keeps [Listen] from accepting the connections
    after it, and [Listen] neither returns nor closes the listener. *)
Theorem Listen_stalled_by_handshake (addr : string) (l : net_Listener)
    (before after : list net_Conn) (c : net_Conn) (sessions : list AGI) :
  net_Listen "tcp" (listen_addr addr) = inl l ->
  incoming l = before ++ c :: after ->
  Forall2 (fun c a => result (NewConn c) = Some a) before sessions ->
  result (NewConn c) = None ->
  Listen HandlerFunc net_Listen addr handler
  = (None,
     NetListen "tcp" (listen_addr addr)
       :: served handler before sessions ++ [NetAccept (Some c)]).
Proof.
  intros Hl Hin Hs Hc. unfold Listen. fold (listen_addr addr).
  by rewrite Hl, Hin, (accept_loop_stalled _ _ _ _ sessions Hs Hc).
Qed.

End ListenerFacts.

(** ** The commands built on [Command] *)

(** [Command] on a first line of the grammar. *)
Lemma Command_first_reply (a : AGI) (timeout : Z) (cmd : list string)
    (st : string) (sp : ascii) (tok tail : string) (rest : list string) (e : ScanEnd) :
  Write (w a) (command_line cmd) = None ->
  bufio_NewScanner (r a) = (reply_line st sp tok tail :: rest, e) ->
  is_status st = true -> class_space sp = true ->
  is_token tok = true -> is_tail tail = true ->
  result (Command a timeout cmd)
  = Some (check_status
            (mkResponse
               (match (strconv_Atoi tok).2 with
                | Some err => Some (ErrResultCode err (reply_line st sp tok tail))
                | None => None
                end)
               (decimal st) (strconv_Atoi tok).1 tok
               (strings_TrimSuffix (strings_TrimPrefix (strings_TrimSpace tail) "(") ")"))
            (reply_line st sp tok tail)).
Proof.
  intros Hw Hscan Hst Hsp Htok Htail.
  rewrite Command_sent, Hscan by done. cbn [fst snd].
  erewrite read_reply_match by by apply responseRegex_complete.
  cbn [reading_done reading_resp reading_raw result].
  by rewrite parse_reply_grammar by done.
Qed.

(** A parenthesized group read by the scanner is a tail of the grammar. *)
Lemma scanned_group_tail (r : io_Reader) (st : string) (sp : ascii) (tok : string)
    (sp' : ascii) (v : string) (rest : list string) (e : ScanEnd) :
  bufio_NewScanner r
  = (reply_line st sp tok (String sp' ("(" +:+ v +:+ ")")) :: rest, e) ->
  class_space sp' = true ->
  is_tail (String sp' ("(" +:+ v +:+ ")")) = true.
Proof.
  intros Hscan Hsp'.
  apply NewScanner_no_newline, Forall_cons_1 in Hscan as [Hline _].
  unfold no_newline, reply_line in Hline.
  rewrite string_forallb_app in Hline. apply andb_true_iff in Hline as [_ Hline].
  cbn [string_forallb] in Hline. apply andb_true_iff in Hline as [_ Hline].
  rewrite !string_forallb_app in Hline.
  apply andb_true_iff in Hline as [_ Hline]. apply andb_true_iff in Hline as [_ Hline].
  cbn [string_forallb] in Hline. apply andb_true_iff in Hline as [_ Hline].
  cbn [is_tail]. by rewrite Hsp'.
Qed.

Lemma digits_token (s : string) :
  string_forallb class_digit s = true -> is_token s = true.
Proof.
  assert (Hall : forall t, string_forallb class_digit t = true ->
                           string_forallb class_alnum t = true).
  { induction t as [|c t IH]; [done|]. cbn [string_forallb].
    intros [Hc Ht]%andb_true_iff. rewrite (IH Ht), andb_true_r.
    unfold class_alnum. unfold class_digit in Hc. by rewrite Hc. }
  destruct s as [|c s]; [done|]. intros Hs. cbn [is_token].
  rewrite byte_is_false; [by apply Hall|].
  cbn [string_forallb] in Hs. apply andb_true_iff in Hs as [Hc _].
  apply class_digit_byte in Hc. change (byte "-") with 45. lia.
Qed.

Lemma check_status_200 (resp : Response) (raw : string) :
  Status resp = StatusOK -> check_status resp raw = resp.
Proof. unfold check_status. intros ->. done. Qed.

(** X15.  [Get] returns the text between the parentheses of the reply,
    whatever the status and the token are; its error is nil exactly when
    the status is 200 and the token converts to an integer. *)
Theorem Get_value (a : AGI) (key : string) (st : string) (sp : ascii) (tok : string)
    (sp' : ascii) (v : string) (rest : list string) (e : ScanEnd) :
  Write (w a) (command_line ["GET VARIABLE"; key]) = None ->
  bufio_NewScanner (r a)
  = (reply_line st sp tok (String sp' ("(" +:+ v +:+ ")")) :: rest, e) ->
  is_status st = true -> class_space sp = true ->
  is_token tok = true -> class_space sp' = true ->
  exists err,
    result (Get a key) = Some (v, err) /\
    (err = None <-> decimal st = StatusOK /\ (strconv_Atoi tok).2 = None).
Proof.
  intros Hw Hscan Hst Hsp Htok Hsp'.
  pose proof (scanned_group_tail _ _ _ _ _ _ _ _ Hscan Hsp') as Htail.
  unfold Get, run_map. cbn [result].
  rewrite (Command_first_reply _ _ _ _ _ _ _ _ _ Hw Hscan) by done.
  rewrite Value_of_group by done. unfold check_status. cbn [Status Error].
  destruct (strconv_Atoi tok).2 as [nerr|]; cbn [fmap option_fmap option_map].
  - rewrite bool_decide_eq_false_2, andb_false_r by done.
    eexists. split; [done|]. split; [done|]. by intros [_ ?].
  - rewrite bool_decide_eq_true_2, andb_true_r by done.
    destruct (decimal st =? StatusOK) eqn:Hs; cbn [negb]; eexists; (split; [done|]).
    + apply Z.eqb_eq in Hs. done.
    + apply Z.eqb_neq in Hs. split; [done|]. by intros [? _].
Qed.

(** X16.  On a reply without parenthesized value [Get] returns the empty
    string, with the error of the response: that of the conversion of the
    result token, or of a status that is not 200, or nil; so
    [200 result=0], the reply for a variable that is not set, gives the
    empty string and no error. *)
Theorem Get_without_value (a : AGI) (key : string) (st : string) (sp : ascii)
    (tok : string) (rest : list string) (e : ScanEnd) :
  Write (w a) (command_line ["GET VARIABLE"; key]) = None ->
  bufio_NewScanner (r a) = (reply_line st sp tok "" :: rest, e) ->
  is_status st = true -> class_space sp = true -> is_token tok = true ->
  result (Get a key) = Some ("", reply_error st tok (reply_line st sp tok "")) /\
  (reply_error st tok (reply_line st sp tok "") = None <->
   decimal st = StatusOK /\ (strconv_Atoi tok).2 = None).
Proof.
  intros Hw Hscan Hst Hsp Htok. split.
  - unfold Get, run_map. cbn [result].
    by rewrite (Command_reply_result _ _ _ _ _ _ _ _ _ Hw Hscan).
  - unfold reply_error. destruct (strconv_Atoi tok).2.
    + split; [done|]. by intros [_ ?].
    + destruct (decimal st =? StatusOK) eqn:E.
      * apply Z.eqb_eq in E. done.
      * apply Z.eqb_neq in E. split; [done|]. by intros [? _].
Qed.

(** X17.  [Status] reads the state from the parenthesized value, not from
    the result token: on a reply without value it never returns a state.
    It returns [StateDown] with the error of the command, if there is
    one, and otherwise, as on [200 result=6], with the error that the
    state could not be parsed. *)
Theorem Status_without_value (a : AGI) (st : string) (sp : ascii)
    (tok : string) (rest : list string) (e : ScanEnd) :
  Write (w a) (command_line ["CHANNEL STATUS"]) = None ->
  bufio_NewScanner (r a) = (reply_line st sp tok "" :: rest, e) ->
  is_status st = true -> class_space sp = true -> is_token tok = true ->
  result (AGI_Status a)
  = Some (StateDown,
          Some (match reply_error st tok (reply_line st sp tok "") with
                | Some err => StatusCommandError err
                | None => ErrParseState ""
                end)).
Proof.
  intros Hw Hscan Hst Hsp Htok.
  unfold AGI_Status, run_map. cbn [result].
  rewrite (Command_reply_result _ _ _ _ _ _ _ _ _ Hw Hscan) by done.
  cbn [fmap option_fmap option_map]. unfold state_of_response. cbn [Val Value Error].
  by destruct (reply_error _ _ _).
Qed.

(** X18.  On a reply with a parenthesized value of decimal digits,
    [Status] returns [StateDown] and the error of the command when there
    is one; otherwise it returns the number the digits denote as the
    state, without checking it against the states it knows, and for a
    number that does not fit a signed 64-bit integer [StateDown] and the
    error that the state could not be parsed. *)
Theorem Status_value (a : AGI) (st : string) (sp : ascii) (tok : string)
    (sp' : ascii) (v : string) (rest : list string) (e : ScanEnd) :
  Write (w a) (command_line ["CHANNEL STATUS"]) = None ->
  bufio_NewScanner (r a)
  = (reply_line st sp tok (String sp' ("(" +:+ v +:+ ")")) :: rest, e) ->
  is_status st = true -> class_space sp = true ->
  is_token tok = true -> class_space sp' = true ->
  v <> "" -> string_forallb class_digit v = true ->
  result (AGI_Status a)
  = Some (match reply_error st tok
                  (reply_line st sp tok (String sp' ("(" +:+ v +:+ ")"))) with
          | Some err => (StateDown, Some (StatusCommandError err))
          | None =>
              if decimal v <? 2 ^ 63 then (decimal v, None)
              else (StateDown, Some (ErrParseState v))
          end).
Proof.
  intros Hw Hscan Hst Hsp Htok Hsp' Hne Hv.
  pose proof (scanned_group_tail _ _ _ _ _ _ _ _ Hscan Hsp') as Htail.
  unfold AGI_Status, run_map. cbn [result].
  rewrite (Command_reply_result _ _ _ _ _ _ _ _ _ Hw Hscan) by done.
  rewrite Value_of_group by done.
  cbn [fmap option_fmap option_map]. unfold state_of_response. cbn [Val Value Error].
  destruct (reply_error _ _ _); [done|].
  rewrite Atoi_of_digits by done. by destruct (decimal v <? 2 ^ 63).
Qed.

(** X23.  [Answer], [Hangup], [Set], [Get] and [Status] call [Command]
    with a timeout: when the command is written and the stream stays
    open delivering nothing but hangup notices, each returns the timeout
    error, [Get] with the empty string and [Status] with [StateDown]. *)
Theorem fixed_timeouts_expire (a : AGI) (key val : string) (hangups : list string) :
  (forall p, Write (w a) p = None) ->
  bufio_NewScanner (r a) = (hangups, ScanBlocks) ->
  Forall (fun h => exists t, h = "HANGUP" +:+ t) hangups ->
  result (Answer a) = Some (Some ErrTimeout) /\
  result (Hangup a) = Some (Some ErrTimeout) /\
  result (Set_ a key val) = Some (Some ErrTimeout) /\
  result (Get a key) = Some ("", Some ErrTimeout) /\
  result (AGI_Status a) = Some (StateDown, Some (StatusCommandError ErrTimeout)).
Proof.
  intros Hw Hscan Hh%hangups_prefix.
  unfold Answer, Hangup, Set_, Get, AGI_Status, run_map. cbn [result].
  by rewrite !(fun t cmd => Command_left_waiting a t cmd hangups (Hw _) Hscan Hh).
Qed.

Section DurationFacts.

Variable toMSec : Z -> string.

(** X19.  [GetData] returns the digits of the result token as they are;
    its error is nil unless the number they denote does not fit a signed
    64-bit integer, in which case the digits come with the conversion
    error. *)
Theorem GetData_digits (a : AGI) (sound : string) (timeout maxdigits : Z)
    (st : string) (sp : ascii) (digits tail : string) (rest : list string)
    (e : ScanEnd) :
  Write (w a) (command_line (GetData_args toMSec sound timeout maxdigits)) = None ->
  bufio_NewScanner (r a) = (reply_line st sp digits tail :: rest, e) ->
  is_status st = true -> class_space sp = true -> is_tail tail = true ->
  decimal st = StatusOK ->
  digits <> "" -> string_forallb class_digit digits = true ->
  result (GetData toMSec a sound timeout maxdigits)
  = Some (digits,
          if decimal digits <? 2 ^ 63 then None
          else Some (ErrResultCode (mkNumError "Atoi" digits ErrRange)
                       (reply_line st sp digits tail))).
Proof.
  intros Hw Hscan Hst Hsp Htail Hok Hne Hd.
  unfold GetData, run_map. cbn [result].
  rewrite (Command_first_reply _ _ _ _ _ _ _ _ _ Hw Hscan)
    by (try done; by apply digits_token).
  rewrite check_status_200 by done. rewrite Atoi_of_digits by done.
  by destruct (decimal digits <? 2 ^ 63).
Qed.

(** X20.  When the result token is empty, as in [200 result= (timeout)],
    [GetData] returns the empty string and the error that the result
    code is not an integer. *)
Theorem GetData_no_digits (a : AGI) (sound : string) (timeout maxdigits : Z)
    (st : string) (sp : ascii) (tail : string) (rest : list string) (e : ScanEnd) :
  Write (w a) (command_line (GetData_args toMSec sound timeout maxdigits)) = None ->
  bufio_NewScanner (r a) = (reply_line st sp "" tail :: rest, e) ->
  is_status st = true -> class_space sp = true -> is_tail tail = true ->
  result (GetData toMSec a sound timeout maxdigits)
  = Some ("", Some (ErrResultCode (mkNumError "Atoi" "" ErrSyntax)
                      (reply_line st sp "" tail))).
Proof.
  intros Hw Hscan Hst Hsp Htail.
  unfold GetData, run_map. cbn [result].
  rewrite (Command_first_reply _ _ _ _ _ _ _ _ _ Hw Hscan) by done.
  unfold check_status. cbn [Error Status strconv_Atoi snd].
  by rewrite andb_false_r.
Qed.

(** X22.  The timeout given to [GetData] is sent in the command and is
    not the timeout of the call: when the command is written and the
    stream stays open delivering nothing but hangup notices, [GetData]
    never returns, whatever the timeout. *)
Theorem GetData_no_timeout (a : AGI) (sound : string) (timeout maxdigits : Z)
    (hangups : list string) :
  Write (w a) (command_line (GetData_args toMSec sound timeout maxdigits)) = None ->
  bufio_NewScanner (r a) = (hangups, ScanBlocks) ->
  Forall (fun h => exists t, h = "HANGUP" +:+ t) hangups ->
  GetData toMSec a sound timeout maxdigits
  = mkRun None
      (EvWrite ("GET DATA " +:+ (if String.eqb sound "" then "silence/1" else sound)
                +:+ " " +:+ toMSec timeout +:+ " " +:+ strconv_Itoa maxdigits +:+ nl)
         :: (scan_line <$> hangups) ++ [EvScanBlocks]).
Proof.
  intros Hw Hscan Hh%hangups_prefix. unfold GetData, run_map.
  rewrite (Command_left_waiting a 0 _ hangups) by done.
  cbn [result trace fmap option_fmap option_map Z.ltb Z.compare]. f_equal. f_equal. f_equal.
  unfold command_line, GetData_args. cbn [strings_Join].
  by rewrite !string_app_assoc.
Qed.

End DurationFacts.

(** ** Result tokens with a symbol *)

Lemma string_app_inj_length (s1 s2 t1 t2 : string) :
  String.length s1 = String.length s2 ->
  s1 +:+ t1 = s2 +:+ t2 -> s1 = s2 /\ t1 = t2.
Proof.
  revert s2. induction s1 as [|a s1 IH]; intros [|b s2] Hlen; try done.
  rewrite !string_app_cons. intros [= -> H].
  destruct (IH s2) as [-> ->]; [by injection Hlen|done|done].
Qed.

Lemma alnum_not_space (c : ascii) : class_alnum c = true -> class_space c = false.
Proof.
  unfold class_alnum, class_space, byte_in.
  rewrite !orb_true_iff, !andb_true_iff, !Z.leb_le, !orb_false_iff, !Z.eqb_neq. lia.
Qed.

(** A run of alphanumeric characters and a tail of the grammar do not
    make up a text with a symbol after alphanumeric characters. *)
Lemma token_symbol_split (c : ascii) (post : string) :
  class_alnum c = false -> class_space c = false ->
  forall pre tok tail,
    string_forallb class_alnum pre = true ->
    string_forallb class_alnum tok = true -> is_tail tail = true ->
    tok +:+ tail <> pre +:+ String c post.
Proof.
  intros Hc Hsp. induction pre as [|p pre IH]; intros [|a tok] tail Hpre Htok Htail.
  - rewrite !string_app_nil_l. intros ->. cbn [is_tail] in Htail.
    by rewrite Hsp in Htail.
  - rewrite string_app_cons, string_app_nil_l. intros [= -> _].
    cbn [string_forallb] in Htok. by rewrite Hc in Htok.
  - rewrite string_app_nil_l, string_app_cons. intros ->.
    cbn [is_tail string_forallb] in *.
    apply andb_true_iff in Hpre as [Hp%alnum_not_space _]. by rewrite Hp in Htail.
  - rewrite !string_app_cons. intros [= -> H].
    cbn [string_forallb] in *.
    apply andb_true_iff in Hpre as [_ Hpre]. apply andb_true_iff in Htok as [_ Htok].
    by apply (IH tok tail).
Qed.

Lemma responseRegex_rejects_symbol (st : string) (sp : ascii) (pre : string)
    (c : ascii) (post : string) :
  is_status st = true -> string_forallb class_alnum pre = true ->
  class_alnum c = false -> class_space c = false -> byte_is c "-" = false ->
  responseRegex_FindStringSubmatch
    (st +:+ String sp ("result=" +:+ pre +:+ String c post)) = None.
Proof.
  intros Hst Hpre Hc Hsp Hminus.
  destruct (responseRegex_FindStringSubmatch _) as [pieces|] eqn:Hm; [|done].
  exfalso.
  apply responseRegex_grammar in Hm
    as (st' & sp' & tok & tail & Hst' & _ & Htok & Htail & Hraw & _).
  unfold reply_line in Hraw.
  apply string_app_inj_length in Hraw as [_ [= _ Hraw]].
  2:{ unfold is_status in Hst, Hst'.
      apply andb_true_iff in Hst as [Hl%Nat.eqb_eq _].
      apply andb_true_iff in Hst' as [Hl'%Nat.eqb_eq _]. congruence. }
  apply string_app_inj_length in Hraw as [_ Hraw]; [|done].
  symmetry in Hraw. revert Hraw.
  destruct tok as [|a tok]; [by apply token_symbol_split|].
  cbn [is_token] in Htok. destruct (byte_is a "-") eqn:Ha.
  - apply byte_is_true in Ha as ->. rewrite string_app_cons.
    destruct pre as [|p pre].
    + rewrite string_app_nil_l. intros [= <- _]. done.
    + rewrite string_app_cons. intros [= <- _]. done.
  - by apply token_symbol_split.
Qed.

(** A line that begins with a status is neither empty nor a hangup
    notice. *)
Lemma status_line_not_skipped (st s : string) :
  is_status st = true ->
  String.eqb (st +:+ s) "" = false /\ strings_HasPrefix (st +:+ s) "HANGUP" = false.
Proof.
  unfold is_status. intros [Hlen Hd]%andb_true_iff.
  destruct st as [|d1 st]; [done|]. cbn [string_forallb] in Hd.
  apply andb_true_iff in Hd as [Hd1 _].
  rewrite string_app_cons. split; [done|].
  cbn [strings_HasPrefix]. by rewrite class_digit_not_H.
Qed.

Section SymbolDigits.

Variable toMSec : Z -> string.

(** X21.  A result token with a character that is neither alphanumeric
    nor white space nor [-], such as [*] or [#], after alphanumeric
    characters does not match [responseRegex]: [GetData] returns the
    empty string and the parse error with the line. *)
Theorem GetData_symbol_digit (a : AGI) (sound : string) (timeout maxdigits : Z)
    (st : string) (sp : ascii) (pre : string) (c : ascii) (post : string)
    (rest : list string) (e : ScanEnd) :
  Write (w a) (command_line (GetData_args toMSec sound timeout maxdigits)) = None ->
  bufio_NewScanner (r a)
  = ((st +:+ String sp ("result=" +:+ pre +:+ String c post)) :: rest, e) ->
  is_status st = true -> string_forallb class_alnum pre = true ->
  class_alnum c = false -> class_space c = false -> byte_is c "-" = false ->
  result (GetData toMSec a sound timeout maxdigits)
  = Some ("", Some (ErrParseResult
                      (st +:+ String sp ("result=" +:+ pre +:+ String c post)))).
Proof.
  intros Hw Hscan Hst Hpre Hc Hsp Hminus.
  unfold GetData, run_map. cbn [result].
  rewrite Command_sent, Hscan by done. cbn [fst snd read_reply].
  destruct (status_line_not_skipped st
              (String sp ("result=" +:+ pre +:+ String c post)) Hst) as [-> ->].
  cbn [reading_done reading_resp reading_raw result].
  unfold parse_reply. by rewrite responseRegex_rejects_symbol.
Qed.

End SymbolDigits.

(** ** Digits and recordings *)

Lemma rune_small (i : Z) : - 2 ^ 31 <= i < 2 ^ 31 -> rune i = i.
Proof. intros H. unfold rune. rewrite Z.mod_small; lia. Qed.

Lemma Record_defaults_fields (opts : RecordOptions) :
  Format (Record_defaults opts)
  = (if String.eqb (Format opts) "" then "wav" else Format opts) /\
  EscapeDigits (Record_defaults opts)
  = (if String.eqb (EscapeDigits opts) "" then "#" else EscapeDigits opts) /\
  Timeout (Record_defaults opts)
  = (if Timeout opts =? 0 then 5 * Minute else Timeout opts) /\
  Silence (Record_defaults opts) = Silence opts /\
  Beep (Record_defaults opts) = Beep opts /\
  Offset (Record_defaults opts) = Offset opts.
Proof.
  destruct opts as [format escape timeout silence beep offset].
  unfold Record_defaults. cbn [Format EscapeDigits Timeout Silence Beep Offset].
  destruct (String.eqb format "");
    cbn [Format EscapeDigits Timeout Silence Beep Offset];
    destruct (String.eqb escape "");
    cbn [Format EscapeDigits Timeout Silence Beep Offset];
    destruct (timeout =? 0);
    cbn [Format EscapeDigits Timeout Silence Beep Offset]; done.
Qed.

Lemma Record_defaults_idem (opts : RecordOptions) :
  Record_defaults (Record_defaults opts) = Record_defaults opts.
Proof.
  destruct opts as [format escape timeout silence beep offset].
  unfold Record_defaults. cbn [Format EscapeDigits Timeout Silence Beep Offset].
  destruct (String.eqb format "") eqn:Hf;
    cbn [Format EscapeDigits Timeout Silence Beep Offset];
    destruct (String.eqb escape "") eqn:He;
    cbn [Format EscapeDigits Timeout Silence Beep Offset];
    destruct (timeout =? 0) eqn:Ht;
    cbn [Format EscapeDigits Timeout Silence Beep Offset];
    unfold Minute, Second;
    repeat (simpl; rewrite ?Hf, ?He, ?Ht); reflexivity.
Qed.

Section WaitFacts.

Variable toMSec : Z -> string.
Variable toSec : Z -> string.
Variable isPrint_tables : Z -> bool.

(** X24.  On a reply with status 200 whose result is the code of a
    printable ASCII character, [WaitForDigit] returns that character and
    no error. *)
Theorem WaitForDigit_key (a : AGI) (timeout : Z) (st : string) (sp : ascii)
    (tok tail : string) (rest : list string) (e : ScanEnd) (n : Z) :
  Write (w a) (command_line ["WAIT FOR DIGIT"; toMSec timeout]) = None ->
  bufio_NewScanner (r a) = (reply_line st sp tok tail :: rest, e) ->
  is_status st = true -> class_space sp = true ->
  is_token tok = true -> is_tail tail = true ->
  decimal st = StatusOK ->
  strconv_Atoi tok = (n, None) -> 32 <= n <= 126 ->
  result (WaitForDigit toMSec isPrint_tables a timeout)
  = Some (String (byte_chr n) "", None).
Proof.
  intros Hw Hscan Hst Hsp Htok Htail Hok Hconv Hn.
  unfold WaitForDigit, run_map. cbn [result].
  rewrite (Command_first_reply _ _ _ _ _ _ _ _ _ Hw Hscan) by done.
  rewrite check_status_200 by done. rewrite Hconv.
  cbn [fmap option_fmap option_map fst snd set_ResultString Error Result].
  rewrite bool_decide_eq_true_2, rune_small by (done || lia).
  unfold strconv_IsPrint, string_of_int.
  replace (n <=? 255) with true by lia.
  replace (32 <=? n) with true by lia. replace (n <=? 126) with true by lia.
  replace (0 <=? n) with true by lia. replace (n <=? 127) with true by lia.
  done.
Qed.

(** X25.  On a reply with status 200 whose result, cut to 32 bits as
    [rune] does, is below 32, such as 0 when no key was pressed and -1 on
    failure, [WaitForDigit] returns the empty string and no error. *)
Theorem WaitForDigit_no_key (a : AGI) (timeout : Z) (st : string) (sp : ascii)
    (tok tail : string) (rest : list string) (e : ScanEnd) (n : Z) :
  Write (w a) (command_line ["WAIT FOR DIGIT"; toMSec timeout]) = None ->
  bufio_NewScanner (r a) = (reply_line st sp tok tail :: rest, e) ->
  is_status st = true -> class_space sp = true ->
  is_token tok = true -> is_tail tail = true ->
  decimal st = StatusOK ->
  strconv_Atoi tok = (n, None) -> rune n < 32 ->
  result (WaitForDigit toMSec isPrint_tables a timeout) = Some ("", None).
Proof.
  intros Hw Hscan Hst Hsp Htok Htail Hok Hconv Hn.
  unfold WaitForDigit, run_map. cbn [result].
  rewrite (Command_reply_result _ _ _ _ _ _ _ _ _ Hw Hscan) by done.
  unfold reply_error. rewrite Hconv. cbn [fst snd].
  replace (decimal st =? StatusOK) with true by lia.
  cbn [fmap option_fmap option_map fst snd set_ResultString Error Result].
  rewrite bool_decide_eq_true_2 by done.
  unfold strconv_IsPrint.
  replace (rune n <=? 255) with true by lia.
  replace (32 <=? rune n) with false by lia.
  replace (161 <=? rune n) with false by lia.
  done.
Qed.

(** X26.  [Record] stores its defaults in the options it was given: after
    the call the format is [wav], the escape digits are [#] and the
    timeout is five minutes where they were unset, the other fields are
    unchanged, and a call with the stored options is the same call.  Nil
    options are the zero options. *)
Theorem Record_defaults_stored (a : AGI) (name : string) (opts : RecordOptions) :
  exists filled,
    (AGI_Record toMSec toSec a name (Some opts)).2 = Some filled /\
    Format filled = (if String.eqb (Format opts) "" then "wav" else Format opts) /\
    EscapeDigits filled
    = (if String.eqb (EscapeDigits opts) "" then "#" else EscapeDigits opts) /\
    Timeout filled = (if Timeout opts =? 0 then 5 * Minute else Timeout opts) /\
    Silence filled = Silence opts /\ Beep filled = Beep opts /\
    Offset filled = Offset opts /\
    AGI_Record toMSec toSec a name (Some filled)
    = AGI_Record toMSec toSec a name (Some opts) /\
    AGI_Record toMSec toSec a name None
    = ((AGI_Record toMSec toSec a name (Some RecordOptions_zero)).1, None).
Proof.
  exists (Record_defaults opts).
  destruct (Record_defaults_fields opts) as (Hf & He & Ht & Hs & Hb & Ho).
  split; [reflexivity|]. repeat (split; [assumption|]).
  split; [|reflexivity].
  unfold AGI_Record. cbn [default from_option id]. rewrite Record_defaults_idem. reflexivity.
Qed.

End WaitFacts.

(** X24, on the reply [200 result=49], the key [1]. *)
Lemma WaitForDigit_key_witness :
  Write (w session_key) (command_line ["WAIT FOR DIGIT"; "5000"])
  = None /\
  bufio_NewScanner (r session_key) = ([reply_line "200" " " "49" ""], ScanBlocks) /\
  result (WaitForDigit (fun _ => "5000") (fun _ => false) session_key 5000000000)
  = Some ("1", None).
Proof.
  split; [reflexivity|]. split; [reflexivity|].
  apply (WaitForDigit_key (fun _ => "5000") (fun _ => false) session_key 5000000000
           "200" " "%char "49" "" [] ScanBlocks 49); try reflexivity. lia.
Defined.

(** X25, on the reply [200 result=0]. *)
Lemma WaitForDigit_no_key_witness :
  Write (w session_unset) (command_line ["WAIT FOR DIGIT"; "5000"]) = None /\
  bufio_NewScanner (r session_unset) = ([reply_line "200" " " "0" ""], ScanBlocks) /\
  rune 0 < 32 /\
  result (WaitForDigit (fun _ => "5000") (fun _ => false) session_unset 5000000000)
  = Some ("", None).
Proof.
  split; [reflexivity|]. split; [reflexivity|]. split; [reflexivity|].
  apply (WaitForDigit_no_key (fun _ => "5000") (fun _ => false) session_unset 5000000000
           "200" " "%char "0" "" [] ScanBlocks 0); reflexivity.
Defined.

(** The result is cut to 32 bits for the test and used whole for the
    text: a result that is 49 modulo [2^32] but no code point gives the
    replacement character, and no error. *)
Example WaitForDigit_wraps :
  rune (-4294967247) = 49 /\
  result (WaitForDigit (fun _ => "5000") (fun _ => false)
            (session ("200 result=-4294967247" +:+ nl) false) 5000000000)
  = Some (String "239" (String "191" (String "189" "")), None).
Proof. split; by vm_compute. Qed.

(** ** Instances *)

(** X3, on the same session with a timeout of one second. *)
Lemma Command_timeout_error_witness :
  0 < 1000000000 /\
  Write (w session_silent) (command_line ["NOOP"]) = None /\
  bufio_NewScanner (r session_silent) = (["HANGUP"; "HANGUP 2"], ScanBlocks) /\
  Forall (fun h => exists t, h = "HANGUP" +:+ t) ["HANGUP"; "HANGUP 2"] /\
  Command session_silent 1000000000 ["NOOP"]
  = mkRun (Some (mkResponse (Some ErrTimeout) 0 0 "" ""))
      (EvWrite (command_line ["NOOP"])
         :: (scan_line <$> ["HANGUP"; "HANGUP 2"]) ++ [EvScanBlocks]).
Proof.
  split; [lia|]. split; [reflexivity|]. split; [reflexivity|].
  split; [repeat constructor; [by exists ""|by exists " 2"]|].
  apply (Command_timeout_error session_silent 1000000000 ["NOOP"] ["HANGUP"; "HANGUP 2"]);
    [lia|reflexivity|reflexivity|repeat constructor; [by exists ""|by exists " 2"]].
Defined.

(** X4, on the reply [510 result=0]. *)
Lemma Command_reply_status_witness :
  Write (w session_510) (command_line ["NOOP"]) = None /\
  bufio_NewScanner (r session_510) = ([reply_line "510" " " "0" ""], ScanBlocks) /\
  result (Command session_510 0 ["NOOP"])
  = Some (mkResponse (Some (ErrNon200 "510 result=0")) 510 0 "0" "").
Proof.
  split; [reflexivity|]. split; [reflexivity|].
  apply (Command_reply_status session_510 0 ["NOOP"] "510" " "%char "0" "" []
           ScanBlocks 0); reflexivity.
Defined.

(** X5, on two streams that begin with a hangup notice and the reply [200 result=1 (avail)]. *)
Lemma Command_reads_prefix_only_witness :
  w session_hangup = w session_hangup_more /\
  bufio_NewScanner (r session_hangup)
  = (["HANGUP"] ++ "200 result=1 (avail)" :: [], ScanBlocks) /\
  bufio_NewScanner (r session_hangup_more)
  = (["HANGUP"] ++ "200 result=1 (avail)" :: ["200 result=2"], ScanStops) /\
  Command session_hangup 0 ["NOOP"] = Command session_hangup_more 0 ["NOOP"] /\
  (Write (w session_hangup) (command_line ["NOOP"]) = None ->
   trace (Command session_hangup 0 ["NOOP"])
   = EvWrite (command_line ["NOOP"])
       :: (scan_line <$> ["HANGUP"] ++ ["200 result=1 (avail)"])).
Proof.
  split; [reflexivity|]. split; [reflexivity|]. split; [reflexivity|].
  apply (Command_reads_prefix_only session_hangup session_hangup_more 0 ["NOOP"]
           ["HANGUP"] "200 result=1 (avail)" [] ["200 result=2"] ScanBlocks ScanStops);
    [reflexivity|reflexivity|reflexivity|by repeat constructor|by intros [=]].
Defined.

(** X6, on the reply [510 result=0]. *)
Lemma Command_response_invariant_witness :
  result (Command session_510 0 ["NOOP"])
  = Some (mkResponse (Some (ErrNon200 "510 result=0")) 510 0 "0" "") /\
  0 <= 510 <= 999 /\
  is_token "0" = true /\
  - 2 ^ 63 <= 0 <= 2 ^ 63 - 1 /\
  (Some (ErrNon200 "510 result=0") = None -> 510 = StatusOK).
Proof.
  split; [reflexivity|].
  apply (Command_response_invariant session_510 0 ["NOOP"]
           (mkResponse (Some (ErrNon200 "510 result=0")) 510 0 "0" "")).
  reflexivity.
Defined.

(** X8, on a stream that ends after one line. *)
Lemma NewWithEAGI_end_of_stream_witness :
  bufio_NewScanner reader_cut = (["agi_request: x"], ScanStops) /\
  Forall (fun l => l <> "") ["agi_request: x"] /\
  exists a,
    NewWithEAGI reader_cut writer_ok None
    = mkRun (Some a) ((scan_line <$> ["agi_request: x"]) ++ [EvScan None]) /\
    forall k v, Variables a !! k = Some v <-> last_binding ["agi_request: x"] k v.
Proof.
  split; [reflexivity|]. split; [by repeat constructor|].
  apply (NewWithEAGI_end_of_stream reader_cut writer_ok None ["agi_request: x"]);
    [reflexivity|by repeat constructor].
Defined.

(** X10, on a connection whose peer sends a complete handshake. *)
Lemma Close_connection_witness :
  result (NewConn conn_ready) = Some session_ready /\
  IsClosed (Some session_ready) = false /\
  exists a',
    Close (fun _ => None) session_ready = (None, a', [conn_ready]) /\
    IsClosed (Some a') = true /\
    Variables a' = Variables session_ready /\
    Close (fun _ => None) a' = (None, a', []).
Proof.
  split; [by vm_compute|].
  apply (Close_connection (fun _ => None) conn_ready session_ready). by vm_compute.
Defined.

(** X11, on the session of the handshake example. *)
Lemma Close_without_connection_witness :
  result (NewWithEAGI (mkReader handshake_input false) writer_ok None)
  = Some (mkAGI {["a" := "z"; "agi_channel" := "SIP/1234"]}
            (mkReader handshake_input false) None writer_ok None) /\
  IsClosed (Some (mkAGI {["a" := "z"; "agi_channel" := "SIP/1234"]}
                    (mkReader handshake_input false) None writer_ok None)) = true /\
  Close (fun _ => Some "closed")
    (mkAGI {["a" := "z"; "agi_channel" := "SIP/1234"]}
       (mkReader handshake_input false) None writer_ok None)
  = (None,
     mkAGI {["a" := "z"; "agi_channel" := "SIP/1234"]}
       (mkReader handshake_input false) None writer_ok None, []).
Proof.
  split; [by vm_compute|].
  apply (Close_without_connection (fun _ => Some "closed")
           (mkReader handshake_input false) writer_ok None). by vm_compute.
Defined.

(** X12, when the bind fails. *)
Lemma Listen_returns_error_witness :
  (Listen unit (fun _ _ => inr "address already in use") "" tt).1
  = Some (ErrBind "address already in use") /\
  ((exists cause,
      (fun _ _ : string => @inr net_Listener string "address already in use")
        "tcp" (listen_addr "") = inr cause /\
      ErrBind "address already in use" = ErrBind cause /\
      (Listen unit (fun _ _ => inr "address already in use") "" tt).2
      = [NetListen "tcp" (listen_addr "")]) \/
   (exists l cause,
      (fun _ _ : string => @inr net_Listener string "address already in use")
        "tcp" (listen_addr "") = inl l /\
      accept_err l = Some cause /\
      ErrBind "address already in use" = ErrAccept cause /\
      Forall (fun c => is_Some (result (NewConn c))) (incoming l) /\
      last (Listen unit (fun _ _ => inr "address already in use") "" tt).2
      = Some NetClose)).
Proof.
  split; [reflexivity|].
  apply (Listen_returns_error (fun _ _ => inr "address already in use") tt ""
           (ErrBind "address already in use")).
  reflexivity.
Defined.

(** X13, on a listener with one connection. *)
Lemma Listen_serves_each_connection_witness :
  (fun _ _ : string => @inl net_Listener string listener_one) "tcp" (listen_addr "")
  = inl listener_one /\
  Forall2 (fun c a => result (NewConn c) = Some a) (incoming listener_one)
    [session_ready] /\
  accept_err listener_one = Some "use of closed network connection" /\
  Listen unit (fun _ _ => inl listener_one) "" tt
  = (Some (ErrAccept "use of closed network connection"),
     NetListen "tcp" (listen_addr "")
       :: served tt (incoming listener_one) [session_ready]
          ++ [NetAccept None; NetClose]) /\
  Forall2 (fun c a => conn a = Some c /\ IsClosed (Some a) = false)
    (incoming listener_one) [session_ready].
Proof.
  split; [reflexivity|].
  split; [by repeat constructor; vm_compute|].
  split; [reflexivity|].
  apply (Listen_serves_each_connection (fun _ _ => inl listener_one) tt ""
           listener_one [session_ready] "use of closed network connection");
    [reflexivity|by repeat constructor; vm_compute|reflexivity].
Defined.

(** X14, on a listener whose second connection never ends its handshake. *)
Lemma Listen_stalled_by_handshake_witness :
  (fun _ _ : string => @inl net_Listener string listener_stalled) "tcp" (listen_addr "")
  = inl listener_stalled /\
  incoming listener_stalled = [conn_ready] ++ conn_stalled :: [conn_ready] /\
  Forall2 (fun c a => result (NewConn c) = Some a) [conn_ready] [session_ready] /\
  result (NewConn conn_stalled) = None /\
  Listen unit (fun _ _ => inl listener_stalled) "" tt
  = (None,
     NetListen "tcp" (listen_addr "")
       :: served tt [conn_ready] [session_ready] ++ [NetAccept (Some conn_stalled)]).
Proof.
  split; [reflexivity|]. split; [reflexivity|].
  split; [by repeat constructor; vm_compute|].
  split; [reflexivity|].
  apply (Listen_stalled_by_handshake (fun _ _ => inl listener_stalled) tt ""
           listener_stalled [conn_ready] [conn_ready] conn_stalled [session_ready]);
    [reflexivity|reflexivity|by repeat constructor; vm_compute|reflexivity].
Defined.

(** X15, on the reply [200 result=1 (6)]. *)
Lemma Get_value_witness :
  Write (w session_value) (command_line ["GET VARIABLE"; "STATE"]) = None /\
  bufio_NewScanner (r session_value)
  = ([reply_line "200" " " "1" (String " " ("(" +:+ "6" +:+ ")"))], ScanBlocks) /\
  exists err,
    result (Get session_value "STATE") = Some ("6", err) /\
    (err = None <-> decimal "200" = StatusOK /\ (strconv_Atoi "1").2 = None).
Proof.
  split; [reflexivity|]. split; [reflexivity|].
  apply (Get_value session_value "STATE" "200" " "%char "1" " "%char "6" []
           ScanBlocks); reflexivity.
Defined.

(** X16, on the reply [200 result=0]. *)
Lemma Get_without_value_witness :
  Write (w session_unset) (command_line ["GET VARIABLE"; "STATE"]) = None /\
  bufio_NewScanner (r session_unset) = ([reply_line "200" " " "0" ""], ScanBlocks) /\
  result (Get session_unset "STATE") = Some ("", None) /\
  (reply_error "200" "0" (reply_line "200" " " "0" "") = None <->
   decimal "200" = StatusOK /\ (strconv_Atoi "0").2 = None).
Proof.
  split; [reflexivity|]. split; [reflexivity|].
  apply (Get_without_value session_unset "STATE" "200" " "%char "0" [] ScanBlocks);
    reflexivity.
Defined.

(** X17, on the reply [200 result=6]. *)
Lemma Status_without_value_witness :
  Write (w session_state) (command_line ["CHANNEL STATUS"]) = None /\
  bufio_NewScanner (r session_state) = ([reply_line "200" " " "6" ""], ScanBlocks) /\
  result (AGI_Status session_state) = Some (StateDown, Some (ErrParseState "")).
Proof.
  split; [reflexivity|]. split; [reflexivity|].
  apply (Status_without_value session_state "200" " "%char "6" [] ScanBlocks);
    reflexivity.
Defined.

(** X18, on the reply [200 result=1 (6)]. *)
Lemma Status_value_witness :
  Write (w session_value) (command_line ["CHANNEL STATUS"]) = None /\
  bufio_NewScanner (r session_value)
  = ([reply_line "200" " " "1" (String " " ("(" +:+ "6" +:+ ")"))], ScanBlocks) /\
  result (AGI_Status session_value) = Some (StateUp, None).
Proof.
  split; [reflexivity|]. split; [reflexivity|].
  apply (Status_value session_value "200" " "%char "1" " "%char "6" [] ScanBlocks);
    try reflexivity. discriminate.
Defined.

(** X19, on the reply [200 result=12345 (timeout)]. *)
Lemma GetData_digits_witness :
  Write (w session_digits)
    (command_line (GetData_args (fun _ => "5000") "" 5000000000 5)) = None /\
  bufio_NewScanner (r session_digits)
  = ([reply_line "200" " " "12345" " (timeout)"], ScanBlocks) /\
  result (GetData (fun _ => "5000") session_digits "" 5000000000 5)
  = Some ("12345",
          if decimal "12345" <? 2 ^ 63 then None
          else Some (ErrResultCode (mkNumError "Atoi" "12345" ErrRange)
                       (reply_line "200" " " "12345" " (timeout)"))).
Proof.
  split; [reflexivity|]. split; [reflexivity|].
  apply (GetData_digits (fun _ => "5000") session_digits "" 5000000000 5
           "200" " "%char "12345" " (timeout)" [] ScanBlocks);
    try reflexivity. discriminate.
Defined.

(** X20, on the reply [200 result= (timeout)]. *)
Lemma GetData_no_digits_witness :
  Write (w session_no_digits)
    (command_line (GetData_args (fun _ => "5000") "" 5000000000 5)) = None /\
  bufio_NewScanner (r session_no_digits)
  = ([reply_line "200" " " "" " (timeout)"], ScanBlocks) /\
  result (GetData (fun _ => "5000") session_no_digits "" 5000000000 5)
  = Some ("", Some (ErrResultCode (mkNumError "Atoi" "" ErrSyntax)
                      (reply_line "200" " " "" " (timeout)"))).
Proof.
  split; [reflexivity|]. split; [reflexivity|].
  apply (GetData_no_digits (fun _ => "5000") session_no_digits "" 5000000000 5
           "200" " "%char " (timeout)" [] ScanBlocks); reflexivity.
Defined.

(** X21, on the reply [200 result=12*3 (timeout)]. *)
Lemma GetData_symbol_digit_witness :
  Write (w session_star)
    (command_line (GetData_args (fun _ => "5000") "" 5000000000 5)) = None /\
  bufio_NewScanner (r session_star)
  = (["200" +:+ String " " ("result=" +:+ "12" +:+ String "*" "3 (timeout)")],
     ScanBlocks) /\
  result (GetData (fun _ => "5000") session_star "" 5000000000 5)
  = Some ("", Some (ErrParseResult
                      ("200" +:+ String " " ("result=" +:+ "12" +:+ String "*" "3 (timeout)")))).
Proof.
  split; [reflexivity|]. split; [reflexivity|].
  apply (GetData_symbol_digit (fun _ => "5000") session_star "" 5000000000 5
           "200" " "%char "12" "*"%char "3 (timeout)" [] ScanBlocks); reflexivity.
Defined.

(** X2, on a session whose peer sends two hangup notices and stays
    silent. *)
Lemma Command_waits_without_timeout_witness :
  0 <= 0 /\
  Write (w session_silent) (command_line ["NOOP"]) = None /\
  bufio_NewScanner (r session_silent) = (["HANGUP"; "HANGUP 2"], ScanBlocks) /\
  Forall (fun h => exists t, h = "HANGUP" +:+ t) ["HANGUP"; "HANGUP 2"] /\
  Command session_silent 0 ["NOOP"]
  = mkRun None
      (EvWrite (command_line ["NOOP"])
         :: (scan_line <$> ["HANGUP"; "HANGUP 2"]) ++ [EvScanBlocks]).
Proof.
  split; [lia|]. split; [reflexivity|]. split; [reflexivity|].
  split; [repeat constructor; [by exists ""|by exists " 2"]|].
  apply (Command_waits_without_timeout session_silent 0 ["NOOP"] ["HANGUP"; "HANGUP 2"]);
    [lia|reflexivity|reflexivity|repeat constructor; [by exists ""|by exists " 2"]].
Defined.

(** X23, on a session whose peer sends two hangup notices and stays
    silent. *)
Lemma fixed_timeouts_expire_witness :
  (forall p, Write (w session_silent) p = None) /\
  bufio_NewScanner (r session_silent) = (["HANGUP"; "HANGUP 2"], ScanBlocks) /\
  Forall (fun h => exists t, h = "HANGUP" +:+ t) ["HANGUP"; "HANGUP 2"] /\
  result (Answer session_silent) = Some (Some ErrTimeout) /\
  result (Hangup session_silent) = Some (Some ErrTimeout) /\
  result (Set_ session_silent "k" "v") = Some (Some ErrTimeout) /\
  result (Get session_silent "k") = Some ("", Some ErrTimeout) /\
  result (AGI_Status session_silent)
  = Some (StateDown, Some (StatusCommandError ErrTimeout)).
Proof.
  split; [reflexivity|]. split; [reflexivity|].
  split; [repeat constructor; [by exists ""|by exists " 2"]|].
  apply (fixed_timeouts_expire session_silent "k" "v" ["HANGUP"; "HANGUP 2"]);
    [reflexivity|reflexivity|repeat constructor; [by exists ""|by exists " 2"]].
Defined.

(** X22, on the same session. *)
Lemma GetData_no_timeout_witness :
  Write (w session_silent)
    (command_line (GetData_args (fun _ => "5000") "" 5000000000 5)) = None /\
  bufio_NewScanner (r session_silent) = (["HANGUP"; "HANGUP 2"], ScanBlocks) /\
  Forall (fun h => exists t, h = "HANGUP" +:+ t) ["HANGUP"; "HANGUP 2"] /\
  GetData (fun _ => "5000") session_silent "" 5000000000 5
  = mkRun None
      (EvWrite ("GET DATA silence/1 5000 5" +:+ nl)
         :: (scan_line <$> ["HANGUP"; "HANGUP 2"]) ++ [EvScanBlocks]).
Proof.
  split; [reflexivity|]. split; [reflexivity|].
  split; [repeat constructor; [by exists ""|by exists " 2"]|].
  apply (GetData_no_timeout (fun _ => "5000") session_silent "" 5000000000 5
           ["HANGUP"; "HANGUP 2"]);
    [reflexivity|reflexivity|repeat constructor; [by exists ""|by exists " 2"]].
Defined.

(** ** The bounds on the loops of the scanner suffice *)

Lemma string_length_take_drop (n : nat) (s : string) :
  (String.length (string_take n s) + String.length (string_drop n s))%nat
  = String.length s.
Proof.
  revert s. induction n as [|n IH]; intros [|c s]; cbn; try done.
  by rewrite IH.
Qed.

(** A [Read] that returns bytes takes them from the source. *)
Lemma Source_Read_size (src : Source) (n : Z) (p : string) (src' : Source) :
  Source_Read src n = ReadBytes p src' ->
  (String.length p + Source_size src')%nat = Source_size src.
Proof.
  unfold Source_Read, Source_size. destruct (pending src) as [|chunk chunks].
  - by destruct (src_closes src).
  - destruct (len chunk <=? n); intros [= <- <-]; cbn [pending foldr]; [done|].
    pose proof (string_length_take_drop (Z.to_nat n) chunk). lia.
Qed.

(** The loop of reads ends with an error set, or with bytes taken from
    the source; the bytes held and to come stay the same. *)
Lemma Scan_read_size (left : nat) :
  forall (s : Scanner) (src : Source) (s' : Scanner) (src' : Source),
    sc_err s = None ->
    Scan_read left s src = FillDone s' src' ->
    (String.length (sc_held s') + Source_size src'
     = String.length (sc_held s) + Source_size src)%nat /\
    (Source_size src' <= Source_size src)%nat /\
    (sc_err s' <> None \/ (sc_err s' = None /\ Source_size src' < Source_size src)%nat).
Proof.
  induction left as [|left IH]; intros s src s' src' Herr; cbn [Scan_read];
    destruct (Source_Read src (sc_buf s - sc_end s)) as [p src1| |] eqn:Hread;
    try done.
  - pose proof (Source_Read_size _ _ _ _ Hread) as Hsize.
    destruct (0 <? len p) eqn:Hp; intros [= <- <-]; cbn [sc_held sc_err].
    + rewrite string_length_app. split; [lia|]. split; [lia|]. right. split; [done|].
      unfold len in Hp. lia.
    + unfold setErr. cbn [sc_err]. rewrite Herr.
      cbn [sc_held sc_err]. rewrite string_length_app.
      split; [lia|]. split; [lia|]. by left.
  - intros [= <- <-]. unfold setErr. rewrite Herr. cbn [sc_held sc_err].
    split; [done|]. split; [done|]. by left.
  - pose proof (Source_Read_size _ _ _ _ Hread) as Hsize.
    destruct (0 <? len p) eqn:Hp.
    + intros [= <- <-]; cbn [sc_held sc_err].
      rewrite string_length_app. split; [lia|]. split; [lia|]. right. split; [done|].
      unfold len in Hp. lia.
    + intros Hrec. apply IH in Hrec as (Hsum & Hle & Hcase); [|done].
      cbn [sc_held] in Hsum. rewrite string_length_app in Hsum.
      split; [lia|]. split; [lia|].
      destruct Hcase as [?|[? ?]]; [by left|]. right. split; [done|]. lia.
  - intros [= <- <-]. unfold setErr. rewrite Herr. cbn [sc_held sc_err].
    split; [done|]. split; [done|]. by left.
Qed.

Lemma IndexByte_nl_bound (data : string) (i : nat) :
  IndexByte_nl data = Some i -> (i < String.length data)%nat.
Proof.
  revert i. induction data as [|c data IH]; intros i; [done|].
  cbn [IndexByte_nl String.length]. destruct (byte_is c "010"); [intros [= <-]; lia|].
  destruct (IndexByte_nl data) as [j|]; [|done]. intros [= <-].
  specialize (IH j eq_refl). lia.
Qed.

(** A token takes at least one byte, and no more than the scanner
    holds. *)
Lemma ScanLines_advance (data : string) (atEOF : bool) (advance : nat) (text : string) :
  ScanLines data atEOF = (advance, Some text) ->
  (1 <= advance <= String.length data)%nat.
Proof.
  unfold ScanLines. destruct (atEOF && (len data =? 0)) eqn:Hempty; [done|].
  destruct (IndexByte_nl data) as [i|] eqn:Hi.
  - intros [= <- _]. apply IndexByte_nl_bound in Hi. lia.
  - destruct atEOF; [|done]. intros [= <- _]. cbn [andb] in Hempty.
    unfold len in Hempty. lia.
Qed.

Lemma string_length_drop (n : nat) (s : string) :
  (n <= String.length s)%nat ->
  String.length (string_drop n s) = (String.length s - n)%nat.
Proof.
  intros Hn. pose proof (string_length_take_drop n s) as Hsum.
  assert (String.length (string_take n s) = n); [|lia].
  clear Hsum. revert s Hn. induction n as [|n IH]; intros [|c s]; cbn; try done; try lia.
  intros H. rewrite IH; [done|lia].
Qed.

(** The loop of [Scan] comes to its end within the bound, and a token
    takes at least one byte of what the scanner holds and the source has
    yet to deliver. *)
Lemma Scan_shift_keeps (s : Scanner) :
  sc_err (Scan_shift s) = sc_err s /\ sc_held (Scan_shift s) = sc_held s.
Proof. unfold Scan_shift. by destruct (_ && _). Qed.

Lemma Scan_grow_keeps (s : Scanner) :
  sc_err (Scan_grow s) = sc_err s /\ sc_held (Scan_grow s) = sc_held s.
Proof. unfold Scan_grow. by destruct (_ =? _). Qed.

Lemma Scan_loop_bound (fuel : nat) :
  forall (s : Scanner) (src : Source),
    (Source_size src + (if sc_err s is Some _ then 1 else 2) <= fuel)%nat ->
    Scan_loop fuel s src <> ScanFuel /\
    forall text s' src',
      Scan_loop fuel s src = ScanTrue text s' src' ->
      (String.length (sc_held s') + Source_size src'
       < String.length (sc_held s) + Source_size src)%nat.
Proof.
  induction fuel as [|fuel IH]; intros s src Hfuel.
  { destruct (sc_err s); lia. }
  cbn [Scan_loop].
  destruct (Scan_split s) as [advance token] eqn:Hsplit.
  destruct token as [text|].
  { split; [done|]. intros ? ? ? [= <- <- <-]. cbn [Scan_advance sc_held].
    unfold Scan_split in Hsplit.
    destruct ((sc_start s <? sc_end s) || bool_decide (sc_err s <> None)); [|done].
    apply ScanLines_advance in Hsplit. rewrite string_length_drop; lia. }
  assert (Hheld : (String.length (sc_held (Scan_advance advance s))
                   <= String.length (sc_held s))%nat).
  { cbn [Scan_advance sc_held].
    pose proof (string_length_take_drop advance (sc_held s)). lia. }
  assert (Herr0 : sc_err (Scan_advance advance s) = sc_err s) by done.
  set (s0 := Scan_advance advance s) in *.
  destruct (sc_err s) as [e|] eqn:Herr.
  { rewrite Herr0, bool_decide_eq_true_2 by done. done. }
  rewrite Herr0, bool_decide_eq_false_2 by (by intros H; apply H).
  destruct (Scan_shift_keeps s0) as [Herr1 Hheld1].
  destruct (Scan_grow_keeps (Scan_shift s0)) as [Herr2 Hheld2].
  destruct ((sc_end (Scan_shift s0) =? sc_buf (Scan_shift s0))
            && (MaxScanTokenSize <=? sc_buf (Scan_shift s0))); [done|].
  destruct (Scan_read maxConsecutiveEmptyReads (Scan_grow (Scan_shift s0)) src)
    as [s' src'|src'] eqn:Hread; [|done].
  apply Scan_read_size in Hread as (Hsum & Hle & Hcase); [|congruence].
  rewrite Hheld2, Hheld1 in Hsum.
  destruct (IH s' src') as [Hnf Hlt].
  { destruct Hcase as [Hc|[Hc ?]].
    - destruct (sc_err s'); [lia|done].
    - rewrite Hc. lia. }
  split; [done|]. intros text s'' src'' Hrun. specialize (Hlt _ _ _ Hrun). lia.
Qed.

Lemma Scan_bound (s : Scanner) (src : Source) :
  Scan s src <> ScanFuel /\
  forall text s' src',
    Scan s src = ScanTrue text s' src' ->
    (String.length (sc_held s') + Source_size src'
     < String.length (sc_held s) + Source_size src)%nat.
Proof. apply Scan_loop_bound. destruct (sc_err s); lia. Qed.

Lemma read_reply_from_bound (fuel : nat) :
  forall (s : Scanner) (src : Source) (resp : Response) (raw : string),
    (String.length (sc_held s) + Source_size src < fuel)%nat ->
    is_Some (read_reply_from fuel s src resp raw).
Proof.
  induction fuel as [|fuel IH]; intros s src resp raw Hfuel; [lia|].
  cbn [read_reply_from]. destruct (Scan_bound s src) as [Hnf Hlt].
  destruct (Scan s src) as [text s' src'|s' src'|src'|] eqn:Hscan; try done.
  destruct (String.eqb text ""); [done|].
  destruct (strings_HasPrefix text "HANGUP"); [|done].
  specialize (Hlt _ _ _ eq_refl).
  destruct (IH s' src' resp text) as [[rd src''] ->]; [lia|]. done.
Qed.

(** [Command_from] is total: the bound on the number of lines is never
    reached. *)
Lemma Command_from_total (wr : io_Writer) (src : Source) (timeout : Z)
    (cmd : list string) :
  is_Some (Command_from wr src timeout cmd).
Proof.
  unfold Command_from. destruct (Write wr (command_line cmd)); [done|].
  destruct (read_reply_from_bound (Source_size src + 1) NewScanner src Response_zero "")
    as [[rd src'] ->]; [cbn; lia|]. done.
Qed.

(** ** The scanner on the first chunk of a reader *)

Lemma IndexByte_nl_line (line rest : string) :
  no_newline line ->
  IndexByte_nl (line +:+ nl +:+ rest) = Some (String.length line).
Proof.
  unfold no_newline. induction line as [|c line IH]; intros Hl; [done|].
  cbn [string_forallb] in Hl. apply andb_true_iff in Hl as [Hc Hl].
  rewrite string_app_cons. cbn [IndexByte_nl String.length].
  unfold class_any_not_nl in Hc. apply negb_true_iff, Z.eqb_neq in Hc.
  rewrite byte_is_false by (by change (byte "010") with 10).
  by rewrite IH.
Qed.

Lemma string_drop_line (line rest : string) :
  string_drop (S (String.length line)) (line +:+ nl +:+ rest) = rest.
Proof.
  induction line as [|c line IH]; [done|].
  rewrite string_app_cons. cbn [String.length string_drop]. exact IH.
Qed.

(** The first turn of the loop of [Scan] on a new scanner makes the
    buffer and reads. *)
Lemma Scan_loop_new (fuel : nat) (src : Source) :
  Scan_loop (S fuel) NewScanner src
  = match Scan_read maxConsecutiveEmptyReads (mkScanner startBufSize 0 "" None) src with
    | FillDone s' src' => Scan_loop fuel s' src'
    | FillWaits src' => ScanWaits src'
    end.
Proof. reflexivity. Qed.

(** A [Read] into a buffer with room for the next chunk. *)
Lemma Scan_read_chunk (left : nat) (s : Scanner) (chunk : string)
    (chunks : list string) (closes : bool) :
  0 < len chunk <= sc_buf s - sc_end s ->
  Scan_read left s (mkSource (chunk :: chunks) closes)
  = FillDone (mkScanner (sc_buf s) (sc_start s) (sc_held s +:+ chunk) (sc_err s))
      (mkSource chunks closes).
Proof.
  intros Hfit. destruct left; cbn [Scan_read]; unfold Source_Read; cbn [pending src_closes];
    replace (len chunk <=? sc_buf s - sc_end s) with true by lia;
    by replace (0 <? len chunk) with true by lia.
Qed.

(** A turn of the loop of [Scan] that finds a token in what the scanner
    holds. *)
Lemma Scan_loop_token (fuel : nat) (buf start : Z) (held : string) (src : Source)
    (advance : nat) (text : string) :
  held <> "" ->
  ScanLines held false = (advance, Some text) ->
  Scan_loop (S fuel) (mkScanner buf start held None) src
  = ScanTrue text (mkScanner buf (start + Z.of_nat advance) (string_drop advance held) None)
      src.
Proof.
  intros Hne Hsplit. cbn [Scan_loop]. unfold Scan_split, sc_end.
  cbn [sc_start sc_held sc_err sc_buf].
  rewrite bool_decide_eq_false_2 by (by intros H; apply H).
  assert (0 < len held) by (destruct held; [done|unfold len; cbn [String.length]; lia]).
  replace (start <? start + len held) with true by lia.
  cbn [orb]. by rewrite Hsplit.
Qed.

(** When the first [Read] returns a line with its newline and more, and
    the chunk fits the first buffer, the first [Scan] gives the line, and
    the scanner holds the rest of the chunk. *)
Lemma Scan_first_chunk (line more : string) (chunks : list string) (closes : bool) :
  no_newline line ->
  len (line +:+ nl +:+ more) <= startBufSize ->
  Scan NewScanner (mkSource ((line +:+ nl +:+ more) :: chunks) closes)
  = ScanTrue (dropCR line) (mkScanner startBufSize (len line + 1) more None)
      (mkSource chunks closes).
Proof.
  intros Hline Hfit. unfold Scan.
  replace (Source_size _ + 2)%nat with (S (S (Source_size (mkSource chunks closes)
            + String.length (line +:+ nl +:+ more))))
    by (unfold Source_size; cbn [pending foldr]; lia).
  assert (Hpos : 0 < len (line +:+ nl +:+ more)).
  { unfold len. rewrite !string_length_app. cbn [String.length nl]. lia. }
  rewrite Scan_loop_new, Scan_read_chunk
    by (unfold sc_end; cbn [sc_buf sc_start sc_held]; change (len "") with 0; lia).
  cbn [sc_buf sc_start sc_held sc_err]. rewrite string_app_nil_l.
  rewrite (Scan_loop_token _ _ _ _ _ (S (String.length line)) (dropCR line)).
  - rewrite string_drop_line. f_equal. f_equal. unfold len. lia.
  - by destruct line.
  - unfold ScanLines. cbn [andb].
    by rewrite IndexByte_nl_line, string_take_app.
Qed.

Section FirstChunk.

Variable wr : io_Writer.

(** X27.  The scanner of a call is dropped with what it holds: when the
    first [Read] of a command returns a line, its newline and more, and
    the line is no hangup notice, the call stops at the line and leaves
    the reader after the whole chunk; what followed the line in the chunk
    reaches no later command. *)
Theorem Command_drops_buffered (timeout : Z) (cmd : list string) (line more : string)
    (chunks : list string) (closes : bool) :
  Write wr (command_line cmd) = None ->
  no_newline line ->
  len (line +:+ nl +:+ more) <= startBufSize ->
  strings_HasPrefix (dropCR line) "HANGUP" = false ->
  exists resp,
    Command_from wr (mkSource ((line +:+ nl +:+ more) :: chunks) closes) timeout cmd
    = Some (mkRun (Some resp) [EvWrite (command_line cmd); EvScan (Some (dropCR line))],
            mkSource chunks closes).
Proof.
  intros Hw Hline Hfit Hnh. unfold Command_from. rewrite Hw.
  rewrite Nat.add_1_r. cbn [read_reply_from]. rewrite Scan_first_chunk by done.
  rewrite Hnh. destruct (String.eqb (dropCR line) ""); by eexists.
Qed.

End FirstChunk.

(** X27, on a reader whose first [Read] returns [banana] together with the
    reply that follows it. *)
Lemma Command_drops_buffered_witness :
  Write writer_ok (command_line ["ANSWER"]) = None /\
  no_newline "banana" /\
  len ("banana" +:+ nl +:+ ("200 result=1" +:+ nl)) <= startBufSize /\
  strings_HasPrefix (dropCR "banana") "HANGUP" = false /\
  exists resp,
    Command_from writer_ok
      (mkSource [("banana" +:+ nl +:+ ("200 result=1" +:+ nl))] false) 0 ["ANSWER"]
    = Some (mkRun (Some resp)
              [EvWrite (command_line ["ANSWER"]); EvScan (Some (dropCR "banana"))],
            mkSource [] false).
Proof.
  split; [reflexivity|]. split; [reflexivity|]. split; [by vm_compute|].
  split; [reflexivity|].
  apply (Command_drops_buffered writer_ok 0 ["ANSWER"] "banana" ("200 result=1" +:+ nl)
           [] false); [reflexivity|reflexivity|by vm_compute|reflexivity].
Defined.
